(** * RapidReach operational scripts: a shallow embedding and its properties

    The repository holds four independent command-line scripts:
    - [acceptance-test-runner.py]  (module [Runner]),
    - [update-time-estimates.py]   (module [Estimator]),
    - [script/generate_updates.py] (module [Packager]),
    - [mqtt/scripts/test_mqtt_emqx.py] (module [Smoke]).

    Python [str] values are modelled as [string]: sequences of code points
    below 256.  Python floats that the scripts only compare, truncate or
    print are modelled by the rational they denote. *)

From Stdlib Require Import ZArith QArith Qround Ascii String List Lia Bool.
From Stdlib Require Import DecimalString.
From stdpp Require Import gmap strings.

Import ListNotations.
Set Warnings "-register-all".
Local Open Scope bool_scope.
Local Open Scope string_scope.

(** ** Python string operations *)

Module PyStr.

(** [str.lower()] on one code point below 256: the ASCII capitals and the
    Latin-1 capitals (0xC0..0xDE without the multiplication sign 0xD7). *)
Definition lower_char (c : ascii) : ascii :=
  let n := N_of_ascii c in
  if ((65 <=? n)%N && (n <=? 90)%N)
     || ((192 <=? n)%N && (n <=? 222)%N && negb (n =? 215)%N)
  then ascii_of_N (n + 32)
  else c.

(** [s.lower()] *)
Fixpoint lower (s : string) : string :=
  match s with
  | EmptyString => EmptyString
  | String c s' => String (lower_char c) (lower s')
  end.

(** [s.startswith(p)] *)
Fixpoint startswith (p s : string) : bool :=
  match p, s with
  | EmptyString, _ => true
  | String _ _, EmptyString => false
  | String a p', String b s' => if Ascii.eqb a b then startswith p' s' else false
  end.

(** [needle in s] *)
Fixpoint contains (needle s : string) : bool :=
  startswith needle s
  || match s with
     | EmptyString => false
     | String _ s' => contains needle s'
     end.

(** [sep.join(parts)] *)
Fixpoint join (sep : string) (parts : list string) : string :=
  match parts with
  | [] => EmptyString
  | [p] => p
  | p :: rest => p +:+ sep +:+ join sep rest
  end.

(** truth value of a [str]: non-empty *)
Definition truthy (s : string) : bool :=
  match s with EmptyString => false | String _ _ => true end.

(** [str(n)] for an [int] *)
Definition str_of_int (z : Z) : string :=
  NilZero.string_of_int (Z.to_int z).

(** [c.isspace()] for a code point below 256 *)
Definition is_space (c : ascii) : bool :=
  let n := N_of_ascii c in
  ((9 <=? n)%N && (n <=? 13)%N) || ((28 <=? n)%N && (n <=? 32)%N)
  || (n =? 133)%N || (n =? 160)%N.

(** [s.lstrip()] *)
Fixpoint lstrip (s : string) : string :=
  match s with
  | EmptyString => EmptyString
  | String c s' => if is_space c then lstrip s' else s
  end.

(** [s.rstrip()] *)
Fixpoint rstrip (s : string) : string :=
  match s with
  | EmptyString => EmptyString
  | String c s' =>
      match rstrip s' with
      | EmptyString => if is_space c then EmptyString else String c EmptyString
      | r => String c r
      end
  end.

(** [s.strip()] *)
Definition strip (s : string) : string := rstrip (lstrip s).

(** [s.split(sep)] for a separator of one character *)
Fixpoint split_on (sep : ascii) (s : string) : list string :=
  match s with
  | EmptyString => [EmptyString]
  | String c s' =>
      if Ascii.eqb c sep then EmptyString :: split_on sep s'
      else match split_on sep s' with
           | [] => [String c EmptyString]
           | part :: parts => String c part :: parts
           end
  end.

(** [s.count(c)] for one character *)
Fixpoint count_char (c : ascii) (s : string) : nat :=
  match s with
  | EmptyString => O
  | String c' s' => (if Ascii.eqb c' c then 1 else 0) + count_char c s'
  end.

(** the lines a text file yields when iterated (universal newlines: a
    line ends at LF, CR LF or CR), without their terminators *)
Fixpoint file_lines_from (current : string) (s : string) : list string :=
  match s with
  | EmptyString => match current with EmptyString => [] | _ => [current] end
  | String c s' =>
      if Ascii.eqb c "010" then current :: file_lines_from EmptyString s'
      else if Ascii.eqb c "013" then
        match s' with
        | String c' s'' =>
            if Ascii.eqb c' "010" then current :: file_lines_from EmptyString s''
            else current :: file_lines_from EmptyString s'
        | EmptyString => [current]
        end
      else file_lines_from (current +:+ String c EmptyString) s'
  end.

Definition file_lines (s : string) : list string := file_lines_from EmptyString s.

(** What "[tok] occurs in [text], ignoring case" means: some stretch of
    [text] equals [tok] once both are lowercased. *)
Definition ci_occurs (tok text : string) : Prop :=
  ∃ pre mid post, text = pre +:+ mid +:+ post ∧ lower mid = lower tok.

End PyStr.

(** ** Python numbers *)

Module PyNum.

(** [x < y] on floats *)
Definition lt (x y : Q) : bool := negb (Qle_bool y x).

(** [max(x, y)]: the first argument unless the second is greater *)
Definition py_max (x y : Q) : Q := if lt x y then y else x.

(** [int(x)]: truncation toward zero *)
Definition py_int (q : Q) : Z := Z.quot (Qnum q) (Zpos (Qden q)).

(** nearest integer, ties to the even one *)
Definition round_half_even (q : Q) : Z :=
  let f := Qfloor q in
  match (q - inject_Z f ?= 1 # 2)%Q with
  | Lt => f
  | Gt => (f + 1)%Z
  | Eq => if Z.even f then f else (f + 1)%Z
  end.

(** [round(x, 1)] *)
Definition round1 (q : Q) : Q :=
  (inject_Z (round_half_even (q * 10)) / 10)%Q.

Definition digit (d : Z) : ascii := ascii_of_N (48 + Z.to_N d).

(** digits of [num / den] after the decimal point, for [0 <= num < den] *)
Fixpoint frac_digits (fuel : nat) (num den : Z) : string :=
  match fuel with
  | O => EmptyString
  | S fuel' =>
      let d := (num * 10 / den)%Z in
      let r := ((num * 10) mod den)%Z in
      String (digit d) (if (r =? 0)%Z then EmptyString else frac_digits fuel' r den)
  end.

(** [repr(x)] of a float whose decimal expansion ends within 17 digits *)
Definition float_repr (q : Q) : string :=
  let n := Qnum q in
  let d := Zpos (Qden q) in
  let a := Z.abs n in
  (if (n <? 0)%Z then "-" else "")
  +:+ PyStr.str_of_int (a / d) +:+ "." +:+ frac_digits 17 (a mod d) d.

End PyNum.

(** ** Python exceptions and JSON values *)

Inductive exn :=
| KeyError (k : string)
| TypeError
| AttributeError
| ValueError
| JSONDecodeError
| ConnectionError
| OSError.

Module Json.

Inductive json :=
| JNull
| JBool (b : bool)
| JInt (z : Z)
| JFloat (q : Q)
| JStr (s : string)
| JList (l : list json)
| JDict (kv : list (string * json)).

(** [d.get(k)] on the pairs of a [dict] *)
Fixpoint assoc (k : string) (kv : list (string * json)) : option json :=
  match kv with
  | [] => None
  | (k', v) :: rest => if String.eqb k k' then Some v else assoc k rest
  end.

(** [obj[k]] for a string key *)
Definition getitem (obj : json) (k : string) : exn + json :=
  match obj with
  | JDict kv =>
      match assoc k kv with
      | Some v => inr v
      | None => inl (KeyError k)
      end
  | _ => inl TypeError
  end.

(** [bool(obj)] *)
Definition truthy (obj : json) : bool :=
  match obj with
  | JNull => false
  | JBool b => b
  | JInt z => negb (z =? 0)%Z
  | JFloat q => negb (Qeq_bool q 0)
  | JStr s => PyStr.truthy s
  | JList l => match l with [] => false | _ => true end
  | JDict kv => match kv with [] => false | _ => true end
  end.

(** the items [for x in obj] visits *)
Definition iter (obj : json) : exn + list json :=
  match obj with
  | JList l => inr l
  | JDict kv => inr (map (fun p => JStr (fst p)) kv)
  | JStr s => inr (map (fun c => JStr (String c EmptyString)) (list_ascii_of_string s))
  | _ => inl TypeError
  end.

(** [obj.lower()] *)
Definition str_lower (obj : json) : exn + string :=
  match obj with
  | JStr s => inr (PyStr.lower s)
  | _ => inl AttributeError
  end.

(** the double-quote character, as a string *)
Definition dquote : string := String "034" EmptyString.

Definition hex_digit (n : N) : ascii :=
  if (n <? 10)%N then ascii_of_N (48 + n) else ascii_of_N (87 + n).

(** one character inside a JSON string literal ([ensure_ascii=True]) *)
Definition escape_char (c : ascii) : string :=
  let n := N_of_ascii c in
  if (n =? 34)%N then String "\" dquote
  else if (n =? 92)%N then "\\"
  else if (n =? 10)%N then "\n"
  else if (n =? 13)%N then "\r"
  else if (n =? 9)%N then "\t"
  else if (n =? 8)%N then "\b"
  else if (n =? 12)%N then "\f"
  else if ((32 <=? n)%N && (n <=? 126)%N) then String c EmptyString
  else "\u00" +:+ String (hex_digit (n / 16)) (String (hex_digit (n mod 16)) EmptyString).

Fixpoint escape (s : string) : string :=
  match s with
  | EmptyString => EmptyString
  | String c s' => escape_char c +:+ escape s'
  end.

Definition quote (s : string) : string := dquote +:+ escape s +:+ dquote.

(** [json.dumps(obj)] with the default separators *)
Fixpoint dumps (j : json) : string :=
  match j with
  | JNull => "null"
  | JBool true => "true"
  | JBool false => "false"
  | JInt z => PyStr.str_of_int z
  | JFloat q => PyNum.float_repr q
  | JStr s => quote s
  | JList l =>
      "[" +:+ (fix items (l : list json) : string :=
                 match l with
                 | [] => EmptyString
                 | [x] => dumps x
                 | x :: rest => dumps x +:+ ", " +:+ items rest
                 end) l +:+ "]"
  | JDict kv =>
      "{" +:+ (fix items (kv : list (string * json)) : string :=
                 match kv with
                 | [] => EmptyString
                 | [(k, v)] => quote k +:+ ": " +:+ dumps v
                 | (k, v) :: rest => quote k +:+ ": " +:+ dumps v +:+ ", " +:+ items rest
                 end) kv +:+ "}"
  end.

End Json.

(** ** Effects: a state monad with exceptions and [exit] *)

Module Eff.

Inductive outcome (A : Type) :=
| Ok (a : A)
| Raised (e : exn)
| Exited (code : Z).

Arguments Ok {A} a.
Arguments Raised {A} e.
Arguments Exited {A} code.

Definition M (S A : Type) : Type := S -> outcome A * S.

Definition ret {S A} (a : A) : M S A := fun s => (Ok a, s).

Definition bind {S A B} (m : M S A) (k : A -> M S B) : M S B :=
  fun s =>
    match m s with
    | (Ok a, s') => k a s'
    | (Raised e, s') => (Raised e, s')
    | (Exited c, s') => (Exited c, s')
    end.

Definition raise {S A} (e : exn) : M S A := fun s => (Raised e, s).

(** [exit(code)]: [SystemExit] is not an [Exception], no handler below
    catches it *)
Definition exit {S A} (code : Z) : M S A := fun s => (Exited code, s).

(** [try: m  except Exception as e: h e] *)
Definition try_except {S A} (m : M S A) (h : exn -> M S A) : M S A :=
  fun s =>
    match m s with
    | (Raised e, s') => h e s'
    | r => r
    end.

Definition lift {S A} (r : exn + A) : M S A :=
  match r with
  | inl e => raise e
  | inr a => ret a
  end.

Definition get {S} : M S S := fun s => (Ok s, s).
Definition modify {S} (f : S -> S) : M S unit := fun s => (Ok tt, f s).

(** [for x in l: body x] *)
Fixpoint for_each {S A} (l : list A) (body : A -> M S unit) : M S unit :=
  match l with
  | [] => ret tt
  | x :: rest => bind (body x) (fun _ => for_each rest body)
  end.

End Eff.

Declare Scope eff_scope.
Delimit Scope eff_scope with eff.
Notation "x <- m ;; k" := (Eff.bind m (fun x => k))
  (at level 100, m at next level, right associativity) : eff_scope.
Notation "m ;;; k" := (Eff.bind m (fun _ => k))
  (at level 100, right associativity) : eff_scope.

(** ** HTTP requests as the scripts issue them *)

Module Web.
Import Json.

Inductive method := GET | POST | PUT.

Record request := {
  meth : method;
  url : string;
  params : list (string * string);
  body : option json
}.

(** What a call of [requests.get/post/put] comes back with: it raises, or
    it returns a response with a status code and a content that parses as
    JSON or does not. *)
Inductive reply :=
| NoReply (e : exn)
| Reply (status_code : Z) (content : option json).

(** [response.json()] *)
Definition reply_json (content : option json) : exn + json :=
  match content with
  | Some j => inr j
  | None => inl JSONDecodeError
  end.

End Web.

(** ** acceptance-test-runner.py *)

Module Runner.
Import PyStr PyNum Json Web Eff.
Local Open Scope eff_scope.

Record test_info := {
  name : string;
  commands : list string;
  expected : list string;
  time_minutes : Z
}.

(** the [TEST_CASES] dict, in insertion order *)
Definition TEST_CASES : list (string * test_info) := [
  ("RDP-179", {| name := "Test audio playback with CLI commands";
                 commands := ["rapidreach audio play /path/to/test.wav";
                              "rapidreach audio status"];
                 expected := ["Playing"; "Status:"];
                 time_minutes := 5 |});
  ("RDP-180", {| name := "Test volume control (0-100 range)";
                 commands := ["rapidreach audio volume 0";
                              "rapidreach audio volume 50";
                              "rapidreach audio volume 100";
                              "rapidreach audio volume"];
                 expected := ["Volume set to"; "Current volume:"];
                 time_minutes := 3 |});
  ("RDP-181", {| name := "Test mute/unmute functionality";
                 commands := ["rapidreach audio mute";
                              "rapidreach audio status";
                              "rapidreach audio unmute";
                              "rapidreach audio status"];
                 expected := ["Muted"; "Unmuted"];
                 time_minutes := 3 |});
  ("RDP-186", {| name := "Check battery status via CLI";
                 commands := ["rapidreach power battery";
                              "rapidreach power status"];
                 expected := ["Battery:"; "Level:"; "%"];
                 time_minutes := 2 |});
  ("RDP-187", {| name := "Monitor charging state";
                 commands := ["rapidreach power charging"];
                 expected := ["Charging:"; "Status:"];
                 time_minutes := 2 |});
  ("RDP-193", {| name := "Test WiFi connection and status";
                 commands := ["rapidreach network wifi status";
                              "rapidreach network wifi scan"];
                 expected := ["WiFi"; "Status:"; "SSID:"];
                 time_minutes := 3 |});
  ("RDP-194", {| name := "Test Ethernet connectivity";
                 commands := ["rapidreach network ethernet status"];
                 expected := ["Ethernet"; "Status:"; "IP:"];
                 time_minutes := 2 |});
  ("RDP-195", {| name := "Test LTE modem connection";
                 commands := ["rapidreach network lte status";
                              "rapidreach network lte signal"];
                 expected := ["LTE"; "Status:"; "Signal:"];
                 time_minutes := 3 |});
  ("RDP-200", {| name := "Test all LED colors and patterns";
                 commands := ["rapidreach led red on";
                              "rapidreach led green on";
                              "rapidreach led blue on";
                              "rapidreach led all off";
                              "rapidreach led red blink";
                              "rapidreach led status"];
                 expected := ["LED"; "on"; "off"; "blink"];
                 time_minutes := 4 |});
  ("RDP-201", {| name := "Test switch/button detection";
                 commands := ["rapidreach gpio read button1";
                              "rapidreach gpio status"];
                 expected := ["GPIO"; "State:"; "Level:"];
                 time_minutes := 3 |});
  ("RDP-207", {| name := "Check system uptime";
                 commands := ["rapidreach system uptime"];
                 expected := ["Uptime:"; "seconds"; "minutes"];
                 time_minutes := 1 |});
  ("RDP-208", {| name := "Monitor CPU usage";
                 commands := ["rapidreach system cpu"];
                 expected := ["CPU:"; "Usage:"; "%"];
                 time_minutes := 2 |});
  ("RDP-209", {| name := "Check memory usage";
                 commands := ["rapidreach system memory"];
                 expected := ["Memory:"; "Used:"; "Free:"; "KB"];
                 time_minutes := 2 |});
  ("RDP-210", {| name := "Test shell commands execution";
                 commands := ["help"; "version"; "rapidreach test"];
                 expected := ["Available commands:"; "Version:"; "Hello"];
                 time_minutes := 2 |});
  ("RDP-221", {| name := "Test MQTT connection";
                 commands := ["rapidreach mqtt status"];
                 expected := ["MQTT"; "Connected"; "Broker:"];
                 time_minutes := 2 |});
  ("RDP-222", {| name := "Test MQTT publish functionality";
                 commands := ["rapidreach mqtt publish test/topic " +:+ dquote
                                +:+ "Test message" +:+ dquote];
                 expected := ["Published"; "Success"];
                 time_minutes := 2 |});
  ("RDP-223", {| name := "Test MQTT heartbeat";
                 commands := ["rapidreach mqtt heartbeat status"];
                 expected := ["Heartbeat"; "Active"; "Interval:"];
                 time_minutes := 2 |})
].

(** an MQTT message as [on_message] receives it: bytes that decode as
    UTF-8 to a text, or bytes that do not *)
Inductive payload :=
| Utf8 (text : string)
| Undecodable.

(** [msg.payload.decode('utf-8')] *)
Definition decode (msg : payload) : exn + string :=
  match msg with
  | Utf8 text => inr text
  | Undecodable => inl ValueError
  end.

(** What the run does not decide: the environment variables, the broker
    and the device behind it, the clock and the issue tracker. *)
Record env := {
  DEVICE_ID : string;
  JIRA_URL : string;
  (** [mqtt_client.connect] returns, or raises *)
  connect_ok : bool;
  (** the messages the network thread hands to [on_message] between the
      reset in the k-th [send_command] and its [join] *)
  arrivals : nat -> list payload;
  (** the k-th reading of [time.time()] *)
  clock : nat -> Q;
  (** the k-th [datetime.now()], formatted *)
  stamp : nat -> string;
  (** the reply to the k-th HTTP request *)
  http : nat -> request -> reply
}.

(** [self.test_results[test_id]] *)
Record test_result := {
  passed : bool;
  elapsed_minutes : Q;
  estimated_minutes : Z;
  results : list (string * string)
}.

(** the lines the script prints, one constructor per [print] *)
Inductive line :=
| ConnectFailed
| SetupFailed
| Sending (command : string)
| ResponseLine (head : string)
| MessageError (e : exn)
| ExpectedNotFound
| NoResponse
| Verdict (test_id : string) (passed : bool)
| Elapsed (seconds : Q) (estimated : Z)
| LoggedWork (minutes : Q) (test_id : string)
| LogWorkFailed (status_code : Z)
| MovedToDone (test_id : string)
| TransitionFailed (status_code : Z)
| DoneNotFound
| JiraError (e : exn)
| RunError (test_id : string) (e : exn)
| Summary (total passed failed : nat) (total_time : Q).

Inductive event :=
| Published (topic message : string)
| Slept (seconds : Z)
| Requested (r : request)
| Printed (l : line)
| Saved (file : string) (total passed failed : nat) (total_minutes : Q)
        (results : gmap string test_result)
| Disconnected.

Record state := {
  (** everything the run has done so far, oldest first *)
  out : list event;
  n_http : nat;
  n_mqtt : nat;
  n_clock : nat;
  (** [self.responses] *)
  responses : list string;
  (** [self.test_results] *)
  test_results : gmap string test_result;
  (** the counters of [run_all_tests] *)
  passed_count : nat;
  failed_count : nat;
  total_time : Q
}.

Definition initial : state :=
  {| out := []; n_http := 0; n_mqtt := 0; n_clock := 0;
     responses := []; test_results := ∅;
     passed_count := 0; failed_count := 0; total_time := 0 |}.

Definition with_out (f : list event -> list event) (s : state) : state :=
  {| out := f (out s); n_http := n_http s; n_mqtt := n_mqtt s;
     n_clock := n_clock s; responses := responses s;
     test_results := test_results s; passed_count := passed_count s;
     failed_count := failed_count s; total_time := total_time s |}.

Definition with_n_http (f : nat -> nat) (s : state) : state :=
  {| out := out s; n_http := f (n_http s); n_mqtt := n_mqtt s;
     n_clock := n_clock s; responses := responses s;
     test_results := test_results s; passed_count := passed_count s;
     failed_count := failed_count s; total_time := total_time s |}.

Definition with_n_mqtt (f : nat -> nat) (s : state) : state :=
  {| out := out s; n_http := n_http s; n_mqtt := f (n_mqtt s);
     n_clock := n_clock s; responses := responses s;
     test_results := test_results s; passed_count := passed_count s;
     failed_count := failed_count s; total_time := total_time s |}.

Definition with_n_clock (f : nat -> nat) (s : state) : state :=
  {| out := out s; n_http := n_http s; n_mqtt := n_mqtt s;
     n_clock := f (n_clock s); responses := responses s;
     test_results := test_results s; passed_count := passed_count s;
     failed_count := failed_count s; total_time := total_time s |}.

Definition with_responses (f : list string -> list string) (s : state) : state :=
  {| out := out s; n_http := n_http s; n_mqtt := n_mqtt s;
     n_clock := n_clock s; responses := f (responses s);
     test_results := test_results s; passed_count := passed_count s;
     failed_count := failed_count s; total_time := total_time s |}.

Definition with_test_results
    (f : gmap string test_result -> gmap string test_result) (s : state) : state :=
  {| out := out s; n_http := n_http s; n_mqtt := n_mqtt s;
     n_clock := n_clock s; responses := responses s;
     test_results := f (test_results s); passed_count := passed_count s;
     failed_count := failed_count s; total_time := total_time s |}.

Definition with_passed_count (f : nat -> nat) (s : state) : state :=
  {| out := out s; n_http := n_http s; n_mqtt := n_mqtt s;
     n_clock := n_clock s; responses := responses s;
     test_results := test_results s; passed_count := f (passed_count s);
     failed_count := failed_count s; total_time := total_time s |}.

Definition with_failed_count (f : nat -> nat) (s : state) : state :=
  {| out := out s; n_http := n_http s; n_mqtt := n_mqtt s;
     n_clock := n_clock s; responses := responses s;
     test_results := test_results s; passed_count := passed_count s;
     failed_count := f (failed_count s); total_time := total_time s |}.

Definition with_total_time (f : Q -> Q) (s : state) : state :=
  {| out := out s; n_http := n_http s; n_mqtt := n_mqtt s;
     n_clock := n_clock s; responses := responses s;
     test_results := test_results s; passed_count := passed_count s;
     failed_count := failed_count s; total_time := f (total_time s) |}.

Definition emit (e : event) : M state unit :=
  modify (with_out (fun o => (o ++ [e])%list)).

Definition print (l : line) : M state unit := emit (Printed l).

Definition set_responses (l : list string) : M state unit :=
  modify (with_responses (fun _ => l)).

Definition set_test_result (test_id : string) (r : test_result) : M state unit :=
  modify (with_test_results (fun m => <[test_id := r]> m)).

Definition newline : string := String "010" EmptyString.

Section Run.
Variable E : env.

(** [time.time()] *)
Definition time_time : M state Q :=
  fun s => (Ok (clock E (n_clock s)), with_n_clock S s).

(** [datetime.now().strftime(...)] *)
Definition now_stamp : M state string :=
  fun s => (Ok (stamp E (n_clock s)), with_n_clock S s).

(** [requests.get/post(...)]: the request goes out, then the call raises
    or returns the response *)
Definition requests (r : request) : M state (Z * option json) :=
  fun s =>
    let s' := with_n_http S (with_out (fun o => (o ++ [Requested r])%list) s) in
    match http E (n_http s) r with
    | NoReply e => (Raised e, s')
    | Reply status_code content => (Ok (status_code, content), s')
    end.

(** [self.mqtt_client.publish(topic, message)], which also opens the next
    window of arrivals; the result is the number of that window *)
Definition publish (topic message : string) : M state nat :=
  fun s => (Ok (n_mqtt s),
            with_n_mqtt S (with_out (fun o => (o ++ [Published topic message])%list) s)).

Definition on_message (msg : payload) : M state unit :=
  try_except
    (response <- lift (decode msg) ;;
     s <- get ;;
     set_responses (responses s ++ [response]) ;;;
     print (ResponseLine (substring 0 100 response)))
    (fun e => print (MessageError e)).

Definition send_command (command : string) : M state string :=
  set_responses [] ;;;
  let command_topic := "rapidreach/" +:+ DEVICE_ID E +:+ "/cli/command" in
  print (Sending command) ;;;
  k <- publish command_topic command ;;
  (* time.sleep(1), while the network thread runs on_message *)
  for_each (arrivals E k) on_message ;;;
  emit (Slept 1) ;;;
  s <- get ;;
  ret (join newline (responses s)).

(** the inner [for expected in ...: if ...: found_expected = True; break] *)
Definition found_expected (info : test_info) (response : string) : bool :=
  existsb (fun expected => contains (lower expected) (lower response)) (expected info).

(** the body of the check on one response; the result is the new
    [test_passed] *)
Definition check_response (info : test_info) (test_passed : bool)
    (response : string) : M state bool :=
  if PyStr.truthy response then
    if negb (found_expected info response)
       && match expected info with [] => false | _ => true end
    then print ExpectedNotFound ;;; ret false
    else ret test_passed
  else
    print NoResponse ;;; ret false.

(** [for command in test_info['commands']: ...] *)
Fixpoint run_commands (info : test_info) (cmds : list string)
    (test_passed : bool) (results : list (string * string))
    : M state (bool * list (string * string)) :=
  match cmds with
  | [] => ret (test_passed, results)
  | command :: rest =>
      response <- send_command command ;;
      test_passed' <- check_response info test_passed response ;;
      run_commands info rest test_passed' (results ++ [(command, response)])
  end.

Definition run_test_case (test_id : string) (info : test_info) : M state bool :=
  start_time <- time_time ;;
  r <- run_commands info (commands info) true [] ;;
  let test_passed := fst r in
  end_time <- time_time ;;
  let elapsed_time := (end_time - start_time)%Q in
  set_test_result test_id
    {| passed := test_passed;
       elapsed_minutes := (elapsed_time / 60)%Q;
       estimated_minutes := time_minutes info;
       results := snd r |} ;;;
  print (Verdict test_id test_passed) ;;;
  print (Elapsed elapsed_time (time_minutes info)) ;;;
  ret test_passed.

(** [for transition in transitions: if transition['name'].lower() ==
    'done': done_transition = transition['id']; break], from
    [done_transition = None] *)
Fixpoint find_done (transitions : list json) : exn + json :=
  match transitions with
  | [] => inr JNull
  | transition :: rest =>
      match getitem transition "name" with
      | inl e => inl e
      | inr n =>
          match str_lower n with
          | inl e => inl e
          | inr lowered =>
              if String.eqb lowered "done" then getitem transition "id"
              else find_done rest
          end
      end
  end.

Definition worklog_url (test_id : string) : string :=
  JIRA_URL E +:+ "/rest/api/2/issue/" +:+ test_id +:+ "/worklog".

Definition transitions_url (test_id : string) : string :=
  JIRA_URL E +:+ "/rest/api/2/issue/" +:+ test_id +:+ "/transitions".

Definition worklog_data (passed : bool) (time_minutes : Q) (started : string) : json :=
  JDict [("timeSpent", JStr (str_of_int (py_int time_minutes) +:+ "m"));
         ("comment", JStr ("Automated test " +:+ (if passed then "passed" else "failed")
                           +:+ " via MQTT CLI interface"));
         ("started", JStr started)].

Definition update_jira_task (test_id : string) (passed : bool) (time_minutes : Q)
    : M state unit :=
  try_except
    (started <- now_stamp ;;
     worklog_response <-
       requests {| meth := POST; url := worklog_url test_id; params := [];
                   body := Some (worklog_data passed time_minutes started) |} ;;
     (if (fst worklog_response =? 200)%Z || (fst worklog_response =? 201)%Z
      then print (LoggedWork time_minutes test_id)
      else print (LogWorkFailed (fst worklog_response))) ;;;
     if passed then
       transitions_response <-
         requests {| meth := GET; url := transitions_url test_id; params := [];
                     body := None |} ;;
       if (fst transitions_response =? 200)%Z then
         parsed <- lift (reply_json (snd transitions_response)) ;;
         listed <- lift (getitem parsed "transitions") ;;
         transitions <- lift (iter listed) ;;
         done_transition <- lift (find_done transitions) ;;
         if Json.truthy done_transition then
           transition_response <-
             requests {| meth := POST; url := transitions_url test_id; params := [];
                         body := Some (JDict [("transition",
                                               JDict [("id", done_transition)])]) |} ;;
           if (fst transition_response =? 204)%Z
           then print (MovedToDone test_id)
           else print (TransitionFailed (fst transition_response))
         else print DoneNotFound
       else ret tt
     else ret tt)
    (fun e => print (JiraError e)).

(** [setup_mqtt]: [True] when the connection call returned *)
Definition setup_mqtt : M state bool :=
  if connect_ok E then emit (Slept 2) ;;; ret true
  else print ConnectFailed ;;; ret false.

(** [for test_id, test_info in TEST_CASES.items(): try: ... except ...] *)
Fixpoint run_cases (cases : list (string * test_info)) : M state unit :=
  match cases with
  | [] => ret tt
  | (test_id, info) :: rest =>
      try_except
        (passed <- run_test_case test_id info ;;
         (if passed then modify (with_passed_count S)
          else modify (with_failed_count S)) ;;;
         s <- get ;;
         r <- lift (match test_results s !! test_id with
                    | Some r => inr r
                    | None => inl (KeyError test_id)
                    end) ;;
         let actual_time := elapsed_minutes r in
         update_jira_task test_id passed (py_max actual_time 1) ;;;
         modify (with_total_time (fun t => (t + actual_time)%Q)) ;;;
         emit (Slept 2))
        (fun e =>
           print (RunError test_id e) ;;;
           modify (with_failed_count S)) ;;;
      run_cases rest
  end.

Definition run_all_tests : M state unit :=
  connected <- setup_mqtt ;;
  if negb connected then print SetupFailed
  else
    modify (with_passed_count (fun _ => O)) ;;;
    modify (with_failed_count (fun _ => O)) ;;;
    modify (with_total_time (fun _ => 0%Q)) ;;;
    run_cases TEST_CASES ;;;
    s <- get ;;
    print (Summary (length TEST_CASES) (passed_count s) (failed_count s)
                   (total_time s)) ;;;
    emit (Saved "acceptance-test-results.json" (length TEST_CASES)
                (passed_count s) (failed_count s) (total_time s)
                (test_results s)) ;;;
    emit Disconnected.

End Run.

(** *** The vocabulary of the statements about the runner *)

(** the texts among the messages of a window, in order of arrival *)
Fixpoint decoded (msgs : list payload) : list string :=
  match msgs with
  | [] => []
  | Utf8 text :: rest => text :: decoded rest
  | Undecodable :: rest => decoded rest
  end.

(** the response text collected during the k-th window *)
Definition response_text (E : env) (k : nat) : string :=
  join newline (decoded (arrivals E k)).

(** a response that lets the test pass: not empty, and with one of the
    expected tokens in it, whatever the case *)
Definition acceptable (info : test_info) (response : string) : Prop :=
  response ≠ "" ∧ ∃ tok, In tok (expected info) ∧ ci_occurs tok response.

(** the state after [on_message] has run on one message *)
Definition received (msg : payload) (s : state) : state :=
  match msg with
  | Utf8 text =>
      with_out (fun o => (o ++ [Printed (ResponseLine (substring 0 100 text))])%list)
        (with_responses (fun r => (r ++ [text])%list) s)
  | Undecodable => with_out (fun o => (o ++ [Printed (MessageError ValueError)])%list) s
  end.

(** what one response does to [test_passed] *)
Definition response_ok (info : test_info) (response : string) : bool :=
  PyStr.truthy response
  && (found_expected info response
      || match expected info with [] => true | _ => false end).

(** [response_ok] over the [n] windows from the k-th on *)
Fixpoint windows_ok (E : env) (info : test_info) (k n : nat) : bool :=
  match n with
  | O => true
  | S n' => response_ok info (response_text E k) && windows_ok E info (S k) n'
  end.

(** the record of the run only grows *)
Definition grows (s s' : state) : Prop :=
  ∃ evs, out s' = (out s ++ evs)%list.

(** a stretch of the run that adds events and leaves the stored results
    and the clock alone *)
Definition quiet (s s' : state) : Prop :=
  grows s s' ∧ test_results s' = test_results s ∧ n_clock s' = n_clock s.

(** the minutes [run_test_case] measures from a state: the two readings
    of the clock it takes, over sixty *)
Definition measured_minutes (E : env) (s : state) : Q :=
  ((clock E (S (n_clock s)) - clock E (n_clock s)) / 60)%Q.

(** the three requests of [update_jira_task] *)
Definition worklog_request (E : env) (test_id : string) (passed : bool)
    (time_minutes : Q) (started : string) : request :=
  {| meth := POST; url := worklog_url E test_id; params := [];
     body := Some (worklog_data passed time_minutes started) |}.

Definition transitions_query (E : env) (test_id : string) : request :=
  {| meth := GET; url := transitions_url E test_id; params := []; body := None |}.

Definition transition_request (E : env) (test_id : string) (done_transition : json)
    : request :=
  {| meth := POST; url := transitions_url E test_id; params := [];
     body := Some (JDict [("transition", JDict [("id", done_transition)])]) |}.

(** what a computation adds to the record of the run *)
Definition events_of {A : Type} (m : M state A) (s : state) : list event :=
  drop (length (out s)) (out (snd (m s))).

(** a listed transition named "done", whatever the case, with identifier [d] *)
Definition done_listed (transitions : list json) (d : json) : Prop :=
  ∃ t n, In t transitions ∧ getitem t "name" = inr (JStr n)
         ∧ lower n = "done" ∧ getitem t "id" = inr d.

(** *** Sample environments *)

(** a device that answers every command with one line, a clock that
    advances two seconds per reading, and a tracker that accepts the
    worklog and lists a transition named Done *)
Definition lab : env :=
  {| DEVICE_ID := "rapidreach_device";
     JIRA_URL := "https://jira.example";
     connect_ok := true;
     arrivals := fun _ => [Utf8 "Charging: yes, Status: ok"];
     clock := fun k => inject_Z (2 * Z.of_nat k);
     stamp := fun _ => "2025-01-01T00:00:00.000+0000";
     http := fun _ r =>
       match meth r with
       | GET => Reply 200 (Some (JDict [("transitions",
                   JList [JDict [("id", JStr "31"); ("name", JStr "Done")]])]))
       | POST =>
           match body r with
           | Some (JDict (("transition", _) :: _)) => Reply 204 None
           | _ => Reply 201 None
           end
       | PUT => Reply 204 None
       end |}.

(** the same, with a tracker that cannot be reached *)
Definition offline : env :=
  {| DEVICE_ID := DEVICE_ID lab; JIRA_URL := JIRA_URL lab;
     connect_ok := true; arrivals := arrivals lab; clock := clock lab;
     stamp := stamp lab;
     http := fun _ _ => NoReply ConnectionError |}.

Definition charging : test_info :=
  {| name := "Monitor charging state";
     commands := ["rapidreach power charging"];
     expected := ["Charging:"; "Status:"];
     time_minutes := 2 |}.

(** *** More vocabulary: what a whole run sends and counts *)

(** the topic the commands go to *)
Definition command_topic (E : env) : string :=
  "rapidreach/" +:+ DEVICE_ID E +:+ "/cli/command".

(** the MQTT publications among the events of a run, oldest first *)
Fixpoint published (evs : list event) : list (string * string) :=
  match evs with
  | [] => []
  | Published topic message :: rest => (topic, message) :: published rest
  | _ :: rest => published rest
  end.

(** the publications a test case stands for: its commands, in order *)
Definition case_commands (E : env) (c : string * test_info) : list (string * string) :=
  map (fun command => (command_topic E, command)) (commands (snd c)).

(** the verdict stored for a test, [false] when none is *)
Definition stored_passed (results : gmap string test_result) (test_id : string) : bool :=
  match results !! test_id with
  | Some r => passed r
  | None => false
  end.

(** a stretch of the run that publishes nothing and leaves the counters,
    the stored results and the windows of arrivals alone *)
Definition calm (s s' : state) : Prop :=
  published (out s') = published (out s)
  ∧ passed_count s' = passed_count s
  ∧ failed_count s' = failed_count s
  ∧ test_results s' = test_results s
  ∧ n_mqtt s' = n_mqtt s.

(** what [response.json()['transitions']] and the search for "done" make
    of the content of the answer to the transitions query *)
Definition done_transition_of (content : option json) : exn + json :=
  match reply_json content with
  | inl e => inl e
  | inr parsed =>
      match getitem parsed "transitions" with
      | inl e => inl e
      | inr listed =>
          match iter listed with
          | inl e => inl e
          | inr transitions => find_done transitions
          end
      end
  end.

(** the lab, with a tracker whose answer to the transitions query holds
    no transitions *)
Definition untidy : env :=
  {| DEVICE_ID := DEVICE_ID lab; JIRA_URL := JIRA_URL lab;
     connect_ok := true; arrivals := arrivals lab; clock := clock lab;
     stamp := stamp lab;
     http := fun _ r =>
       match meth r with
       | GET => Reply 200 (Some (JDict []))
       | _ => Reply 201 None
       end |}.

(** three listed transitions, two of them named "done" *)
Definition sample_transitions : list json :=
  [JDict [("id", JStr "11"); ("name", JStr "In Progress")];
   JDict [("id", JStr "31"); ("name", JStr "DONE")];
   JDict [("id", JStr "41"); ("name", JStr "Done")]].

(** the HTTP requests among the events of a run, oldest first *)
Fixpoint requested (evs : list event) : list request :=
  match evs with
  | [] => []
  | Requested r :: rest => r :: requested rest
  | _ :: rest => requested rest
  end.

(** a request the update of the issue [test_id] may send, given the
    verdict of its test: the worklog, and for a passed test the
    transitions query and the transition by a truthy id *)
Definition tracker_call (E : env) (passed : bool) (test_id : string) (r : request)
    : Prop :=
  (∃ time_minutes started, r = worklog_request E test_id passed time_minutes started)
  ∨ (passed = true
     ∧ (r = transitions_query E test_id
        ∨ ∃ d, Json.truthy d = true ∧ r = transition_request E test_id d)).

End Runner.

(** ** update-time-estimates.py *)

Module Estimator.
Import PyStr PyNum Json Web Eff.
Local Open Scope eff_scope.

(** An issue of a search answer, by the two fields the script reads:
    [task['key']] and [task['fields']['summary']]. *)
Record issue := {
  key : string;
  summary : string
}.

(** What a call of [requests.get/put] comes back with: it raises, or it
    returns a response with a status code and, for a search, the list
    under ['issues'] ([None] for a content that is no search result, on
    which [response.json()['issues']] raises). *)
Inductive answer :=
| NoAnswer (e : exn)
| Answer (status_code : Z) (issues : option (list issue)).

Record env := {
  JIRA_URL : string;
  (** the answer to the k-th HTTP request *)
  http : nat -> request -> answer
}.

Definition simple_keywords : list string :=
  ["configuration"; "basic"; "simple"; "flag"; "status"; "getter"; "setter";
   "validation"].

Definition complex_keywords : list string :=
  ["protocol"; "security"; "encryption"; "parser"; "handler"; "manager";
   "system"; "integration"].

Definition very_complex_keywords : list string :=
  ["tls"; "ssl"; "authentication"; "registration"; "audio"; "codec"; "streaming"].

(** [any(keyword in summary for keyword in keywords)] *)
Definition any_in (keywords : list string) (summary : string) : bool :=
  existsb (fun keyword => contains keyword summary) keywords.

(** the four lists of the categorization *)
Record buckets := {
  simple_tasks : list issue;
  medium_tasks : list issue;
  complex_tasks : list issue;
  very_complex_tasks : list issue
}.

Definition no_tasks : buckets :=
  {| simple_tasks := []; medium_tasks := []; complex_tasks := [];
     very_complex_tasks := [] |}.

(** the body of the first [for task in todo_tasks] *)
Definition categorize_task (b : buckets) (task : issue) : buckets :=
  let summary := lower (summary task) in
  if any_in very_complex_keywords summary then
    {| simple_tasks := simple_tasks b; medium_tasks := medium_tasks b;
       complex_tasks := complex_tasks b;
       very_complex_tasks := very_complex_tasks b ++ [task] |}
  else if any_in complex_keywords summary then
    {| simple_tasks := simple_tasks b; medium_tasks := medium_tasks b;
       complex_tasks := complex_tasks b ++ [task];
       very_complex_tasks := very_complex_tasks b |}
  else if any_in simple_keywords summary then
    {| simple_tasks := simple_tasks b ++ [task]; medium_tasks := medium_tasks b;
       complex_tasks := complex_tasks b;
       very_complex_tasks := very_complex_tasks b |}
  else
    {| simple_tasks := simple_tasks b; medium_tasks := medium_tasks b ++ [task];
       complex_tasks := complex_tasks b;
       very_complex_tasks := very_complex_tasks b |}.

Definition categorize (todo_tasks : list issue) : buckets :=
  fold_left categorize_task todo_tasks no_tasks.

(** The numbers of the script are read as exact rationals below: sums,
    products, quotients and [round(x, 1)] are those of the rationals,
    where the script computes with doubles and rounds the double it has.
    The two can differ by a tenth of an hour where a product lies within
    a rounding error of a tie of [round].  What is stated of the calls of
    a run is stated of [main_on], further down, for any arithmetic. *)

(** [len(l)] as a number *)
Definition len {A : Type} (l : list A) : Q := inject_Z (Z.of_nat (length l)).

Definition estimated_total (b : buckets) : Q :=
  len (simple_tasks b) * (15 # 10) + len (medium_tasks b) * (25 # 10)
  + len (complex_tasks b) * (35 # 10) + len (very_complex_tasks b) * (45 # 10).

Definition scaling_factor (b : buckets) : Q :=
  if lt 0 (estimated_total b) then 120 / estimated_total b else 1.

Definition simple_hours (b : buckets) : Q := round1 ((15 # 10) * scaling_factor b).
Definition medium_hours (b : buckets) : Q := round1 ((25 # 10) * scaling_factor b).
Definition complex_hours (b : buckets) : Q := round1 ((35 # 10) * scaling_factor b).
Definition very_complex_hours (b : buckets) : Q :=
  round1 ((45 # 10) * scaling_factor b).

Definition total_hours (b : buckets) : Q :=
  len (simple_tasks b) * simple_hours b + len (medium_tasks b) * medium_hours b
  + len (complex_tasks b) * complex_hours b
  + len (very_complex_tasks b) * very_complex_hours b.

(** "Determine hours based on complexity", in the update loop *)
Definition hours_of (b : buckets) (task : issue) : Q :=
  let summary := lower (summary task) in
  if any_in very_complex_keywords summary then very_complex_hours b
  else if any_in complex_keywords summary then complex_hours b
  else if any_in simple_keywords summary then simple_hours b
  else medium_hours b.

(** the lines the script prints that depend on the run *)
Inductive line :=
| FetchError (status_code : Z)
| Found (n : nat)
| Breakdown (simple medium complex very_complex : nat)
| EstimatedTotal (hours : Q)
| ScalingFactor (factor : Q)
| Allocations (simple medium complex very_complex : Q)
| Examples (simple medium complex very_complex : list issue)
| Ready (n : nat) (total : Q)
| UpdateDone (key : string) (estimate : string)
| UpdateFailed (key : string) (status_code : Z)
| Updated (success_count n : nat)
| FoundTests (n : nat)
| EachTest (estimate : string)
| UpdatedTests (success_count n : nat)
| Complete.

Inductive event :=
| Requested (r : request)
| Printed (l : line).

Record state := {
  (** everything the run has done so far, oldest first *)
  out : list event;
  n_http : nat
}.

Definition initial : state := {| out := []; n_http := 0 |}.

Definition print (l : line) : M state unit :=
  modify (fun s => {| out := out s ++ [Printed l]; n_http := n_http s |}).

Definition dq : string := dquote.

Definition jql_todo : string :=
  "project=RDP AND status=" +:+ dq +:+ "To Do" +:+ dq
  +:+ " AND type=Sub-task ORDER BY key".

Definition jql_test : string :=
  "project=RDP AND status=" +:+ dq +:+ "Acceptance Test" +:+ dq
  +:+ " AND type=Sub-task ORDER BY key".

Section Run.
Variable E : env.

(** [requests.get/put(...)]: the request goes out, then the call raises
    or returns the response *)
Definition requests (r : request) : M state (Z * option (list issue)) :=
  fun s =>
    let s' := {| out := out s ++ [Requested r]; n_http := S (n_http s) |} in
    match http E (n_http s) r with
    | NoAnswer e => (Raised e, s')
    | Answer status_code issues => (Ok (status_code, issues), s')
    end.

Definition search (jql fields : string) : request :=
  {| meth := GET; url := JIRA_URL E +:+ "/rest/api/2/search";
     params := [("jql", jql); ("fields", fields); ("maxResults", "100")];
     body := None |}.

(** [response.json()['issues']] *)
Definition issues_of (response : Z * option (list issue)) : exn + list issue :=
  match snd response with
  | Some l => inr l
  | None => inl JSONDecodeError
  end.

Definition update_request (key estimate : string) : request :=
  {| meth := PUT; url := JIRA_URL E +:+ "/rest/api/2/issue/" +:+ key;
     params := [];
     body := Some (JDict [("fields",
               JDict [("timetracking",
                 JDict [("originalEstimate", JStr estimate)])])]) |}.

(** the implementation-task loop: [for task in todo_tasks: ...], with
    [success_count] threaded through *)
Fixpoint update_tasks (b : buckets) (tasks : list issue) (success_count : nat)
    : M state nat :=
  match tasks with
  | [] => ret success_count
  | task :: rest =>
      let hours := hours_of b task in
      let estimate := float_repr hours +:+ "h" in
      update_response <- requests (update_request (key task) estimate) ;;
      (if (fst update_response =? 204)%Z then
         print (UpdateDone (key task) estimate) ;;;
         update_tasks b rest (S success_count)
       else
         print (UpdateFailed (key task) (fst update_response)) ;;;
         update_tasks b rest success_count)
  end.

(** the test-task loop *)
Fixpoint update_tests (estimate : string) (tasks : list issue)
    (test_success_count : nat) : M state nat :=
  match tasks with
  | [] => ret test_success_count
  | task :: rest =>
      update_response <- requests (update_request (key task) estimate) ;;
      (if (fst update_response =? 204)%Z then
         print (UpdateDone (key task) estimate) ;;;
         update_tests estimate rest (S test_success_count)
       else
         print (UpdateFailed (key task) (fst update_response)) ;;;
         update_tests estimate rest test_success_count)
  end.

(** [round(20 / len(test_tasks), 1) if len(test_tasks) > 0 else 0],
    formatted *)
Definition test_estimate (test_tasks : list issue) : string :=
  match test_tasks with
  | [] => "0h"
  | _ => float_repr (round1 (20 / len test_tasks)) +:+ "h"
  end.

(** the script, top to bottom *)
Definition main : M state unit :=
  response <- requests (search jql_todo "key,summary,parent") ;;
  if negb (fst response =? 200)%Z then
    print (FetchError (fst response)) ;;;
    exit 1
  else
    todo_tasks <- lift (issues_of response) ;;
    print (Found (length todo_tasks)) ;;;
    let b := categorize todo_tasks in
    print (Breakdown (length (simple_tasks b)) (length (medium_tasks b))
                     (length (complex_tasks b)) (length (very_complex_tasks b))) ;;;
    print (EstimatedTotal (estimated_total b)) ;;;
    print (ScalingFactor (scaling_factor b)) ;;;
    print (Allocations (simple_hours b) (medium_hours b) (complex_hours b)
                       (very_complex_hours b)) ;;;
    print (Examples (firstn 3 (simple_tasks b)) (firstn 3 (medium_tasks b))
                    (firstn 3 (complex_tasks b))
                    (firstn 3 (very_complex_tasks b))) ;;;
    print (Ready (length todo_tasks) (total_hours b)) ;;;
    success_count <- update_tasks b todo_tasks 0 ;;
    print (Updated success_count (length todo_tasks)) ;;;
    response <- requests (search jql_test "key,summary") ;;
    (if (fst response =? 200)%Z then
       test_tasks <- lift (issues_of response) ;;
       print (FoundTests (length test_tasks)) ;;;
       let estimate := test_estimate test_tasks in
       print (EachTest estimate) ;;;
       test_success_count <- update_tests estimate test_tasks 0 ;;
       print (UpdatedTests test_success_count (length test_tasks))
     else ret tt) ;;;
    print Complete.

End Run.

(** *** The vocabulary of the statements about the estimator *)

Inductive tier := Simple | Medium | Complex | VeryComplex.

(** some keyword of the list occurs in the summary, whatever the case *)
Definition mentions (keywords : list string) (task : issue) : Prop :=
  ∃ keyword, In keyword keywords ∧ ci_occurs keyword (summary task).

(** the tier the precedence of the keyword lists gives a task *)
Inductive tier_of (task : issue) : tier -> Prop :=
| tier_very_complex :
    mentions very_complex_keywords task -> tier_of task VeryComplex
| tier_complex :
    ¬ mentions very_complex_keywords task ->
    mentions complex_keywords task -> tier_of task Complex
| tier_simple :
    ¬ mentions very_complex_keywords task ->
    ¬ mentions complex_keywords task ->
    mentions simple_keywords task -> tier_of task Simple
| tier_medium :
    ¬ mentions very_complex_keywords task ->
    ¬ mentions complex_keywords task ->
    ¬ mentions simple_keywords task -> tier_of task Medium.

(** the tier as the script's tests compute it *)
Definition classify (task : issue) : tier :=
  let summary := lower (summary task) in
  if any_in very_complex_keywords summary then VeryComplex
  else if any_in complex_keywords summary then Complex
  else if any_in simple_keywords summary then Simple
  else Medium.

Definition tier_eqb (a b : tier) : bool :=
  match a, b with
  | Simple, Simple | Medium, Medium | Complex, Complex
  | VeryComplex, VeryComplex => true
  | _, _ => false
  end.

(** the tasks of a tier, in the order of the search answer *)
Definition of_tier (t : tier) (tasks : list issue) : list issue :=
  List.filter (fun task => tier_eqb (classify task) t) tasks.

(** the list of the categorization that stands for a tier *)
Definition bucket (b : buckets) (t : tier) : list issue :=
  match t with
  | Simple => simple_tasks b
  | Medium => medium_tasks b
  | Complex => complex_tasks b
  | VeryComplex => very_complex_tasks b
  end.

(** the allocation of a tier *)
Definition tier_hours (b : buckets) (t : tier) : Q :=
  match t with
  | Simple => simple_hours b
  | Medium => medium_hours b
  | Complex => complex_hours b
  | VeryComplex => very_complex_hours b
  end.

(** [n] tasks, RDP-1 to RDP-n, whose summaries hold no keyword *)
Definition plain_tasks (n : nat) : list issue :=
  map (fun i => {| key := "RDP-" +:+ str_of_int (Z.of_nat i);
                   summary := "Write the release notes" |}) (seq 1 n).

(** what a computation adds to the record of the run *)
Definition events_of {A : Type} (m : M state A) (s : state) : list event :=
  drop (length (out s)) (out (snd (m s))).

(** keywords that [lower] leaves as they are *)
Definition lowercase (keywords : list string) : Prop :=
  Forall (fun keyword => lower keyword = keyword) keywords.

(** the hours the update loop writes back, summed over the tasks *)
Definition charged (b : buckets) (tasks : list issue) : Q :=
  fold_right (fun task acc => hours_of b task + acc)%Q 0%Q tasks.

(** the record of the run only grows *)
Definition grows (s s' : state) : Prop := ∃ evs, out s' = (out s ++ evs)%list.

(** every call of the tracker returns a response *)
Definition answers (E : env) : Prop :=
  ∀ k r, ∃ status_code issues, http E k r = Answer status_code issues.

(** both update loops, with the estimate of a task as a parameter *)
Fixpoint put_all (E : env) (estimate_of : issue → string) (tasks : list issue)
    (count : nat) : M state nat :=
  match tasks with
  | [] => ret count
  | task :: rest =>
      bind (requests E (update_request E (key task) (estimate_of task)))
        (fun update_response =>
           if (fst update_response =? 204)%Z then
             bind (print (UpdateDone (key task) (estimate_of task)))
               (fun _ => put_all E estimate_of rest (S count))
           else
             bind (print (UpdateFailed (key task) (fst update_response)))
               (fun _ => put_all E estimate_of rest count))
  end.

(** the two searches of the script *)
Definition first_search (E : env) : request := search E jql_todo "key,summary,parent".
Definition second_search (E : env) : request := search E jql_test "key,summary".

(** the second search answers well: with another status than 200, or with
    a list of issues *)
Definition second_search_sound (E : env) (todo_tasks : list issue) : Prop :=
  http E (S (length todo_tasks)) (second_search E) ≠ Answer 200 None.

(** *** Sample trackers *)

(** a tracker that answers every call with status 500 *)
Definition down : env :=
  {| JIRA_URL := "https://jira.example";
     http := fun _ _ => Answer 500 None |}.

(** a tracker with two open sub-tasks that refuses the first update and
    the second search *)
Definition flaky : env :=
  {| JIRA_URL := "https://jira.example";
     http := fun k r =>
       match k with
       | O => Answer 200 (Some [ {| key := "RDP-7"; summary := "Add TLS handshake" |};
                                 {| key := "RDP-8"; summary := "Status LED flag" |} ])
       | 1 => Answer 500 None
       | 2 => Answer 204 None
       | _ => Answer 503 None
       end |}.

(** *** More vocabulary: the calls of a whole run *)

(** the requests among the events of a run, oldest first *)
Fixpoint requested (evs : list event) : list request :=
  match evs with
  | [] => []
  | Requested r :: rest => r :: requested rest
  | Printed _ :: rest => requested rest
  end.

(** how many of the calls [rs], sent as the k-th call and the following,
    the tracker answers with status 204 *)
Fixpoint accepted (E : env) (k : nat) (rs : list request) : nat :=
  match rs with
  | [] => 0
  | r :: rest =>
      (match http E k r with
       | Answer status_code _ => if (status_code =? 204)%Z then 1 else 0
       | NoAnswer _ => 0
       end + accepted E (S k) rest)%nat
  end.

(** *** The script for any arithmetic

    The numbers of the script are IEEE doubles: [round(x, 1)] rounds the
    double [x], not the exact product it stands for, and [f'{hours}h']
    prints the double.  What the script asks of the tracker, in which
    order, and what it does when a call fails, does not depend on how its
    sums, products and quotients come out.  In [main_on] the numbers the
    script computes and the texts of the estimates it writes back are
    parameters, and the control flow is that of [main], line by line: a
    statement about [main_on] for every arithmetic is a statement about
    the script on doubles. *)

Record arithmetic := {
  (** [estimated_total], [scaling_factor], the four allocations and
      [total_hours], from the four lists of the categorization *)
  estimated_total_of : buckets -> Q;
  scaling_factor_of : buckets -> Q;
  simple_hours_of : buckets -> Q;
  medium_hours_of : buckets -> Q;
  complex_hours_of : buckets -> Q;
  very_complex_hours_of : buckets -> Q;
  total_hours_of : buckets -> Q;
  (** [f'{hours}h'] *)
  hours_text : Q -> string;
  (** [f'{test_hours_per_task}h'], from the test tasks found *)
  share_text : list issue -> string
}.

(** "Determine hours based on complexity", in the update loop *)
Definition hours_on (A : arithmetic) (b : buckets) (task : issue) : Q :=
  let summary := lower (summary task) in
  if any_in very_complex_keywords summary then very_complex_hours_of A b
  else if any_in complex_keywords summary then complex_hours_of A b
  else if any_in simple_keywords summary then simple_hours_of A b
  else medium_hours_of A b.

(** the text written back for a To Do task *)
Definition estimate_on (A : arithmetic) (todo_tasks : list issue) (task : issue)
    : string :=
  hours_text A (hours_on A (categorize todo_tasks) task).

(** the script from its first update loop on, for the To Do tasks found *)
Definition tail_on (A : arithmetic) (E : env) (todo_tasks : list issue)
    : M state unit :=
  (success_count <- put_all E (estimate_on A todo_tasks) todo_tasks 0 ;;
   print (Updated success_count (length todo_tasks)) ;;;
   response <- requests E (search E jql_test "key,summary") ;;
   (if (fst response =? 200)%Z then
      test_tasks <- lift (issues_of response) ;;
      print (FoundTests (length test_tasks)) ;;;
      let estimate := share_text A test_tasks in
      print (EachTest estimate) ;;;
      test_success_count <- put_all E (fun _ => estimate) test_tasks 0 ;;
      print (UpdatedTests test_success_count (length test_tasks))
    else ret tt) ;;;
   print Complete)%eff.

(** the script, top to bottom *)
Definition main_on (A : arithmetic) (E : env) : M state unit :=
  (response <- requests E (search E jql_todo "key,summary,parent") ;;
   if negb (fst response =? 200)%Z then
     print (FetchError (fst response)) ;;;
     exit 1
   else
     todo_tasks <- lift (issues_of response) ;;
     print (Found (length todo_tasks)) ;;;
     let b := categorize todo_tasks in
     print (Breakdown (length (simple_tasks b)) (length (medium_tasks b))
                      (length (complex_tasks b)) (length (very_complex_tasks b))) ;;;
     print (EstimatedTotal (estimated_total_of A b)) ;;;
     print (ScalingFactor (scaling_factor_of A b)) ;;;
     print (Allocations (simple_hours_of A b) (medium_hours_of A b)
                        (complex_hours_of A b) (very_complex_hours_of A b)) ;;;
     print (Examples (firstn 3 (simple_tasks b)) (firstn 3 (medium_tasks b))
                     (firstn 3 (complex_tasks b))
                     (firstn 3 (very_complex_tasks b))) ;;;
     print (Ready (length todo_tasks) (total_hours_of A b)) ;;;
     tail_on A E todo_tasks)%eff.

(** the arithmetic of [main]: exact rationals *)
Definition exact : arithmetic :=
  {| estimated_total_of := estimated_total;
     scaling_factor_of := scaling_factor;
     simple_hours_of := simple_hours;
     medium_hours_of := medium_hours;
     complex_hours_of := complex_hours;
     very_complex_hours_of := very_complex_hours;
     total_hours_of := total_hours;
     hours_text := fun hours => float_repr hours +:+ "h";
     share_text := test_estimate |}.

(** the update of a To Do task, with the text of its hours *)
Definition task_update (A : arithmetic) (E : env) (todo_tasks : list issue)
    (task : issue) : request :=
  update_request E (key task) (estimate_on A todo_tasks task).

(** the update of a test task, with the text of the common share *)
Definition test_update (A : arithmetic) (E : env) (test_tasks : list issue)
    (task : issue) : request :=
  update_request E (key task) (share_text A test_tasks).

(** the two open sub-tasks of the sample trackers *)
Definition sample_todo : list issue :=
  [ {| key := "RDP-7"; summary := "Add TLS handshake" |};
    {| key := "RDP-8"; summary := "Status LED flag" |} ].

(** the test task of the sample trackers *)
Definition sample_tests : list issue :=
  [ {| key := "RDP-9"; summary := "Acceptance test of the LED" |} ].

(** a tracker that answers both searches and accepts every update *)
Definition obliging : env :=
  {| JIRA_URL := "https://jira.example";
     http := fun k r =>
       match k with
       | O => Answer 200 (Some sample_todo)
       | 3 => Answer 200 (Some sample_tests)
       | _ => Answer 204 None
       end |}.

(** a tracker that answers both searches and refuses the update of the
    test task *)
Definition grudging : env :=
  {| JIRA_URL := "https://jira.example";
     http := fun k r =>
       match k with
       | O => Answer 200 (Some sample_todo)
       | 3 => Answer 200 (Some sample_tests)
       | 4 => Answer 403 None
       | _ => Answer 204 None
       end |}.

(** a tracker that is lost during the second update *)
Definition dropping : env :=
  {| JIRA_URL := "https://jira.example";
     http := fun k r =>
       match k with
       | O => Answer 200 (Some sample_todo)
       | 2 => NoAnswer ConnectionError
       | _ => Answer 204 None
       end |}.

End Estimator.

(** ** script/generate_updates.py *)

Module Packager.
Import PyStr Eff.
Local Open Scope eff_scope.

(** a path below the project root, by its components *)
Abbreviation path := (list string).

Inductive node :=
| File (content : string)
| Dir.

(** the part of the file system below the project root *)
Abbreviation filesystem := (gmap (list string) node).

Definition build_dir : path := ["build"].
Definition version_file : path := ["VERSION"].
Definition output_dir : path := ["firmware_updates"].

(** [p.exists()] *)
Definition exists_ (fs : filesystem) (p : path) : bool :=
  match fs !! p with Some _ => true | None => false end.

(** [p.is_dir()] *)
Definition is_dir (fs : filesystem) (p : path) : bool :=
  match fs !! p with Some Dir => true | _ => false end.

(** the last component of a path *)
Definition basename (p : path) : string := List.last p EmptyString.

Inductive line :=
| NoBuildDir
| NoBoards
| NoVersionFile
| FallingBack (board_name : string)
| NoBinary (board_name : string)
| Prepared (output : path) (names : list string)
| NothingPrepared.

Record state := {
  files : filesystem;
  out : list line
}.

Definition print (l : line) : M state unit :=
  modify (fun s => {| files := files s; out := out s ++ [l] |}).

(** [open(p)] and reading it as text *)
Definition read_text (p : path) : M state string :=
  fun s =>
    match files s !! p with
    | Some (File content) => (Ok content, s)
    | _ => (Raised OSError, s)
    end.

(** [p.mkdir(exist_ok=True)], for a path whose parent exists *)
Definition mkdir_exist_ok (p : path) : M state unit :=
  fun s =>
    match files s !! p with
    | None => (Ok tt, {| files := <[p := Dir]> (files s); out := out s |})
    | Some Dir => (Ok tt, s)
    | Some (File _) => (Raised OSError, s)
    end.

(** [shutil.copy2(src, dst)]: the content of the file [src] is written to
    [dst], or into [dst] under the name of [src] when [dst] is a
    directory *)
Definition copy2 (src dst : path) : M state unit :=
  fun s =>
    match files s !! src with
    | Some (File content) =>
        match files s !! dst with
        | Some Dir =>
            let inside := (dst ++ [basename src])%list in
            match files s !! inside with
            | Some Dir => (Raised OSError, s)
            | _ => (Ok tt, {| files := <[inside := File content]> (files s);
                              out := out s |})
            end
        | _ => (Ok tt, {| files := <[dst := File content]> (files s);
                          out := out s |})
        end
    | _ => (Raised OSError, s)
    end.

(** the loop over the lines of VERSION; the result is [version_vars] *)
Fixpoint read_version_vars (lines : list string) (version_vars : gmap string string)
    : exn + gmap string string :=
  match lines with
  | [] => inr version_vars
  | line :: rest =>
      if contains "=" line then
        match split_on "=" (strip line) with
        | [key; val] =>
            read_version_vars rest (<[strip key := strip val]> version_vars)
        | _ => inl ValueError
        end
      else read_version_vars rest version_vars
  end.

(** [version_vars[k]], as [str.format] looks a field up *)
Definition field (version_vars : gmap string string) (k : string) : exn + string :=
  match version_vars !! k with
  | Some v => inr v
  | None => inl (KeyError k)
  end.

(** ["V{VERSION_MAJOR}.{VERSION_MINOR}.{PATCHLEVEL}"], formatted with the
    entries of [version_vars] as keyword arguments *)
Definition format_version (version_vars : gmap string string) : exn + string :=
  match field version_vars "VERSION_MAJOR" with
  | inl e => inl e
  | inr major =>
      match field version_vars "VERSION_MINOR" with
      | inl e => inl e
      | inr minor =>
          match field version_vars "PATCHLEVEL" with
          | inl e => inl e
          | inr patch => inr ("V" +:+ major +:+ "." +:+ minor +:+ "." +:+ patch)
          end
      end
  end.

(** from the text of VERSION to the version string *)
Definition parse_version (text : string) : exn + string :=
  match read_version_vars (file_lines text) ∅ with
  | inl e => inl e
  | inr version_vars => format_version version_vars
  end.

Definition rapid_fw_zephyr (board_dir : path) : path :=
  (board_dir ++ ["rapidreach-fw"; "zephyr"; "zephyr.signed.bin"])%list.

Definition zephyr_bin (board_dir : path) : path :=
  (board_dir ++ ["zephyr"; "zephyr.signed.bin"])%list.

Definition target_filename (board_name version : string) : string :=
  board_name +:+ "_rapidreach-fw_" +:+ version +:+ ".bin".

(** [for board_dir in boards: ...]; the result is [prepared_binaries] *)
Fixpoint copy_boards (version : string) (boards : list path)
    (prepared_binaries : list path) : M state (list path) :=
  match boards with
  | [] => ret prepared_binaries
  | board_dir :: rest =>
      let board_name := basename board_dir in
      s <- get ;;
      if exists_ (files s) (rapid_fw_zephyr board_dir) then
        let target_path := (output_dir ++ [target_filename board_name version])%list in
        copy2 (rapid_fw_zephyr board_dir) target_path ;;;
        copy_boards version rest (prepared_binaries ++ [target_path])
      else if exists_ (files s) (zephyr_bin board_dir) then
        print (FallingBack board_name) ;;;
        let target_path := (output_dir ++ [target_filename board_name version])%list in
        copy2 (zephyr_bin board_dir) target_path ;;;
        copy_boards version rest (prepared_binaries ++ [target_path])
      else
        print (NoBinary board_name) ;;;
        copy_boards version rest prepared_binaries
  end.

(** the script, top to bottom; [listing] holds the names in [build], in
    the order [build_dir.iterdir()] yields them *)
Definition main (listing : list string) : M state unit :=
  s <- get ;;
  if negb (exists_ (files s) build_dir) then print NoBuildDir ;;; exit 1
  else
    (if is_dir (files s) build_dir then ret tt else raise OSError) ;;;
    let boards :=
      List.filter (is_dir (files s)) (map (fun n => (build_dir ++ [n])%list) listing) in
    match boards with
    | [] => print NoBoards ;;; exit 1
    | _ =>
        if negb (exists_ (files s) version_file) then print NoVersionFile ;;; exit 1
        else
          text <- read_text version_file ;;
          version <- lift (parse_version text) ;;
          mkdir_exist_ok output_dir ;;;
          prepared_binaries <- copy_boards version boards [] ;;
          match prepared_binaries with
          | [] => print NothingPrepared
          | _ => print (Prepared output_dir (map basename prepared_binaries))
          end
    end.

(** *** The vocabulary of the statements about the packager *)

(** the signed binary the loop picks for a board, if any *)
Definition signed_binary (fs : filesystem) (board_dir : path) : option path :=
  if exists_ fs (rapid_fw_zephyr board_dir) then Some (rapid_fw_zephyr board_dir)
  else if exists_ fs (zephyr_bin board_dir) then Some (zephyr_bin board_dir)
  else None.

Definition target_path (board_name version : string) : path :=
  (output_dir ++ [target_filename board_name version])%list.


(** *** A sample project *)

Definition sample_version_text : string :=
  "VERSION_MAJOR = 1" +:+ String "010" "VERSION_MINOR = 2"
  +:+ String "010" "PATCHLEVEL = 3" +:+ String "010" "".

Definition sample_project : filesystem :=
  list_to_map
    [ (["VERSION"], File sample_version_text);
      (["build"], Dir);
      (["build"; "speaker"], Dir);
      (["build"; "speaker"; "rapidreach-fw"; "zephyr"; "zephyr.signed.bin"],
       File "speaker firmware");
      (["build"; "speaker"; "zephyr"; "zephyr.signed.bin"], File "speaker mcuboot");
      (["build"; "beacon"], Dir);
      (["build"; "beacon"; "zephyr"; "zephyr.signed.bin"], File "beacon firmware");
      (["build"; "empty"], Dir);
      (["build"; "notes.txt"], File "not a board") ].

Definition sample_listing : list string := ["speaker"; "notes.txt"; "empty"; "beacon"].

(** the sample VERSION with one more line, which holds two "=" *)
Definition bad_version_text : string :=
  sample_version_text +:+ "EXTRAVERSION = a=b".

(** the target of a board directory *)
Definition board_target (version : string) (board_dir : path) : path :=
  target_path (basename board_dir) version.






(** *** More vocabulary: where the script writes, and the text of VERSION *)

(** a path that lies in [firmware_updates], or is that directory *)
Definition in_output (p : path) : Prop := hd_error p = Some "firmware_updates".

(** a text that is one component of a path: it holds no "/", so that
    [dir / text] is the entry of that name in [dir] *)
Definition component (name : string) : Prop := count_char "/" name = 0.

(** the board directories the script finds: the listed names that are
    directories, in the order of the listing *)
Definition boards_of (fs : filesystem) (listing : list string) : list path :=
  List.filter (is_dir fs) (map (fun n => (build_dir ++ [n])%list) listing).

(** the board directory holds a signed binary *)
Definition has_binary (fs : filesystem) (board_dir : path) : bool :=
  match signed_binary fs board_dir with Some _ => true | None => false end.

(** the names of the files the script prepares, in the order of the
    boards *)
Definition prepared_names (fs : filesystem) (version : string) (boards : list path)
    : list string :=
  map (fun b => target_filename (basename b) version)
      (List.filter (has_binary fs) boards).

(** the last line of a run that went through *)
Definition summary (fs : filesystem) (version : string) (boards : list path) : line :=
  match prepared_names fs version boards with
  | [] => NothingPrepared
  | names => Prepared output_dir names
  end.

(** a text without "=" and without line ends *)
Definition field_text (s : string) : Prop :=
  count_char "=" s = 0 ∧ count_char "010" s = 0 ∧ count_char "013" s = 0.

(** the line of VERSION that gives a name a value *)
Definition version_line (kv : string * string) : string :=
  fst kv +:+ " = " +:+ snd kv.

(** a VERSION file of such lines, each ended by a newline *)
Fixpoint version_text (kvs : list (string * string)) : string :=
  match kvs with
  | [] => EmptyString
  | kv :: rest => version_line kv +:+ String "010" (version_text rest)
  end.

(** the entries such lines define: names and values stripped, a later
    line overriding an earlier one *)
Definition entries (kvs : list (string * string)) (vars : gmap string string)
    : gmap string string :=
  fold_left (fun m kv => <[strip (fst kv) := strip (snd kv)]> m) kvs vars.

(** the three keys the version is formatted from *)
Definition version_keys : list string :=
  ["VERSION_MAJOR"; "VERSION_MINOR"; "PATCHLEVEL"].

(** the lines of a VERSION file as the build system writes it *)
Definition sample_entries : list (string * string) :=
  [("VERSION_MAJOR", "1"); ("VERSION_MINOR", "2"); ("PATCHLEVEL", "3");
   ("VERSION_TWEAK", "0"); ("EXTRAVERSION", "")].

(** the text of a VERSION file without PATCHLEVEL *)
Definition short_version_text : string :=
  "VERSION_MAJOR = 1" +:+ String "010" "VERSION_MINOR = 2".

(** the sample project with that VERSION file *)
Definition unversioned_project : filesystem :=
  <[version_file := File short_version_text]> sample_project.

End Packager.

(** ** mqtt/scripts/test_mqtt_emqx.py *)

Module Smoke.
Import PyStr PyNum Json Eff.
Local Open Scope eff_scope.

Definition BROKER_HOST : string := "emqx".
Definition BROKER_PORT : Z := 1883.
Definition TOPIC_HEARTBEAT : string := "rapidreach/heartbeat".
Definition TOPIC_STATUS : string := "rapidreach/status".

(** what [publish_test_message] is given: a [dict], or anything else, by
    its [str()] *)
Inductive message :=
| DictMessage (items : list (string * json))
| OtherMessage (text : string).

(** [d[k] = v] on the items of a [dict]: in place when the key is there,
    at the end when it is new *)
Fixpoint dict_set (k : string) (v : json) (items : list (string * json))
    : list (string * json) :=
  match items with
  | [] => [(k, v)]
  | (k', v') :: rest =>
      if String.eqb k k' then (k, v) :: rest else (k', v') :: dict_set k v rest
  end.

(** a message handed to [on_message] *)
Record incoming := {
  topic : string;
  (** the payload decoded, or [None] when the bytes are no UTF-8 *)
  payload : option string;
  (** [json.dumps(json.loads(payload), indent=2)], or [None] when the
      payload is no JSON *)
  pretty : option string;
  (** [datetime.now()] at arrival, formatted *)
  arrived : string
}.

(** What the run does not decide: the broker, the clock and the moment the
    user interrupts. *)
Record env := {
  (** [client.connect] returns, or raises *)
  connect_returns : bool;
  (** the number of half-second waits after which CONNACK with rc 0 has
      arrived, if it ever does *)
  connack_after : option nat;
  (** [self.connected] when the k-th [publish_test_message] starts: the
      network thread may have run [on_disconnect], or reconnected *)
  still_connected : nat -> bool;
  (** the k-th [datetime.now().isoformat()] of [publish_test_message] *)
  now : nat -> string;
  (** the k-th [client.publish]: [None] when it raises, else [result.rc] *)
  publish_rc : nat -> option Z;
  (** the messages that arrive before the user interrupts *)
  inbox : list incoming
}.

Inductive line :=
| ConnectedTo
| SubscribedTo
| ConnectRefused (rc : Z)
| Connecting
| ConnectionTimeout
| ConnectionError_ (e : exn)
| ConnectFailed
| NotConnected
| PublishedLine (topic payload : string)
| PublishFailed (topic : string)
| PublishError (e : exn)
| Received (stamp topic payload : string)
| JsonData (pretty : string)
| MessageError (e : exn)
| Listening
| Stopping
| Goodbye.

Inductive event :=
| Subscribed (topic : string)
| Published (topic payload : string)
| Slept (halves : nat)
| Printed (l : line)
| LoopStopped
| DisconnectCalled.

Record state := {
  (** everything the run has done so far, oldest first *)
  out : list event;
  n_now : nat;
  n_publish : nat;
  n_calls : nat;
  (** [self.connected] *)
  connected : bool
}.

Definition initial : state :=
  {| out := []; n_now := 0; n_publish := 0; n_calls := 0; connected := false |}.

Definition emit (e : event) : M state unit :=
  modify (fun s => {| out := out s ++ [e]; n_now := n_now s;
                      n_publish := n_publish s; n_calls := n_calls s;
                      connected := connected s |}).

Definition print (l : line) : M state unit := emit (Printed l).

Definition set_connected (b : bool) : M state unit :=
  modify (fun s => {| out := out s; n_now := n_now s; n_publish := n_publish s;
                      n_calls := n_calls s; connected := b |}).

(** the callback for CONNACK, run by the network thread *)
Definition on_connect (rc : Z) : M state unit :=
  if (rc =? 0)%Z then
    print ConnectedTo ;;;
    set_connected true ;;;
    emit (Subscribed TOPIC_HEARTBEAT) ;;;
    emit (Subscribed TOPIC_STATUS) ;;;
    print SubscribedTo
  else print (ConnectRefused rc).

Section Run.
Variable E : env.

(** [datetime.now().isoformat()] *)
Definition isoformat_now : M state string :=
  fun s => (Ok (now E (n_now s)),
            {| out := out s; n_now := S (n_now s); n_publish := n_publish s;
               n_calls := n_calls s; connected := connected s |}).

(** [self.client.publish(topic, payload)]; the result is [result.rc] *)
Definition client_publish (topic payload : string) : M state Z :=
  fun s =>
    let s' := {| out := out s ++ [Published topic payload]; n_now := n_now s;
                 n_publish := S (n_publish s); n_calls := n_calls s;
                 connected := connected s |} in
    match publish_rc E (n_publish s) with
    | Some rc => (Ok rc, s')
    | None => (Raised OSError, s')
    end.

(** the waiting loop of [connect]: [while not self.connected and
    timeout > 0: time.sleep(0.5); timeout -= 0.5], where [waited] sleeps
    are done and [left] more fit into the timeout *)
Fixpoint wait_connected (waited left : nat) : M state unit :=
  match connack_after E with
  | Some k =>
      if (k <=? waited)%nat then on_connect 0
      else match left with
           | O => ret tt
           | S left' => emit (Slept 1) ;;; wait_connected (S waited) left'
           end
  | None =>
      match left with
      | O => ret tt
      | S left' => emit (Slept 1) ;;; wait_connected (S waited) left'
      end
  end.

Definition connect : M state bool :=
  try_except
    (print Connecting ;;;
     (if connect_returns E then ret tt else raise OSError) ;;;
     wait_connected 0 20 ;;;
     s <- get ;;
     if negb (connected s) then print ConnectionTimeout ;;; ret false
     else ret true)
    (fun e => print (ConnectionError_ e) ;;; ret false).

Definition publish_test_message (topic : string) (message : message) : M state bool :=
  s <- get ;;
  (* the network thread may have run on_disconnect meanwhile *)
  set_connected (still_connected E (n_calls s)) ;;;
  modify (fun s => {| out := out s; n_now := n_now s; n_publish := n_publish s;
                      n_calls := S (n_calls s); connected := connected s |}) ;;;
  s <- get ;;
  if negb (connected s) then print NotConnected ;;; ret false
  else
    try_except
      (timestamp <- isoformat_now ;;
       let payload :=
         match message with
         | DictMessage items => dumps (JDict (dict_set "timestamp" (JStr timestamp) items))
         | OtherMessage text => text
         end in
       rc <- client_publish topic payload ;;
       if (rc =? 0)%Z then print (PublishedLine topic payload) ;;; ret true
       else print (PublishFailed topic) ;;; ret false)
      (fun e => print (PublishError e) ;;; ret false).

Definition on_message (msg : incoming) : M state unit :=
  try_except
    (text <- lift (match payload msg with
                   | Some text => inr text
                   | None => inl ValueError
                   end) ;;
     print (Received (arrived msg) (topic msg) text) ;;;
     match pretty msg with
     | Some p => print (JsonData p)
     | None => ret tt
     end)
    (fun e => print (MessageError e)).

Definition disconnect : M state unit :=
  s <- get ;;
  if connected s then emit LoopStopped ;;; emit DisconnectCalled else ret tt.

Definition heartbeat_msg : list (string * json) :=
  [("device_id", JStr "rapidreach_test");
   ("status", JStr "alive");
   ("uptime", JInt 12345);
   ("memory_free", JInt 85);
   ("signal_strength", JInt (-67))].

Definition status_msg : list (string * json) :=
  [("device_id", JStr "rapidreach_test");
   ("firmware_version", JStr "1.0.0");
   ("hardware_version", JStr "rev_a");
   ("temperature", JFloat (235 # 10));
   ("battery_level", JInt 87)].

(** [main], for a run that the user interrupts once the messages of the
    inbox have arrived *)
Definition main : M state unit :=
  is_connected <- connect ;;
  if negb is_connected then print ConnectFailed
  else
    publish_test_message TOPIC_HEARTBEAT (DictMessage heartbeat_msg) ;;;
    emit (Slept 2) ;;;
    publish_test_message TOPIC_STATUS (DictMessage status_msg) ;;;
    print Listening ;;;
    for_each (inbox E) on_message ;;;
    (* KeyboardInterrupt *)
    print Stopping ;;;
    disconnect ;;;
    print Goodbye.

End Run.

(** *** The vocabulary of the statements about the smoke test *)

(** the heartbeat payload up to the text of the timestamp *)
Definition heartbeat_fixed : string :=
  "{" +:+ dquote +:+ "device_id" +:+ dquote +:+ ": " +:+ dquote
  +:+ "rapidreach_test" +:+ dquote +:+ ", " +:+ dquote +:+ "status" +:+ dquote
  +:+ ": " +:+ dquote +:+ "alive" +:+ dquote +:+ ", " +:+ dquote +:+ "uptime"
  +:+ dquote +:+ ": 12345, " +:+ dquote +:+ "memory_free" +:+ dquote
  +:+ ": 85, " +:+ dquote +:+ "signal_strength" +:+ dquote +:+ ": -67, "
  +:+ dquote +:+ "timestamp" +:+ dquote +:+ ": ".

(** the status payload up to the text of the timestamp *)
Definition status_fixed : string :=
  "{" +:+ dquote +:+ "device_id" +:+ dquote +:+ ": " +:+ dquote
  +:+ "rapidreach_test" +:+ dquote +:+ ", " +:+ dquote +:+ "firmware_version"
  +:+ dquote +:+ ": " +:+ dquote +:+ "1.0.0" +:+ dquote +:+ ", " +:+ dquote
  +:+ "hardware_version" +:+ dquote +:+ ": " +:+ dquote +:+ "rev_a" +:+ dquote
  +:+ ", " +:+ dquote +:+ "temperature" +:+ dquote +:+ ": 23.5, " +:+ dquote
  +:+ "battery_level" +:+ dquote +:+ ": 87, " +:+ dquote +:+ "timestamp"
  +:+ dquote +:+ ": ".

(** a payload: the fixed part, the timestamp as a JSON string, the
    closing brace *)
Definition stamped (fixed timestamp : string) : string :=
  fixed +:+ quote timestamp +:+ "}".

(** reading a JSON string literal's inside back *)
Definition unhex (c : ascii) : N :=
  let n := N_of_ascii c in
  if (n <? 58)%N then (n - 48)%N else (n - 87)%N.

Definition unescape_letter (c : ascii) : ascii :=
  let n := N_of_ascii c in
  if (n =? 110)%N then "010"
  else if (n =? 114)%N then "013"
  else if (n =? 116)%N then "009"
  else if (n =? 98)%N then "008"
  else if (n =? 102)%N then "012"
  else c.

Fixpoint unescape (s : string) : string :=
  match s with
  | EmptyString => EmptyString
  | String c rest =>
      if Ascii.eqb c "\" then
        match rest with
        | String d rest' =>
            if Ascii.eqb d "u" then
              match rest' with
              | String _ (String _ (String h (String l rest''))) =>
                  String (ascii_of_N (16 * unhex h + unhex l)) (unescape rest'')
              | _ => EmptyString
              end
            else String (unescape_letter d) (unescape rest')
        | EmptyString => EmptyString
        end
      else String c (unescape rest)
  end.

(** the publications among the events of a run, oldest first: topic and
    payload *)
Fixpoint published (evs : list event) : list (string * string) :=
  match evs with
  | [] => []
  | Published topic payload :: rest => (topic, payload) :: published rest
  | _ :: rest => published rest
  end.

(** the publications of the whole run *)
Definition publications (E : env) : list (string * string) :=
  published (out (snd (main E initial))).

(** a run in which the connection comes up within the timeout and holds
    while the two messages are published *)
Definition steady (E : env) : Prop :=
  connect_returns E = true
  /\ (exists k, connack_after E = Some k /\ (k <= 20)%nat)
  /\ still_connected E 0 = true
  /\ still_connected E 1 = true.

(** a stretch of a run that publishes nothing and asks neither the clock
    nor the broker *)
Definition silent (s s' : state) : Prop :=
  published (out s') = published (out s)
  /\ n_now s' = n_now s /\ n_publish s' = n_publish s /\ n_calls s' = n_calls s.

(** what a publication of a run may be: one of the two messages, stamped
    with a reading of the clock *)
Definition stamped_message (E : env) (p : string * string) : Prop :=
  exists k,
    p = (TOPIC_HEARTBEAT, stamped heartbeat_fixed (now E k))
    \/ p = (TOPIC_STATUS, stamped status_fixed (now E k)).

(** *** Sample runs *)

(** a broker that acknowledges at once and accepts every publish; the
    user interrupts before any message arrives *)
Definition morning : env :=
  {| connect_returns := true; connack_after := Some 1;
     still_connected := fun _ => true;
     now := fun k => match k with
                     | O => "2025-01-01T08:00:00.000001"
                     | _ => "2025-01-01T08:00:01.002003"
                     end;
     publish_rc := fun _ => Some 0%Z;
     inbox := [] |}.

(** the same run, later in the day *)
Definition evening : env :=
  {| connect_returns := true; connack_after := Some 1;
     still_connected := fun _ => true;
     now := fun k => match k with
                     | O => "2025-01-01T20:00:00.000001"
                     | _ => "2025-01-01T20:00:01.002003"
                     end;
     publish_rc := fun _ => Some 0%Z;
     inbox := [] |}.

(** *** More vocabulary: any run *)

(** the payload [publish_test_message] makes of a message at a reading
    of the clock *)
Definition payload_of (message : message) (timestamp : string) : string :=
  match message with
  | DictMessage items => dumps (JDict (dict_set "timestamp" (JStr timestamp) items))
  | OtherMessage text => text
  end.

(** the connection comes up: the call returns and CONNACK arrives within
    the twenty waits of half a second *)
Definition comes_up (E : env) : bool :=
  connect_returns E
  && match connack_after E with
     | Some k => (k <=? 20)%nat
     | None => false
     end.


End Smoke.

(* ================================================================= *)
(** * Properties *)

Module PyStrFacts.
Import PyStr.

Lemma sapp_nil (t : string) : "" +:+ t = t.
Proof. reflexivity. Qed.

Lemma sapp_cons (c : ascii) (s t : string) :
  String c s +:+ t = String c (s +:+ t).
Proof. reflexivity. Qed.

Lemma sapp_empty_r (s : string) : s +:+ "" = s.
Proof. induction s as [|c s IH]; [done | by rewrite sapp_cons, IH]. Qed.

Lemma sapp_assoc (a b c : string) : (a +:+ b) +:+ c = a +:+ (b +:+ c).
Proof. induction a as [|x a IH]; [done | by rewrite !sapp_cons, IH]. Qed.

Lemma lower_app (a b : string) : lower (a +:+ b) = lower a +:+ lower b.
Proof.
  induction a as [|x a IH]; [done |].
  rewrite sapp_cons. simpl. by rewrite sapp_cons, IH.
Qed.

Lemma startswith_spec (p s : string) :
  startswith p s = true ↔ ∃ post, s = p +:+ post.
Proof.
  revert s. induction p as [|a p IH]; intros s; simpl.
  - split; [intros _; by exists s | done].
  - destruct s as [|b s].
    + split; [done | intros [post H]; discriminate H].
    + destruct (Ascii.eqb_spec a b) as [->|Hne].
      * rewrite IH. split; intros [post H]; exists post.
        -- by rewrite sapp_cons, H.
        -- rewrite sapp_cons in H. by injection H.
      * split; [done |].
        intros [post H]. rewrite sapp_cons in H. injection H as E _. by destruct Hne.
Qed.

Lemma contains_spec (needle s : string) :
  contains needle s = true ↔ ∃ pre post, s = pre +:+ needle +:+ post.
Proof.
  induction s as [|c s IH]; simpl.
  - rewrite orb_false_r, startswith_spec. split.
    + intros [post H]. by exists "", post.
    + intros [pre [post H]]. destruct pre; [by exists post | discriminate H].
  - rewrite orb_true_iff, startswith_spec, IH. split.
    + intros [[post H] | [pre [post H]]].
      * by exists "", post.
      * exists (String c pre), post. by rewrite sapp_cons, H.
    + intros [pre [post H]]. destruct pre as [|c' pre].
      * left. by exists post.
      * right. rewrite sapp_cons in H. injection H as _ H. by exists pre, post.
Qed.

(** A lowercased text splits wherever its lowercase image splits. *)
Lemma lower_split (s a b : string) :
  lower s = a +:+ b → ∃ s1 s2, s = s1 +:+ s2 ∧ lower s1 = a ∧ lower s2 = b.
Proof.
  revert s. induction a as [|x a IH]; intros s H.
  - by exists "", s.
  - rewrite sapp_cons in H. destruct s as [|c s]; simpl in H; [discriminate H |].
    injection H as Hc H. destruct (IH _ H) as (s1 & s2 & -> & H1 & H2).
    exists (String c s1), s2. simpl. by rewrite Hc, H1.
Qed.

(** The test the scripts run, [tok.lower() in text.lower()], decides
    case-insensitive occurrence. *)
Lemma contains_lower_ci (tok text : string) :
  contains (lower tok) (lower text) = true ↔ ci_occurs tok text.
Proof.
  rewrite contains_spec. unfold ci_occurs. split.
  - intros (pre & post & H).
    destruct (lower_split _ _ _ H) as (s1 & s23 & -> & H1 & H23).
    destruct (lower_split _ _ _ H23) as (s2 & s3 & -> & H2 & H3).
    by exists s1, s2, s3.
  - intros (pre & mid & post & -> & H).
    exists (lower pre), (lower post). by rewrite !lower_app, H.
Qed.

Lemma truthy_spec (s : string) : truthy s = true ↔ s ≠ "".
Proof. destruct s; simpl; split; congruence. Qed.

Lemma length_sapp (a b : string) :
  String.length (a +:+ b) = String.length a + String.length b.
Proof. induction a as [|x a IH]; [done|]. rewrite sapp_cons. simpl. by rewrite IH. Qed.

Lemma sapp_inv_r (a b suffix : string) : a +:+ suffix = b +:+ suffix → a = b.
Proof.
  revert b. induction a as [|x a IH]; intros [|y b] H; [done| | |].
  - exfalso. apply (f_equal String.length) in H.
    rewrite sapp_nil, sapp_cons in H. simpl in H.
    rewrite length_sapp in H. lia.
  - exfalso. apply (f_equal String.length) in H.
    rewrite sapp_nil, sapp_cons in H. simpl in H.
    rewrite length_sapp in H. lia.
  - rewrite !sapp_cons in H. injection H as -> H. by rewrite (IH _ H).
Qed.

Lemma sapp_inv_l (a b c : string) : a +:+ b = a +:+ c → b = c.
Proof.
  induction a as [|x a IH]; [done|]. rewrite !sapp_cons. intros H.
  injection H as H. by apply IH.
Qed.

End PyStrFacts.

(** ** The acceptance test runner *)

Module RunnerFacts.
Import PyStr PyNum Json Web Eff Runner PyStrFacts.

Ltac run_step :=
  unfold send_command, publish, set_responses, print, emit,
    try_except, bind, lift, raise, ret, get, modify, decode; simpl.

Lemma on_message_eq (msg : payload) (s : state) :
  on_message msg s = (Ok tt, received msg s).
Proof. destruct msg; reflexivity. Qed.

Lemma grows_refl (s : state) : grows s s.
Proof. exists []. by rewrite app_nil_r. Qed.

Lemma grows_trans (s1 s2 s3 : state) : grows s1 s2 → grows s2 s3 → grows s1 s3.
Proof.
  intros [e1 H1] [e2 H2]. exists (e1 ++ e2)%list.
  by rewrite H2, H1, List.app_assoc.
Qed.

Lemma grows_emit (s s' : state) (e : event) :
  grows (with_out (fun o => (o ++ [e])%list) s) s' → grows s s'.
Proof. apply grows_trans. by exists [e]. Qed.


Lemma quiet_refl (s : state) : quiet s s.
Proof. split; [apply grows_refl | done]. Qed.

Lemma quiet_trans (s1 s2 s3 : state) : quiet s1 s2 → quiet s2 s3 → quiet s1 s3.
Proof.
  intros (Hg1 & Ht1 & Hc1) (Hg2 & Ht2 & Hc2).
  split; [eauto using grows_trans | split; congruence].
Qed.

Lemma quiet_emit (s : state) (e : event) :
  quiet s (with_out (fun o => (o ++ [e])%list) s).
Proof. split; [by exists [e] | done]. Qed.

Lemma received_quiet (msg : payload) (s : state) : quiet s (received msg s).
Proof. destruct msg; (split; [simpl; eexists; reflexivity | done]). Qed.

Lemma deliver_ok (msgs : list payload) (s : state) :
  ∃ s', for_each msgs on_message s = (Ok tt, s')
        ∧ responses s' = (responses s ++ decoded msgs)%list
        ∧ n_mqtt s' = n_mqtt s
        ∧ quiet s s'.
Proof.
  revert s. induction msgs as [|m msgs IH]; intros s.
  - exists s. simpl. rewrite app_nil_r. eauto using quiet_refl.
  - simpl. unfold bind at 1. rewrite on_message_eq.
    destruct (IH (received m s)) as (s' & -> & Hr & Hk & Hq).
    exists s'. rewrite Hr, Hk. split; [done|].
    split; [|split].
    + destruct m; simpl; rewrite <- ?List.app_assoc; done.
    + by destruct m.
    + eapply quiet_trans; [apply received_quiet | done].
Qed.

Lemma send_command_ok (E : env) (command : string) (s : state) :
  ∃ s', send_command E command s = (Ok (response_text E (n_mqtt s)), s')
        ∧ n_mqtt s' = S (n_mqtt s)
        ∧ quiet s s'.
Proof.
  unfold send_command. run_step.
  match goal with |- context [for_each ?l ?f ?s0] =>
    destruct (deliver_ok l s0) as (s' & -> & Hr & Hk & Hq) end.
  simpl in *. rewrite Hr. eexists. split; [reflexivity|]. simpl.
  split; [done|].
  eapply quiet_trans; [|apply quiet_emit].
  eapply quiet_trans; [|exact Hq].
  split; [|done]. eexists. simpl. rewrite <- List.app_assoc. reflexivity.
Qed.

Lemma check_response_ok (info : test_info) (test_passed : bool) (response : string)
    (s : state) :
  ∃ s', check_response info test_passed response s
          = (Ok (test_passed && response_ok info response), s')
        ∧ n_mqtt s' = n_mqtt s ∧ quiet s s'.
Proof.
  unfold check_response, response_ok.
  destruct (PyStr.truthy response); simpl.
  - destruct (found_expected info response); simpl.
    + exists s. rewrite andb_true_r. eauto using quiet_refl.
    + destruct (expected info); simpl.
      * exists s. rewrite andb_true_r. eauto using quiet_refl.
      * run_step. eexists. rewrite andb_false_r. split; [reflexivity|].
        split; [done | apply quiet_emit].
  - run_step. eexists. rewrite andb_false_r. split; [reflexivity|].
    split; [done | apply quiet_emit].
Qed.

Lemma run_commands_ok (E : env) (info : test_info) (cmds : list string)
    (test_passed : bool) (results : list (string * string)) (s : state) :
  ∃ s' results',
    run_commands E info cmds test_passed results s
      = (Ok (test_passed && windows_ok E info (n_mqtt s) (length cmds), results'), s')
    ∧ quiet s s'.
Proof.
  revert test_passed results s.
  induction cmds as [|command rest IH]; intros test_passed results s; simpl.
  - exists s, results. rewrite andb_true_r. eauto using quiet_refl.
  - unfold bind at 1.
    destruct (send_command_ok E command s) as (s1 & -> & Hk1 & Hq1).
    unfold bind at 1.
    destruct (check_response_ok info test_passed (response_text E (n_mqtt s)) s1)
      as (s2 & -> & Hk2 & Hq2).
    destruct (IH (test_passed && response_ok info (response_text E (n_mqtt s)))
                 (results ++ [(command, response_text E (n_mqtt s))])%list s2)
      as (s3 & results' & -> & Hq3).
    exists s3, results'. rewrite Hk2, Hk1, andb_assoc. split; [done|].
    eauto using quiet_trans.
Qed.

Lemma run_test_case_ok (E : env) (test_id : string) (info : test_info) (s : state) :
  ∃ s' r,
    run_test_case E test_id info s = (Ok (passed r), s')
    ∧ passed r = windows_ok E info (n_mqtt s) (length (commands info))
    ∧ elapsed_minutes r = measured_minutes E s
    ∧ test_results s' = <[test_id := r]> (test_results s)
    ∧ grows s s'
    ∧ In (Printed (Verdict test_id (passed r))) (out s').
Proof.
  unfold run_test_case. unfold bind at 1, time_time at 1.
  unfold bind at 1.
  match goal with |- context [run_commands _ _ _ _ _ ?s0] =>
    destruct (run_commands_ok E info (commands info) true [] s0)
      as (s1 & results' & -> & (Hg & Ht & Hc)) end.
  run_step. unfold time_time. eexists.
  exists {| passed := windows_ok E info (n_mqtt s) (length (commands info));
            elapsed_minutes := ((clock E (n_clock s1) - clock E (n_clock s)) / 60)%Q;
            estimated_minutes := time_minutes info;
            results := results' |}.
  split; [reflexivity|]. simpl in *. split; [reflexivity|].
  split; [unfold measured_minutes; by rewrite Hc|].
  split; [by rewrite Ht|].
  destruct Hg as [evs Hg]. simpl in Hg.
  split.
  - eexists. simpl. rewrite Hg, <- !List.app_assoc. reflexivity.
  - rewrite !in_app_iff. left. right. simpl. auto.
Qed.

Lemma events_of_app {A : Type} (m : M state A) (s : state) (evs : list event) :
  out (snd (m s)) = (out s ++ evs)%list → events_of m s = evs.
Proof. intros H. unfold events_of. rewrite H. apply drop_app_length. Qed.

Lemma find_done_listed (transitions : list json) (d : json) :
  find_done transitions = inr d → Json.truthy d = true → done_listed transitions d.
Proof.
  induction transitions as [|t rest IH]; simpl; intros H Hd.
  - injection H as <-. discriminate Hd.
  - destruct (getitem t "name") as [e|n] eqn:Hn; [discriminate H|].
    destruct n; simpl in H; try discriminate H.
    destruct (String.eqb_spec (lower s) "done") as [Hl|Hl].
    + exists t, s. split; [by left | done].
    + destruct (IH H Hd) as (t' & n' & Hin & Hrest). exists t', n'.
      split; [by right | done].
Qed.

Ltac jira_unfold :=
  unfold update_jira_task, try_except, bind, requests, now_stamp, lift, reply_json,
    print, emit, modify, ret, raise; simpl.

Ltac jira_split :=
  repeat match goal with
         | |- context [match ?x with _ => _ end] =>
             lazymatch x with
             | context [match _ with _ => _ end] => fail
             | _ => destruct x eqn:?; simpl
             end
         end.


Ltac events_norm :=
  unfold events_of; simpl; rewrite <- ?List.app_assoc; rewrite ?drop_app_length; simpl.

Ltac absurd_event :=
  repeat match goal with
         | H : _ ∨ _ |- _ => destruct H
         | H : False |- _ => destruct H
         | H : Printed _ = Requested _ |- _ => discriminate H
         | H : Requested _ = Printed _ |- _ => discriminate H
         | H : Requested _ = Requested _ |- _ =>
             first [discriminate H | injection H; clear H; intros; subst]
         end.

(** C7, as amended: the transitions of an issue are asked for only if its
    test passed, and they are asked for whenever it passed and the worklog
    call returned a response; a transition request goes out only when the
    test passed, the query answered 200 and a listed transition named
    "done", whatever the case, has a truthy id. *)
Theorem transition_attempt_cases (E : env) (test_id : string) (passed : bool)
    (time_minutes : Q) (s : state) :
  let evs := events_of (update_jira_task E test_id passed time_minutes) s in
  (In (Requested (transitions_query E test_id)) evs → passed = true)
  ∧ (passed = true →
     (∃ status_code content,
        http E (n_http s)
          (worklog_request E test_id passed time_minutes (stamp E (n_clock s)))
        = Reply status_code content) →
     In (Requested (transitions_query E test_id)) evs)
  ∧ (∀ d, In (Requested (transition_request E test_id d)) evs →
          passed = true ∧ Json.truthy d = true
          ∧ ∃ content listed transitions,
              http E (S (n_http s)) (transitions_query E test_id)
                = Reply 200 (Some content)
              ∧ getitem content "transitions" = inr listed
              ∧ iter listed = inr transitions
              ∧ done_listed transitions d).
Proof.
  unfold worklog_request, transitions_query, transition_request.
  cbv zeta. unfold events_of. jira_unfold. jira_split.
  all: rewrite <- ?List.app_assoc; rewrite ?drop_app_length; simpl.
  all: unfold worklog_data in *.
  all: repeat match goal with
              | H : (_ =? _)%Z = true |- _ => apply Z.eqb_eq in H; subst
              end.
  all: split; [intros H; absurd_event; done | split].
  all: try (intros Hp (st & c & Hr); first [discriminate Hp | congruence | auto 8]; fail).
  all: intros d H; absurd_event.
  all: split; [done|]; split; [done|]; eexists _, _, _.
  all: repeat split; eauto using find_done_listed.
Qed.


Lemma found_expected_spec (info : test_info) (response : string) :
  found_expected info response = true
  ↔ ∃ tok, In tok (expected info) ∧ ci_occurs tok response.
Proof.
  unfold found_expected. rewrite existsb_exists.
  split; intros (tok & Hin & H); exists tok; split; try done;
    by apply contains_lower_ci.
Qed.

Lemma response_ok_spec (info : test_info) (response : string) :
  response_ok info response = true
  ↔ response ≠ "" ∧ (expected info = [] ∨ ∃ tok, In tok (expected info) ∧ ci_occurs tok response).
Proof.
  unfold response_ok.
  rewrite andb_true_iff, orb_true_iff, truthy_spec, found_expected_spec.
  destruct (expected info); intuition congruence.
Qed.

Lemma response_ok_acceptable (info : test_info) (response : string) :
  expected info ≠ [] →
  response_ok info response = true ↔ acceptable info response.
Proof.
  intros Hne. rewrite response_ok_spec. unfold acceptable. tauto.
Qed.

Lemma windows_ok_spec (E : env) (info : test_info) (k n : nat) :
  windows_ok E info k n = true
  ↔ ∀ i, i < n → response_ok info (response_text E (k + i)) = true.
Proof.
  revert k. induction n as [|n IH]; intros k; simpl.
  - split; [intros _ i Hi; lia | done].
  - rewrite andb_true_iff, IH. split.
    + intros [H0 Hrest] i Hi. destruct i as [|i].
      * by rewrite Nat.add_0_r.
      * replace (k + S i) with (S k + i) by lia. apply Hrest. lia.
    + intros H. split.
      * specialize (H 0). rewrite Nat.add_0_r in H. apply H. lia.
      * intros i Hi. replace (S k + i) with (k + S i) by lia. apply H. lia.
Qed.

Lemma TEST_CASES_expected (test_id : string) (info : test_info) :
  In (test_id, info) TEST_CASES → expected info ≠ [].
Proof.
  unfold TEST_CASES. simpl.
  intros H. repeat destruct H as [H | H]; try (injection H as <- <-; discriminate).
  destruct H.
Qed.

(** C1: a test case of the table is reported as passed (returned, stored
    and printed) exactly when, for each of its commands, the response text
    collected in that command's window is not empty and holds one of the
    expected tokens, whatever the case. *)
Theorem run_test_case_verdict (E : env) (s : state) (test_id : string)
    (info : test_info) :
  In (test_id, info) TEST_CASES →
  ∃ verdict s',
    run_test_case E test_id info s = (Ok verdict, s')
    ∧ passed <$> test_results s' !! test_id = Some verdict
    ∧ In (Printed (Verdict test_id verdict)) (out s')
    ∧ (verdict = true ↔
       ∀ i, i < length (commands info) →
            acceptable info (response_text E (n_mqtt s + i))).
Proof.
  intros Hin.
  destruct (run_test_case_ok E test_id info s) as (s' & r & Hrun & Hp & _ & Ht & _ & Hv).
  exists (passed r), s'. split; [done|].
  split; [by rewrite Ht, lookup_insert_eq|]. split; [done|].
  rewrite Hp, windows_ok_spec.
  pose proof (TEST_CASES_expected _ _ Hin) as Hne.
  split; intros H i Hi; apply (response_ok_acceptable _ _ Hne), H, Hi.
Qed.




Lemma TEST_CASES_keys : NoDup (map fst TEST_CASES).
Proof. compute_done. Qed.



(** What [update_jira_task] does with a failing call: it always returns;
    a worklog answer other than 200 and 201 and a transition answer other
    than 204 are printed with their status; a transitions query answered
    with another status than 200 ends the update with nothing printed
    about it. *)
Lemma update_jira_task_failures (E : env) (test_id : string) (passed : bool)
    (time_minutes : Q) (s : state) :
  let evs := events_of (update_jira_task E test_id passed time_minutes) s in
  let worklog := worklog_request E test_id passed time_minutes (stamp E (n_clock s)) in
  fst (update_jira_task E test_id passed time_minutes s) = Ok tt
  ∧ (∀ status_code content,
       http E (n_http s) worklog = Reply status_code content →
       status_code ≠ 200%Z → status_code ≠ 201%Z →
       In (Printed (LogWorkFailed status_code)) evs)
  ∧ (∀ d status_code content,
       In (Requested (transition_request E test_id d)) evs →
       http E (S (S (n_http s))) (transition_request E test_id d)
         = Reply status_code content →
       status_code ≠ 204%Z →
       In (Printed (TransitionFailed status_code)) evs)
  ∧ (∀ status_code0 content0 status_code content,
       passed = true →
       http E (n_http s) worklog = Reply status_code0 content0 →
       http E (S (n_http s)) (transitions_query E test_id) = Reply status_code content →
       status_code ≠ 200%Z →
       ∃ l, evs = [Requested worklog; Printed l; Requested (transitions_query E test_id)]).
Proof.
  unfold worklog_request, transitions_query, transition_request.
  cbv zeta. unfold events_of. jira_unfold. jira_split.
  all: rewrite <- ?List.app_assoc; rewrite ?drop_app_length; simpl.
  all: unfold worklog_data in *.
  all: repeat match goal with
              | H : (_ =? _)%Z = true |- _ => apply Z.eqb_eq in H; subst
              | H : (_ =? _)%Z = false |- _ => apply Z.eqb_neq in H
              | H : _ || _ = true |- _ => apply orb_true_iff in H as [H | H]
              | H : _ || _ = false |- _ => apply orb_false_iff in H as [? ?]
              end.
  all: split; [reflexivity|].
  all: split; [intros st c Hrep Hne0 Hne1; try discriminate Hrep;
               try (injection Hrep as -> ->); solve [intuition congruence | auto 8]|].
  all: split; [intros d st c Hev Hrep Hne; absurd_event; try discriminate Hrep;
               try (injection Hrep as -> ->);
               try match goal with
                   | Ha : ?x = Reply ?a _, Hb : ?x = Reply st _ |- _ =>
                       assert (a = st) by congruence; subst
                   end;
               solve [congruence | auto 12]|].
  all: intros st0 c0 st c Hp Hrep0 Hrep Hne; try discriminate Hp;
       try discriminate Hrep0; try discriminate Hrep;
       try (injection Hrep as -> ->); solve [congruence | eauto].
Qed.

Ltac find_event := repeat (first [left; reflexivity | right]).

Lemma run_test_case_verdict_witness :
  ∃ verdict s',
    run_test_case lab "RDP-187" charging initial = (Ok verdict, s')
    ∧ passed <$> test_results s' !! "RDP-187" = Some verdict
    ∧ In (Printed (Verdict "RDP-187" verdict)) (out s')
    ∧ (verdict = true ↔
       ∀ i, i < length (commands charging) →
            acceptable charging (response_text lab (n_mqtt initial + i))).
Proof.
  apply (run_test_case_verdict lab initial "RDP-187" charging).
  unfold TEST_CASES, charging. find_event.
Defined.



(** C7 as stated fails: with a tracker that cannot be reached the worklog
    call raises, and the update of a passed test asks for no transitions. *)
Lemma no_attempt_when_offline :
  ¬ In (Requested (transitions_query offline "RDP-187"))
       (events_of (update_jira_task offline "RDP-187" true 1) initial).
Proof. vm_compute. intros [H | [H | []]]; discriminate H. Qed.

Lemma transition_attempt_witness :
  In (Requested (transitions_query lab "RDP-187"))
     (events_of (update_jira_task lab "RDP-187" true 1) initial).
Proof.
  apply (transition_attempt_cases lab "RDP-187" true 1 initial).
  - reflexivity.
  - eexists _, _. reflexivity.
Defined.

End RunnerFacts.

(** ** The time estimate updater *)

Module EstimatorFacts.
Import PyStr PyNum Json Web Eff Estimator PyStrFacts.

Lemma simple_keywords_lowercase : lowercase simple_keywords.
Proof. repeat constructor. Qed.

Lemma complex_keywords_lowercase : lowercase complex_keywords.
Proof. repeat constructor. Qed.

Lemma very_complex_keywords_lowercase : lowercase very_complex_keywords.
Proof. repeat constructor. Qed.

Lemma any_in_mentions (keywords : list string) (task : issue) :
  lowercase keywords →
  any_in keywords (lower (summary task)) = true ↔ mentions keywords task.
Proof.
  intros Hl. unfold any_in, mentions. rewrite existsb_exists.
  unfold lowercase in Hl. rewrite List.Forall_forall in Hl.
  split; intros (keyword & Hin & H); exists keyword; split; try done.
  - apply contains_lower_ci. by rewrite (Hl _ Hin).
  - apply contains_lower_ci in H. by rewrite (Hl _ Hin) in H.
Qed.

Lemma classify_tier_of (task : issue) : tier_of task (classify task).
Proof.
  unfold classify.
  pose proof (any_in_mentions _ task very_complex_keywords_lowercase) as Hv.
  pose proof (any_in_mentions _ task complex_keywords_lowercase) as Hc.
  pose proof (any_in_mentions _ task simple_keywords_lowercase) as Hs.
  destruct (any_in very_complex_keywords _).
  { apply tier_very_complex. by apply Hv. }
  assert (¬ mentions very_complex_keywords task) by (intros H; by apply Hv in H).
  destruct (any_in complex_keywords _).
  { apply tier_complex; [done | by apply Hc]. }
  assert (¬ mentions complex_keywords task) by (intros H'; by apply Hc in H').
  destruct (any_in simple_keywords _).
  { apply tier_simple; [done | done | by apply Hs]. }
  apply tier_medium; [done | done |]. intros H'. by apply Hs in H'.
Qed.

Lemma tier_of_unique (task : issue) (t1 t2 : tier) :
  tier_of task t1 → tier_of task t2 → t1 = t2.
Proof. intros H1 H2. destruct H1; destruct H2; done. Qed.

Lemma bucket_categorize_task (b : buckets) (task : issue) (t : tier) :
  bucket (categorize_task b task) t
  = (bucket b t ++ if tier_eqb (classify task) t then [task] else [])%list.
Proof.
  unfold categorize_task, classify.
  destruct (any_in very_complex_keywords _);
    [| destruct (any_in complex_keywords _);
       [| destruct (any_in simple_keywords _)]];
    destruct t; simpl; by rewrite ?app_nil_r.
Qed.

Lemma bucket_fold (tasks : list issue) (b : buckets) (t : tier) :
  bucket (fold_left categorize_task tasks b) t = (bucket b t ++ of_tier t tasks)%list.
Proof.
  revert b. induction tasks as [|task rest IH]; intros b; simpl.
  - by rewrite app_nil_r.
  - rewrite IH, bucket_categorize_task, <- List.app_assoc. f_equal.
    unfold of_tier. simpl. by destruct (tier_eqb (classify task) t).
Qed.

Lemma bucket_categorize (tasks : list issue) (t : tier) :
  bucket (categorize tasks) t = of_tier t tasks.
Proof. unfold categorize. rewrite bucket_fold. by destruct t. Qed.

Lemma categorize_lengths (tasks : list issue) :
  length (simple_tasks (categorize tasks)) + length (medium_tasks (categorize tasks))
  + length (complex_tasks (categorize tasks))
  + length (very_complex_tasks (categorize tasks)) = length tasks.
Proof.
  change (length (bucket (categorize tasks) Simple)
          + length (bucket (categorize tasks) Medium)
          + length (bucket (categorize tasks) Complex)
          + length (bucket (categorize tasks) VeryComplex) = length tasks).
  rewrite !bucket_categorize. unfold of_tier.
  induction tasks as [|task rest IH]; [done|]. simpl.
  destruct (classify task); simpl; lia.
Qed.

(** C2: the categorization puts every task into the list of exactly one
    tier, the one the precedence of the keyword lists gives it (very
    complex, then complex, then simple, medium when no keyword occurs),
    keywords being looked for in the lowercased summary. *)
Theorem categorize_by_precedence (tasks : list issue) :
  (∀ t, bucket (categorize tasks) t = of_tier t tasks)
  ∧ (∀ task, tier_of task (classify task)
             ∧ ∀ t, tier_of task t → t = classify task)
  ∧ length (simple_tasks (categorize tasks)) + length (medium_tasks (categorize tasks))
    + length (complex_tasks (categorize tasks))
    + length (very_complex_tasks (categorize tasks)) = length tasks.
Proof.
  split; [apply bucket_categorize|]. split.
  - intros task. split; [apply classify_tier_of|].
    intros t Ht. apply (tier_of_unique task); [done | apply classify_tier_of].
  - apply categorize_lengths.
Qed.

Lemma hours_of_classify (b : buckets) (task : issue) :
  hours_of b task = tier_hours b (classify task).
Proof.
  unfold hours_of, classify.
  destruct (any_in very_complex_keywords _); [done|].
  destruct (any_in complex_keywords _); [done|].
  by destruct (any_in simple_keywords _).
Qed.

Lemma len_cons {A : Type} (x : A) (l : list A) : (len (x :: l) == len l + 1)%Q.
Proof.
  unfold len. simpl length. rewrite Nat2Z.inj_succ, <- Z.add_1_r, inject_Z_plus.
  reflexivity.
Qed.

Lemma in_of_tier (t : tier) (tasks : list issue) (task : issue) :
  In task (of_tier t tasks) ↔ In task tasks ∧ classify task = t.
Proof.
  unfold of_tier. rewrite filter_In. destruct (classify task), t; simpl; intuition congruence.
Qed.

Lemma charged_by_tier (h : tier → Q) (tasks : list issue) :
  (fold_right (fun task acc => h (classify task) + acc) 0 tasks
   == len (of_tier Simple tasks) * h Simple + len (of_tier Medium tasks) * h Medium
      + len (of_tier Complex tasks) * h Complex
      + len (of_tier VeryComplex tasks) * h VeryComplex)%Q.
Proof.
  induction tasks as [|task rest IH].
  - unfold len. simpl. ring.
  - simpl fold_right. rewrite IH. unfold of_tier. simpl List.filter.
    destruct (classify task); simpl tier_eqb; cbv iota; rewrite len_cons; ring.
Qed.

Lemma charged_classify (b : buckets) (tasks : list issue) :
  charged b tasks
  = fold_right (fun task acc => tier_hours b (classify task) + acc)%Q 0%Q tasks.
Proof.
  induction tasks as [|task rest IH]; [done|].
  unfold charged in *. simpl. by rewrite IH, hours_of_classify.
Qed.

(** C9: the tier the update loop finds for a task is the tier whose list
    the categorization put it in, so the task is charged that tier's
    hours, and the hours written back add up to the total computed from
    the tier counts. *)
Theorem passes_agree (tasks : list issue) :
  (∀ task t, In task (bucket (categorize tasks) t) →
             classify task = t ∧ hours_of (categorize tasks) task
                                 = tier_hours (categorize tasks) t)
  ∧ (∀ task, In task tasks →
             In task (bucket (categorize tasks) (classify task)))
  ∧ (charged (categorize tasks) tasks == total_hours (categorize tasks))%Q.
Proof.
  split; [|split].
  - intros task t Hin. rewrite bucket_categorize, in_of_tier in Hin.
    destruct Hin as [_ <-]. split; [done | apply hours_of_classify].
  - intros task Hin. rewrite bucket_categorize, in_of_tier. done.
  - rewrite charged_classify. unfold total_hours.
    change (simple_tasks (categorize tasks)) with (bucket (categorize tasks) Simple).
    change (medium_tasks (categorize tasks)) with (bucket (categorize tasks) Medium).
    change (complex_tasks (categorize tasks)) with (bucket (categorize tasks) Complex).
    change (very_complex_tasks (categorize tasks))
      with (bucket (categorize tasks) VeryComplex).
    rewrite !bucket_categorize.
    apply (charged_by_tier (tier_hours (categorize tasks)) tasks).
Qed.

Lemma estimated_total_pos (tasks : list issue) :
  tasks ≠ [] → (0 < estimated_total (categorize tasks))%Q.
Proof.
  intros Hne.
  pose proof (categorize_lengths tasks) as Hlen.
  assert (0 < length tasks) by (destruct tasks; [done | simpl; lia]).
  unfold estimated_total, len.
  destruct (categorize tasks) as [s m c v]. simpl in *.
  unfold Qlt, Qplus, Qmult, inject_Z. simpl. lia.
Qed.

Lemma scaling_factor_nonempty (tasks : list issue) :
  tasks ≠ [] →
  scaling_factor (categorize tasks) = (120 / estimated_total (categorize tasks))%Q.
Proof.
  intros Hne. unfold scaling_factor, lt.
  destruct (Qle_bool (estimated_total (categorize tasks)) 0) eqn:H; [|done].
  apply Qle_bool_iff in H. pose proof (estimated_total_pos tasks Hne) as Hpos.
  exfalso. apply (Qlt_not_le _ _ Hpos H).
Qed.

(** the allocations of a non-empty task list *)
Lemma allocations_scaled (tasks : list issue) :
  tasks ≠ [] →
  let b := categorize tasks in
  simple_hours b = round1 ((15 # 10) * (120 / estimated_total b))
  ∧ medium_hours b = round1 ((25 # 10) * (120 / estimated_total b))
  ∧ complex_hours b = round1 ((35 # 10) * (120 / estimated_total b))
  ∧ very_complex_hours b = round1 ((45 # 10) * (120 / estimated_total b)).
Proof.
  intros Hne b. subst b.
  unfold simple_hours, medium_hours, complex_hours, very_complex_hours.
  by rewrite (scaling_factor_nonempty tasks Hne).
Qed.

(** C3 fails on seventeen tasks without keywords: the estimated total is
    42.5 hours, each task is allocated round(7.0588.., 1) = 7.1 hours, and
    the assigned total, 120.7 hours, exceeds the budget of 120. *)
Theorem budget_exceeded :
  length (plain_tasks 17) = 17
  ∧ Qred (estimated_total (categorize (plain_tasks 17))) = (85 # 2)%Q
  ∧ Qred (medium_hours (categorize (plain_tasks 17))) = (71 # 10)%Q
  ∧ Qred (total_hours (categorize (plain_tasks 17))) = (1207 # 10)%Q
  ∧ (120 < total_hours (categorize (plain_tasks 17)))%Q.
Proof.
  split; [reflexivity|]. split; [vm_compute; reflexivity|].
  split; [vm_compute; reflexivity|]. split; [vm_compute; reflexivity|].
  vm_compute. reflexivity.
Qed.


Lemma log_grows_refl (s : state) : grows s s.
Proof. exists []. by rewrite app_nil_r. Qed.

Lemma log_grows_trans (s1 s2 s3 : state) : grows s1 s2 → grows s2 s3 → grows s1 s3.
Proof.
  intros [e1 H1] [e2 H2]. exists (e1 ++ e2)%list. by rewrite H2, H1, List.app_assoc.
Qed.

Lemma log_grows_In (s s' : state) (e : event) : grows s s' → In e (out s) → In e (out s').
Proof. intros [evs ->] H. apply in_or_app. by left. Qed.

Lemma update_tasks_put_all (E : env) (b : buckets) (tasks : list issue) (count : nat) :
  update_tasks E b tasks count
  = put_all E (fun task => float_repr (hours_of b task) +:+ "h") tasks count.
Proof.
  revert count. induction tasks as [|task rest IH]; intros count; [done|].
  simpl. by rewrite !IH.
Qed.

Lemma update_tests_put_all (E : env) (estimate : string) (tasks : list issue)
    (count : nat) :
  update_tests E estimate tasks count = put_all E (fun _ => estimate) tasks count.
Proof.
  revert count. induction tasks as [|task rest IH]; intros count; [done|].
  simpl. by rewrite !IH.
Qed.

Lemma put_all_ok (E : env) (estimate_of : issue → string) (tasks : list issue)
    (count : nat) (s : state) :
  answers E →
  ∃ count' s',
    put_all E estimate_of tasks count s = (Ok count', s')
    ∧ n_http s' = n_http s + length tasks
    ∧ grows s s'
    ∧ ∀ i task, nth_error tasks i = Some task →
        In (Requested (update_request E (key task) (estimate_of task))) (out s')
        ∧ ∀ status_code issues,
            http E (n_http s + i) (update_request E (key task) (estimate_of task))
              = Answer status_code issues →
            status_code ≠ 204%Z →
            In (Printed (UpdateFailed (key task) status_code)) (out s').
Proof.
  intros Hans. revert count s.
  induction tasks as [|task rest IH]; intros count s.
  - exists count, s. simpl. split; [done|]. split; [lia|]. split; [apply log_grows_refl|].
    intros [|i] task H; discriminate H.
  - simpl. unfold bind at 1, requests.
    destruct (Hans (n_http s) (update_request E (key task) (estimate_of task)))
      as (st & iss & Hrep).
    rewrite Hrep. simpl.
    destruct (st =? 204)%Z eqn:Hst; unfold bind at 1, print, modify; simpl.
    all: match goal with |- context [put_all _ _ _ ?c ?s0] =>
           destruct (IH c s0) as (count' & s' & -> & Hn & Hg & Hall) end.
    all: exists count', s'; split; [done|]; simpl in Hn; split; [lia|].
    all: assert (Hgs : grows s s')
           by (eapply log_grows_trans; [|exact Hg]; eexists; simpl;
               rewrite <- List.app_assoc; reflexivity).
    all: split; [exact Hgs|].
    all: intros [|i] task' Hnth; simpl in Hnth.
    all: try (injection Hnth as <-; rewrite Nat.add_0_r; split;
              [eapply log_grows_In; [exact Hg|]; simpl; rewrite !in_app_iff; simpl; tauto|];
              intros st' iss' Hrep' Hne; rewrite Hrep in Hrep'; injection Hrep' as <- <-).
    all: try (apply Z.eqb_eq in Hst; congruence).
    all: try (eapply log_grows_In; [exact Hg|]; simpl; rewrite !in_app_iff; simpl; tauto).
    all: destruct (Hall i task' Hnth) as [Hreq Hfail]; split; [done|];
         intros st' iss' Hrep' Hne; apply (Hfail st' iss'); [|done];
         simpl; by replace (S (n_http s + i)) with (n_http s + S i) by lia.
Qed.

Lemma bind_pointwise {S A B : Type} (m1 m2 : M S A) (k1 k2 : A → M S B) (s : S) :
  m1 s = m2 s → (∀ a s', k1 a s' = k2 a s') → bind m1 k1 s = bind m2 k2 s.
Proof.
  intros Hm H. unfold bind. rewrite Hm.
  destruct (m2 s) as [[a|e|c] s']; [apply H | done | done].
Qed.

(** with exact rationals, the script for any arithmetic is [main] *)
Lemma main_on_exact (E : env) (s : state) : main_on exact E s = main E s.
Proof.
  unfold main_on, main, tail_on.
  apply bind_pointwise; [done|]. intros response s0.
  destruct (negb (fst response =? 200)%Z); [done|].
  apply bind_pointwise; [done|]. intros todo_tasks s1. cbv zeta.
  do 7 (apply bind_pointwise; [done|]; intros _ ?).
  apply bind_pointwise; [by rewrite update_tasks_put_all|]. intros success_count ?.
  apply bind_pointwise; [done|]. intros _ ?.
  apply bind_pointwise; [done|]. intros response' ?.
  apply bind_pointwise; [|done].
  destruct (fst response' =? 200)%Z; [|done].
  apply bind_pointwise; [done|]. intros test_tasks ?.
  do 2 (apply bind_pointwise; [done|]; intros _ ?).
  apply bind_pointwise; [by rewrite update_tests_put_all|]. done.
Qed.

Lemma first_search_failure (A : arithmetic) (E : env) (status_code : Z)
    (issues : option (list issue)) :
  http E 0 (first_search E) = Answer status_code issues →
  status_code ≠ 200%Z →
  main_on A E initial
  = (Exited 1, {| out := [Requested (first_search E); Printed (FetchError status_code)];
                  n_http := 1 |}).
Proof.
  intros Hrep Hne. unfold main_on, bind, requests. simpl.
  unfold first_search in Hrep. rewrite Hrep. simpl.
  apply Z.eqb_neq in Hne. rewrite Hne. reflexivity.
Qed.

(** the run up to the first update loop, when the first search succeeds *)
Lemma main_after_search (A : arithmetic) (E : env) (todo_tasks : list issue) :
  http E 0 (first_search E) = Answer 200 (Some todo_tasks) →
  ∃ s0, main_on A E initial = tail_on A E todo_tasks s0
        ∧ n_http s0 = 1 ∧ requested (out s0) = [first_search E].
Proof.
  intros Hfirst. unfold main_on.
  unfold bind at 1, requests at 1. simpl.
  unfold first_search in Hfirst. rewrite Hfirst. simpl.
  unfold bind at 1. unfold lift, issues_of, ret at 1. simpl.
  do 7 (unfold bind at 1; unfold print at 1, modify at 1; simpl).
  eexists. split; [reflexivity|]. split; reflexivity.
Qed.

(** the script from its first update loop on, when every call is answered:
    it runs through, and both loops report the updates that fail *)
Lemma tail_on_reports (A : arithmetic) (E : env) (todo_tasks : list issue)
    (s0 : state) :
  answers E →
  http E (n_http s0 + length todo_tasks) (second_search E) ≠ Answer 200 None →
  ∃ s',
    tail_on A E todo_tasks s0 = (Ok tt, s')
    ∧ grows s0 s'
    ∧ (∀ i task, nth_error todo_tasks i = Some task →
         In (Requested (task_update A E todo_tasks task)) (out s')
         ∧ ∀ status_code issues,
             http E (n_http s0 + i) (task_update A E todo_tasks task)
               = Answer status_code issues →
             status_code ≠ 204%Z →
             In (Printed (UpdateFailed (key task) status_code)) (out s'))
    ∧ (∀ test_tasks,
         http E (n_http s0 + length todo_tasks) (second_search E)
           = Answer 200 (Some test_tasks) →
         ∀ j task, nth_error test_tasks j = Some task →
           In (Requested (test_update A E test_tasks task)) (out s')
           ∧ ∀ status_code issues,
               http E (S (n_http s0 + length todo_tasks) + j)
                    (test_update A E test_tasks task)
                 = Answer status_code issues →
               status_code ≠ 204%Z →
               In (Printed (UpdateFailed (key task) status_code)) (out s')).
Proof.
  intros Hans Hsound. unfold tail_on.
  unfold bind at 1.
  destruct (put_all_ok E (estimate_on A todo_tasks) todo_tasks 0 s0 Hans)
    as (count & s1 & -> & Hn1 & Hg1 & Hall1).
  unfold bind at 1; unfold print at 1, modify at 1; cbv beta iota.
  unfold bind at 1. unfold requests at 1. cbn [n_http out]. rewrite Hn1.
  fold (second_search E).
  destruct (http E (n_http s0 + length todo_tasks) (second_search E))
    as [e|st iss] eqn:Hsecond.
  { destruct (Hans (n_http s0 + length todo_tasks) (second_search E)) as (? & ? & H).
    congruence. }
  cbv beta iota. cbn [fst].
  set (s2 := {| out := (out s1 ++ [Printed (Updated count (length todo_tasks))])
                       ++ [Requested (second_search E)];
                n_http := S (n_http s0 + length todo_tasks) |}).
  assert (Hg2 : grows s0 s2).
  { eapply log_grows_trans; [exact Hg1|]. eexists. subst s2. cbn [out].
    rewrite <- List.app_assoc. reflexivity. }
  assert (Hall2 : ∀ i task, nth_error todo_tasks i = Some task →
            ∀ s', grows s2 s' →
            In (Requested (task_update A E todo_tasks task)) (out s')
            ∧ ∀ status_code issues,
                http E (n_http s0 + i) (task_update A E todo_tasks task)
                  = Answer status_code issues →
                status_code ≠ 204%Z →
                In (Printed (UpdateFailed (key task) status_code)) (out s')).
  { intros i task Hnth s' Hg. destruct (Hall1 i task Hnth) as [Hreq Hfail].
    assert (Hg' : grows s1 s').
    { eapply log_grows_trans; [|exact Hg]. eexists. subst s2. cbn [out].
      rewrite <- List.app_assoc. reflexivity. }
    split; [by eapply log_grows_In|].
    intros st' iss' Hrep Hne. eapply log_grows_In; [exact Hg'|].
    by apply (Hfail st' iss'). }
  assert (Hn2 : n_http s2 = S (n_http s0 + length todo_tasks)) by done.
  clearbody s2. clear Hall1.
  destruct (st =? 200)%Z eqn:Hst.
  - apply Z.eqb_eq in Hst. subst st.
    destruct iss as [test_tasks|]; [|done].
    unfold bind at 1. unfold bind at 1. unfold lift, issues_of, ret at 1. cbn [snd].
    do 2 (unfold bind at 1; unfold print at 1, modify at 1; cbv beta iota).
    unfold bind at 1.
    match goal with |- context [put_all E ?f test_tasks 0 ?s3] =>
      destruct (put_all_ok E f test_tasks 0 s3 Hans)
        as (count' & s4 & -> & _ & Hg4 & Hall4) end.
    unfold bind, print, modify. cbv beta iota. cbn [out n_http] in *.
    eexists. split; [reflexivity|]. cbn [out].
    assert (Hg24 : grows s2 s4).
    { eapply log_grows_trans; [|exact Hg4]. eexists. cbn [out].
      rewrite <- List.app_assoc. reflexivity. }
    assert (Hg4' : ∀ n, grows s4
              {| out := (out s4 ++ [Printed (UpdatedTests count' (length test_tasks))])
                        ++ [Printed Complete];
                 n_http := n |}).
    { intros n. eexists. cbn [out]. rewrite <- List.app_assoc. reflexivity. }
    split; [|split].
    + eapply log_grows_trans; [exact Hg2|].
      eapply log_grows_trans; [exact Hg24|]. apply Hg4'.
    + intros i task Hnth.
      apply (Hall2 i task Hnth {| out := _; n_http := n_http s4 |}).
      eapply log_grows_trans; [exact Hg24|]. apply Hg4'.
    + intros tests [= <-] j task Hnth.
      destruct (Hall4 j task Hnth) as [Hreq Hfail]. rewrite Hn2 in Hfail.
      split.
      * apply (log_grows_In s4 {| out := _; n_http := n_http s4 |});
          [apply Hg4' | exact Hreq].
      * intros st' iss' Hrep Hne.
        apply (log_grows_In s4 {| out := _; n_http := n_http s4 |}); [apply Hg4'|].
        by apply (Hfail st' iss').
  - unfold bind, ret, print, modify. cbv beta iota. eexists. split; [reflexivity|].
    assert (Hg2' : grows s2 {| out := out s2 ++ [Printed Complete]; n_http := n_http s2 |})
      by (eexists; reflexivity).
    split; [|split].
    + eapply log_grows_trans; [exact Hg2 | exact Hg2'].
    + intros i task Hnth. by apply (Hall2 i task Hnth).
    + intros tests [= -> _]. done.
Qed.

(** a second search answered with another status than 200 leaves no line:
    the call is the last but one event of the run *)
Lemma second_search_unreported (A : arithmetic) (E : env) (todo_tasks : list issue)
    (s0 : state) :
  answers E →
  (∀ issues, http E (n_http s0 + length todo_tasks) (second_search E)
             ≠ Answer 200 issues) →
  ∃ before,
    out (snd (tail_on A E todo_tasks s0))
    = (before ++ [Requested (second_search E); Printed Complete])%list.
Proof.
  intros Hans Hfail. unfold tail_on.
  unfold bind at 1.
  destruct (put_all_ok E (estimate_on A todo_tasks) todo_tasks 0 s0 Hans)
    as (count & s1 & -> & Hn1 & _ & _).
  unfold bind at 1; unfold print at 1, modify at 1; cbv beta iota.
  unfold bind at 1. unfold requests at 1. cbn [n_http out]. rewrite Hn1.
  fold (second_search E).
  destruct (Hans (n_http s0 + length todo_tasks) (second_search E))
    as (st & iss & Hsecond).
  rewrite Hsecond. cbv beta iota. cbn [fst].
  destruct (st =? 200)%Z eqn:Hst.
  { apply Z.eqb_eq in Hst. subst st. by destruct (Hfail iss). }
  unfold bind, ret, print, modify. cbn [snd out].
  eexists. rewrite <- List.app_assoc. reflexivity.
Qed.

End EstimatorFacts.

(** ** Failing calls of the issue tracker, in both scripts *)

Module TrackerFailures.
Import PyNum Json Web Eff.

(** C4, as amended: every update call that is answered with a status of
    failure (the worklog and the transition request of the runner, the
    estimate update of the estimator, for To Do and for Acceptance Test
    sub-tasks) has its status printed, and the script goes on; a first
    search answered with another status than 200 has its status printed
    and ends the estimator with exit status 1; no other status ends a
    script.  The estimator is taken for any arithmetic: which hours it
    writes plays no part. *)
Theorem failing_calls :
  (∀ (E : Runner.env) (test_id : string) (passed : bool) (time_minutes : Q)
     (s : Runner.state),
     let evs := Runner.events_of (Runner.update_jira_task E test_id passed time_minutes) s in
     let worklog :=
       Runner.worklog_request E test_id passed time_minutes
         (Runner.stamp E (Runner.n_clock s)) in
     fst (Runner.update_jira_task E test_id passed time_minutes s) = Ok tt
     ∧ (∀ status_code content,
          Runner.http E (Runner.n_http s) worklog = Reply status_code content →
          status_code ≠ 200%Z → status_code ≠ 201%Z →
          In (Runner.Printed (Runner.LogWorkFailed status_code)) evs)
     ∧ (∀ d status_code content,
          In (Runner.Requested (Runner.transition_request E test_id d)) evs →
          Runner.http E (S (S (Runner.n_http s))) (Runner.transition_request E test_id d)
            = Reply status_code content →
          status_code ≠ 204%Z →
          In (Runner.Printed (Runner.TransitionFailed status_code)) evs))
  ∧ (∀ (A : Estimator.arithmetic) (E : Estimator.env)
       (todo_tasks : list Estimator.issue),
       Estimator.answers E →
       Estimator.http E 0 (Estimator.first_search E)
         = Estimator.Answer 200 (Some todo_tasks) →
       Estimator.second_search_sound E todo_tasks →
       let run := Estimator.main_on A E Estimator.initial in
       fst run = Ok tt
       ∧ (∀ i task, nth_error todo_tasks i = Some task →
            let r := Estimator.task_update A E todo_tasks task in
            In (Estimator.Requested r) (Estimator.out (snd run))
            ∧ ∀ status_code issues,
                Estimator.http E (S i) r = Estimator.Answer status_code issues →
                status_code ≠ 204%Z →
                In (Estimator.Printed
                      (Estimator.UpdateFailed (Estimator.key task) status_code))
                   (Estimator.out (snd run)))
       ∧ (∀ test_tasks,
            Estimator.http E (S (length todo_tasks)) (Estimator.second_search E)
              = Estimator.Answer 200 (Some test_tasks) →
            ∀ j task, nth_error test_tasks j = Some task →
              let r := Estimator.test_update A E test_tasks task in
              In (Estimator.Requested r) (Estimator.out (snd run))
              ∧ ∀ status_code issues,
                  Estimator.http E (S (S (length todo_tasks + j))) r
                    = Estimator.Answer status_code issues →
                  status_code ≠ 204%Z →
                  In (Estimator.Printed
                        (Estimator.UpdateFailed (Estimator.key task) status_code))
                     (Estimator.out (snd run))))
  ∧ (∀ (A : Estimator.arithmetic) (E : Estimator.env) (status_code : Z)
       (issues : option (list Estimator.issue)),
       Estimator.http E 0 (Estimator.first_search E)
         = Estimator.Answer status_code issues →
       status_code ≠ 200%Z →
       Estimator.main_on A E Estimator.initial
       = (Exited 1,
          {| Estimator.out := [Estimator.Requested (Estimator.first_search E);
                               Estimator.Printed (Estimator.FetchError status_code)];
             Estimator.n_http := 1 |})).
Proof.
  split; [|split].
  - intros E test_id passed time_minutes s.
    destruct (RunnerFacts.update_jira_task_failures E test_id passed time_minutes s)
      as (Hok & Hworklog & Htransition & _).
    exact (conj Hok (conj Hworklog Htransition)).
  - intros A E todo_tasks Hans Hfirst Hsound. cbv zeta.
    destruct (EstimatorFacts.main_after_search A E todo_tasks Hfirst)
      as (s0 & -> & Hn0 & _).
    destruct (EstimatorFacts.tail_on_reports A E todo_tasks s0 Hans)
      as (s' & -> & _ & Htodo & Htests).
    { rewrite Hn0. exact Hsound. }
    rewrite Hn0 in Htodo, Htests. split; [done|]. split.
    + exact Htodo.
    + exact Htests.
  - apply EstimatorFacts.first_search_failure.
Qed.

Lemma grudging_answers : Estimator.answers Estimator.grudging.
Proof. intros [|[|[|[|[|k]]]]] r; simpl; eauto. Defined.

Lemma failing_calls_witness :
  In (Estimator.Printed (Estimator.UpdateFailed "RDP-9" 403))
     (Estimator.out
        (snd (Estimator.main_on Estimator.exact Estimator.grudging Estimator.initial))).
Proof.
  refine (proj2 (proj2 (proj2 (proj1 (proj2 failing_calls) Estimator.exact
                                 Estimator.grudging Estimator.sample_todo
                                 grudging_answers eq_refl _))
                   Estimator.sample_tests eq_refl 0
                   {| Estimator.key := "RDP-9";
                      Estimator.summary := "Acceptance test of the LED" |} eq_refl)
            403%Z None eq_refl _).
  - discriminate.
  - discriminate.
Defined.

(** C4 as stated fails: when the first search is answered with status 500
    the estimator prints the status and exits with status 1, having sent
    no other request. *)
Lemma first_search_failure_exits :
  fst (Estimator.main Estimator.down Estimator.initial) = Exited 1
  ∧ Estimator.out (snd (Estimator.main Estimator.down Estimator.initial))
    = [Estimator.Requested (Estimator.first_search Estimator.down);
       Estimator.Printed (Estimator.FetchError 500)].
Proof. split; vm_compute; reflexivity. Qed.

(** the flaky tracker: the refused update is printed with its status, the
    next one goes through, the refused second search leaves no line *)
Example flaky_run :
  fst (Estimator.main Estimator.flaky Estimator.initial) = Ok tt
  ∧ skipn 8 (Estimator.out (snd (Estimator.main Estimator.flaky Estimator.initial)))
    = [Estimator.Requested
         (Estimator.update_request Estimator.flaky "RDP-7" "90.0h");
       Estimator.Printed (Estimator.UpdateFailed "RDP-7" 500);
       Estimator.Requested
         (Estimator.update_request Estimator.flaky "RDP-8" "30.0h");
       Estimator.Printed (Estimator.UpdateDone "RDP-8" "30.0h");
       Estimator.Printed (Estimator.Updated 1 2);
       Estimator.Requested (Estimator.second_search Estimator.flaky);
       Estimator.Printed Estimator.Complete].
Proof. split; vm_compute; reflexivity. Qed.

End TrackerFailures.

(** ** The firmware update packager *)

Module PackagerFacts.
Import PyStr Eff Packager PyStrFacts.

Lemma split_on_length (sep : ascii) (s : string) :
  length (split_on sep s) = S (count_char sep s).
Proof.
  induction s as [|c s IH]; [done|]. simpl.
  destruct (Ascii.eqb c sep); simpl; [by rewrite IH|].
  destruct (split_on sep s); simpl in *; lia.
Qed.

Lemma count_char_lstrip (c : ascii) (s : string) :
  is_space c = false → count_char c (lstrip s) = count_char c s.
Proof.
  intros Hc. induction s as [|c' s IH]; [done|]. simpl.
  destruct (is_space c') eqn:Hs; [|done].
  rewrite IH. destruct (Ascii.eqb_spec c' c) as [->|]; [congruence | done].
Qed.

Lemma count_char_rstrip (c : ascii) (s : string) :
  is_space c = false → count_char c (rstrip s) = count_char c s.
Proof.
  intros Hc. induction s as [|c' s IH]; [done|]. simpl.
  destruct (rstrip s) as [|r0 r] eqn:Hr.
  - rewrite <- IH. destruct (is_space c') eqn:Hs; simpl.
    + destruct (Ascii.eqb_spec c' c) as [->|]; [congruence | done].
    + lia.
  - simpl in *. by rewrite IH.
Qed.

Lemma count_char_strip (c : ascii) (s : string) :
  is_space c = false → count_char c (strip s) = count_char c s.
Proof.
  intros Hc. unfold strip. by rewrite count_char_rstrip, count_char_lstrip.
Qed.

Lemma read_version_vars_single (lines : list string) (vars vars' : gmap string string) :
  read_version_vars lines vars = inr vars' →
  ∀ line, In line lines → contains "=" line = true → count_char "=" line = 1.
Proof.
  revert vars. induction lines as [|l rest IH]; intros vars H line Hin Hc; [done|].
  simpl in H. destruct Hin as [<- | Hin].
  - rewrite Hc in H.
    pose proof (split_on_length "=" (strip l)) as Hlen.
    rewrite count_char_strip in Hlen by done.
    destruct (split_on "=" (strip l)) as [|k [|v [|x parts]]]; try discriminate H.
    simpl in Hlen. lia.
  - destruct (contains "=" l).
    + destruct (split_on "=" (strip l)) as [|k [|v [|x parts]]]; try discriminate H.
      by apply (IH _ H).
    + by apply (IH _ H).
Qed.

(** C10: the parse of VERSION is partial. The sample file parses to
    V1.2.3; with one more line that holds two "=" the unpacking raises
    ValueError although the three keys are there, and the script ends on
    that exception; and whenever the parse succeeds, every line with a
    "=" holds exactly one. *)
Theorem version_parse_partial :
  (parse_version sample_version_text = inr "V1.2.3"
   ∧ parse_version bad_version_text = inl ValueError
   ∧ fst (main sample_listing
            {| files := <[version_file := File bad_version_text]> sample_project;
               out := [] |}) = Raised ValueError)
  ∧ ∀ text version,
      parse_version text = inr version →
      ∀ line, In line (file_lines text) → contains "=" line = true →
              count_char "=" line = 1.
Proof.
  split; [repeat split; vm_compute; reflexivity|].
  intros text version H. unfold parse_version in H.
  destruct (read_version_vars (file_lines text) ∅) as [e|vars] eqn:Hvars; [discriminate H|].
  by apply (read_version_vars_single _ _ _ Hvars).
Qed.

Lemma version_parse_partial_witness : count_char "=" "PATCHLEVEL = 3" = 1.
Proof.
  apply (proj2 version_parse_partial sample_version_text "V1.2.3").
  - vm_compute. reflexivity.
  - vm_compute. auto.
  - reflexivity.
Defined.

(** the targets are told apart by the board names *)
Lemma target_filename_inj (a b version : string) :
  target_filename a version = target_filename b version → a = b.
Proof. unfold target_filename. apply sapp_inv_r. Qed.

Lemma target_path_inj (a b version : string) :
  target_path a version = target_path b version → a = b.
Proof.
  unfold target_path, output_dir. simpl. intros H. injection H as H.
  by apply (target_filename_inj _ _ version).
Qed.













(** the sample project, packaged: the speaker's binary comes from
    [rapidreach-fw/zephyr], the beacon's from [zephyr], and the board
    without a binary and the stray file leave nothing behind *)
Example sample_packaged :
  let run := main sample_listing {| files := sample_project; out := [] |} in
  fst run = Ok tt
  ∧ out (snd run)
    = [NoBinary "empty"; FallingBack "beacon";
       Prepared output_dir ["speaker_rapidreach-fw_V1.2.3.bin";
                            "beacon_rapidreach-fw_V1.2.3.bin"]]
  ∧ files (snd run) !! ["firmware_updates"; "speaker_rapidreach-fw_V1.2.3.bin"]
    = Some (File "speaker firmware")
  ∧ files (snd run) !! ["firmware_updates"; "beacon_rapidreach-fw_V1.2.3.bin"]
    = Some (File "beacon firmware")
  ∧ files (snd run) !! ["firmware_updates"; "empty_rapidreach-fw_V1.2.3.bin"] = None.
Proof. cbv zeta. repeat split; vm_compute; reflexivity. Qed.

End PackagerFacts.

(** ** The MQTT smoke test *)

Module SmokeFacts.
Import PyStr PyNum Json Eff Smoke PyStrFacts.
Local Open Scope string_scope.

(** *** JSON string literals can be read back *)

Lemma unescape_escape_char (c : ascii) (t : string) :
  unescape (escape_char c +:+ t) = String c (unescape t).
Proof.
  destruct c as [b0 b1 b2 b3 b4 b5 b6 b7].
  destruct b0, b1, b2, b3, b4, b5, b6, b7; reflexivity.
Qed.

Lemma unescape_escape (s : string) : unescape (escape s) = s.
Proof.
  induction s as [|c s IH]; [done|].
  simpl escape. by rewrite unescape_escape_char, IH.
Qed.

Lemma escape_inj (s1 s2 : string) : escape s1 = escape s2 → s1 = s2.
Proof. intros H. by rewrite <- (unescape_escape s1), H, unescape_escape. Qed.

(** two payloads with the same fixed part differ exactly when their
    timestamps do *)
Lemma stamped_inj (fixed t1 t2 : string) :
  stamped fixed t1 = stamped fixed t2 ↔ t1 = t2.
Proof.
  split; [|by intros ->]. unfold stamped, quote. intros H.
  apply sapp_inv_l in H. rewrite <- !sapp_assoc in H.
  apply sapp_inv_r in H. apply sapp_inv_r in H. apply sapp_inv_l in H.
  by apply escape_inj.
Qed.

(** *** What [json.dumps] makes of the two messages *)

Lemma heartbeat_payload (timestamp : string) :
  dumps (JDict (dict_set "timestamp" (JStr timestamp) heartbeat_msg))
  = stamped heartbeat_fixed timestamp.
Proof. vm_compute. reflexivity. Qed.

Lemma status_payload (timestamp : string) :
  dumps (JDict (dict_set "timestamp" (JStr timestamp) status_msg))
  = stamped status_fixed timestamp.
Proof. vm_compute. reflexivity. Qed.

(** *** The run, step by step *)

Lemma published_app (a b : list event) :
  published (a ++ b) = (published a ++ published b)%list.
Proof.
  induction a as [|e a IH]; [done|]. destruct e; simpl; by rewrite IH.
Qed.

Lemma silent_refl (s : state) : silent s s.
Proof. done. Qed.

Lemma silent_trans (s1 s2 s3 : state) : silent s1 s2 → silent s2 s3 → silent s1 s3.
Proof. intros (?&?&?&?) (?&?&?&?). repeat split; congruence. Qed.

Ltac smoke_step :=
  unfold bind, print, emit, set_connected, modify, ret, get; simpl.

Ltac silent_done :=
  split; [|done]; simpl; rewrite ?published_app; simpl; rewrite ?app_nil_r; done.

Lemma on_connect_run (s : state) :
  ∃ s', on_connect 0 s = (Ok tt, s') ∧ connected s' = true ∧ silent s s'.
Proof.
  unfold on_connect. smoke_step. eexists. split; [reflexivity|]. split; [done|].
  silent_done.
Qed.

Lemma emit_silent (e : event) (s : state) :
  (∀ topic payload, e ≠ Published topic payload) →
  ∃ s', emit e s = (Ok tt, s') ∧ connected s' = connected s ∧ silent s s'.
Proof.
  intros He. unfold emit, modify. eexists. split; [reflexivity|]. split; [done|].
  split; [|done]. simpl. rewrite published_app.
  destruct e as [t|t p|h|l| |]; simpl; rewrite ?app_nil_r; try done.
  by destruct (He t p).
Qed.

(** the waiting loop always ends, and publishes nothing *)
Lemma wait_connected_silent (E : env) (left waited : nat) (s : state) :
  ∃ s', wait_connected E waited left s = (Ok tt, s') ∧ silent s s'.
Proof.
  revert waited s. induction left as [|left IH]; intros waited s.
  - simpl. destruct (connack_after E) as [k|].
    + destruct (k <=? waited)%nat.
      * destruct (on_connect_run s) as (s' & -> & _ & Hs). by exists s'.
      * exists s. done.
    + exists s. done.
  - simpl.
    assert (Hloop : ∃ s', (emit (Slept 1) ;;; wait_connected E (S waited) left)%eff s
                          = (Ok tt, s') ∧ silent s s').
    { unfold bind at 1.
      destruct (emit_silent (Slept 1) s) as (s1 & -> & _ & H1); [done|].
      destruct (IH (S waited) s1) as (s2 & -> & H2). exists s2. split; [done|].
      by eapply silent_trans. }
    destruct (connack_after E) as [k|]; [|exact Hloop].
    destruct (k <=? waited)%nat; [|exact Hloop].
    destruct (on_connect_run s) as (s' & -> & _ & Hs). by exists s'.
Qed.

(** when CONNACK arrives in time, the loop ends connected *)
Lemma wait_connected_run (E : env) (k waited left : nat) (s : state) :
  connack_after E = Some k → k <= waited + left →
  ∃ s', wait_connected E waited left s = (Ok tt, s')
        ∧ connected s' = true ∧ silent s s'.
Proof.
  intros Hk. revert waited s. induction left as [|left IH]; intros waited s Hle.
  - simpl. rewrite Hk. destruct (Nat.leb_spec k waited); [|lia].
    apply on_connect_run.
  - simpl. rewrite Hk. destruct (Nat.leb_spec k waited).
    + apply on_connect_run.
    + unfold bind at 1.
      destruct (emit_silent (Slept 1) s) as (s1 & -> & _ & H1); [done|].
      destruct (IH (S waited) s1) as (s' & -> & Hc & Hs); [lia|].
      exists s'. split; [done|]. split; [done|]. by eapply silent_trans.
Qed.

(** [connect] always returns, and publishes nothing *)
Lemma connect_silent (E : env) (s : state) :
  ∃ b s', connect E s = (Ok b, s') ∧ silent s s'.
Proof.
  unfold connect, try_except.
  unfold bind at 1, print, emit, modify. cbv beta iota.
  destruct (connect_returns E).
  - unfold bind at 1, ret at 1. cbv beta iota. unfold bind at 1.
    match goal with |- context [wait_connected E 0 20 ?s0] =>
      destruct (wait_connected_silent E 20 0 s0) as (s' & -> & Hs) end.
    assert (H0 : silent s s').
    { eapply silent_trans; [|exact Hs]. silent_done. }
    unfold bind, get. cbv beta iota. destruct (connected s'); cbn [negb].
    + exists true, s'. done.
    + eexists false, _. split; [reflexivity|].
      eapply silent_trans; [exact H0|]. silent_done.
  - unfold bind, raise, ret. cbv beta iota. eexists false, _.
    split; [reflexivity|]. silent_done.
Qed.

Lemma connect_run (E : env) (s : state) :
  steady E →
  ∃ s', connect E s = (Ok true, s') ∧ silent s s'.
Proof.
  intros (Hret & (k & Hk & Hle) & _). unfold connect, try_except.
  unfold bind at 1, print, emit, modify. cbv beta iota. rewrite Hret.
  unfold bind at 1, ret at 1. cbv beta iota. unfold bind at 1.
  match goal with |- context [wait_connected E 0 20 ?s0] =>
    destruct (wait_connected_run E k 0 20 s0 Hk) as (s' & -> & Hc & Hs); [lia|] end.
  unfold bind, get. rewrite Hc. simpl. exists s'. split; [done|].
  eapply silent_trans; [|exact Hs]. silent_done.
Qed.

(** a call of [publish_test_message] on a [dict], made while connected,
    publishes the [dict] with the clock's next reading *)
Lemma publish_run (E : env) (topic : string) (items : list (string * json))
    (s : state) :
  still_connected E (n_calls s) = true →
  ∃ b s',
    publish_test_message E topic (DictMessage items) s = (Ok b, s')
    ∧ published (out s')
      = (published (out s)
         ++ [(topic, dumps (JDict (dict_set "timestamp" (JStr (now E (n_now s)))
                                     items)))])%list
    ∧ n_now s' = S (n_now s) ∧ n_calls s' = S (n_calls s).
Proof.
  intros Hc. unfold publish_test_message, try_except, isoformat_now, client_publish.
  smoke_step. rewrite Hc. simpl.
  destruct (publish_rc E (n_publish s)) as [rc|]; simpl.
  - destruct (rc =? 0)%Z; simpl; eexists _, _; (split; [reflexivity|]); simpl;
      rewrite !published_app; simpl; rewrite ?app_nil_r; done.
  - eexists _, _. split; [reflexivity|]. simpl.
    rewrite !published_app. simpl. rewrite ?app_nil_r. done.
Qed.

(** any call of [publish_test_message] on a [dict] returns; it publishes
    nothing, or the [dict] with the clock's next reading *)
Lemma publish_any (E : env) (topic : string) (items : list (string * json))
    (s : state) :
  ∃ b s',
    publish_test_message E topic (DictMessage items) s = (Ok b, s')
    ∧ (published (out s') = published (out s)
       ∨ published (out s')
         = (published (out s)
            ++ [(topic, dumps (JDict (dict_set "timestamp"
                                        (JStr (now E (n_now s))) items)))])%list).
Proof.
  destruct (still_connected E (n_calls s)) eqn:Hc.
  - destruct (publish_run E topic items s Hc) as (b & s' & H & Hp & _).
    exists b, s'. split; [done|]. by right.
  - unfold publish_test_message. smoke_step. rewrite Hc. simpl.
    eexists _, _. split; [reflexivity|]. left. simpl.
    rewrite published_app. simpl. apply app_nil_r.
Qed.

Lemma on_message_silent (msg : incoming) (s : state) :
  ∃ s', on_message msg s = (Ok tt, s') ∧ silent s s'.
Proof.
  unfold on_message, try_except, lift. smoke_step.
  destruct (payload msg); simpl; [destruct (pretty msg); simpl|].
  all: eexists; split; [reflexivity|]; silent_done.
Qed.

Lemma inbox_silent (msgs : list incoming) (s : state) :
  ∃ s', for_each msgs on_message s = (Ok tt, s') ∧ silent s s'.
Proof.
  revert s. induction msgs as [|m msgs IH]; intros s.
  - exists s. done.
  - simpl. unfold bind at 1.
    destruct (on_message_silent m s) as (s1 & -> & H1).
    destruct (IH s1) as (s2 & -> & H2). exists s2. split; [done|].
    by eapply silent_trans.
Qed.

(** the end of [main]: listening, the interrupt, the disconnection *)
Lemma listening_silent (E : env) (s : state) :
  ∃ s', (print Listening ;;; for_each (inbox E) on_message ;;;
         print Stopping ;;; disconnect ;;; print Goodbye)%eff s = (Ok tt, s')
        ∧ published (out s') = published (out s).
Proof.
  unfold bind at 1, print at 1, emit at 1, modify at 1. cbv beta iota.
  unfold bind at 1.
  match goal with |- context [for_each (inbox E) on_message ?s0] =>
    destruct (inbox_silent (inbox E) s0) as (s4 & -> & Hp4 & _) end.
  cbn [out] in Hp4. rewrite published_app in Hp4. cbn [published] in Hp4.
  rewrite app_nil_r in Hp4.
  unfold disconnect, bind, print, emit, modify, get, ret. cbv beta iota.
  destruct (connected s4); cbn [snd out connected]; eexists;
    (split; [reflexivity|]); cbn [out]; rewrite !published_app, Hp4;
    cbn [published]; by rewrite ?app_nil_r.
Qed.

(** a steady run publishes the two messages, each with the reading of
    the clock at its call *)
Lemma main_publications (E : env) :
  steady E →
  publications E
  = [(TOPIC_HEARTBEAT, stamped heartbeat_fixed (now E 0));
     (TOPIC_STATUS, stamped status_fixed (now E 1))].
Proof.
  intros Hsteady. pose proof Hsteady as (_ & _ & Hc0 & Hc1).
  unfold publications, main. unfold bind at 1.
  destruct (connect_run E initial Hsteady) as (s1 & -> & Hp1 & Hn1 & _ & Hk1).
  change (negb true) with false. cbv iota. unfold bind at 1.
  destruct (publish_run E TOPIC_HEARTBEAT heartbeat_msg s1)
    as (b2 & s2 & -> & Hp2 & Hn2 & Hk2); [by rewrite Hk1|].
  rewrite Hp1, Hn1, heartbeat_payload in Hp2. cbn [initial out published app] in Hp2.
  unfold bind at 1, emit at 1, modify at 1. cbv beta iota.
  unfold bind at 1.
  match goal with |- context [publish_test_message E TOPIC_STATUS _ ?s0] =>
    destruct (publish_run E TOPIC_STATUS status_msg s0)
      as (b3 & s3 & -> & Hp3 & Hn3 & Hk3);
    [cbn [n_calls]; by rewrite Hk2, Hk1|] end.
  cbn [out n_now] in Hp3. rewrite Hn2, Hn1, status_payload, published_app, Hp2 in Hp3.
  cbn [initial n_now published app] in Hp3.
  destruct (listening_silent E s3) as (s5 & -> & Hp5).
  cbn [snd]. by rewrite Hp5, Hp3.
Qed.

(** whatever the broker and the clock do, a run publishes nothing but the
    two messages, stamped *)
Lemma main_stamped (E : env) : Forall (stamped_message E) (publications E).
Proof.
  unfold publications, main. unfold bind at 1.
  destruct (connect_silent E initial) as (b & s1 & -> & Hp1 & _).
  cbn [initial out published] in Hp1.
  destruct b; cbn [negb].
  - unfold bind at 1.
    destruct (publish_any E TOPIC_HEARTBEAT heartbeat_msg s1)
      as (b2 & s2 & -> & Hp2).
    rewrite Hp1, heartbeat_payload in Hp2. cbn [app] in Hp2.
    unfold bind at 1, emit at 1, modify at 1. cbv beta iota.
    unfold bind at 1.
    match goal with |- context [publish_test_message E TOPIC_STATUS _ ?s0] =>
      destruct (publish_any E TOPIC_STATUS status_msg s0)
        as (b3 & s3 & -> & Hp3) end.
    cbn [out n_now] in Hp3. rewrite status_payload, published_app in Hp3.
    cbn [published] in Hp3. rewrite app_nil_r in Hp3.
    destruct (listening_silent E s3) as (s5 & -> & Hp5).
    cbn [snd]. rewrite Hp5.
    assert (H2 : Forall (stamped_message E) (published (out s2))).
    { destruct Hp2 as [-> | ->]; [constructor|].
      repeat constructor. exists (n_now s1). by left. }
    destruct Hp3 as [-> | ->]; [done|].
    apply Forall_app. split; [done|].
    repeat constructor. exists (n_now s2). by right.
  - unfold print, emit, modify. cbn [snd out]. rewrite published_app, Hp1.
    constructor.
Qed.

(** C8 (as amended): the two published payloads are fixed up to a
    [timestamp] field. In any two runs in which the connection comes up
    in time and holds, the client publishes exactly two messages, the
    first to the heartbeat topic and the second to the status topic; each
    payload is the fixed text of its message followed by the reading of
    [datetime.now().isoformat()] at the call, as a JSON string; and the
    payloads of the two runs to the same topic are identical exactly when
    those readings are. *)
Theorem payloads_fixed_up_to_timestamp (E1 E2 : env) :
  steady E1 → steady E2 →
  ∃ heartbeat1 status1 heartbeat2 status2,
    publications E1 = [(TOPIC_HEARTBEAT, heartbeat1); (TOPIC_STATUS, status1)]
    ∧ publications E2 = [(TOPIC_HEARTBEAT, heartbeat2); (TOPIC_STATUS, status2)]
    ∧ heartbeat1 = stamped heartbeat_fixed (now E1 0)
    ∧ heartbeat2 = stamped heartbeat_fixed (now E2 0)
    ∧ status1 = stamped status_fixed (now E1 1)
    ∧ status2 = stamped status_fixed (now E2 1)
    ∧ (heartbeat1 = heartbeat2 ↔ now E1 0 = now E2 0)
    ∧ (status1 = status2 ↔ now E1 1 = now E2 1).
Proof.
  intros H1 H2. eexists _, _, _, _.
  split; [exact (main_publications E1 H1)|].
  split; [exact (main_publications E2 H2)|].
  do 4 (split; [reflexivity|]).
  split; apply stamped_inj.
Qed.

Lemma morning_steady : steady morning.
Proof. repeat split; try reflexivity. exists 1. split; [reflexivity|lia]. Defined.

Lemma evening_steady : steady evening.
Proof. repeat split; try reflexivity. exists 1. split; [reflexivity|lia]. Defined.

Lemma payloads_fixed_up_to_timestamp_witness :
  steady morning ∧ steady evening
  ∧ ∃ heartbeat1 status1 heartbeat2 status2,
      publications morning
      = [(TOPIC_HEARTBEAT, heartbeat1); (TOPIC_STATUS, status1)]
      ∧ publications evening
        = [(TOPIC_HEARTBEAT, heartbeat2); (TOPIC_STATUS, status2)]
      ∧ heartbeat1 = stamped heartbeat_fixed (now morning 0)
      ∧ heartbeat2 = stamped heartbeat_fixed (now evening 0)
      ∧ status1 = stamped status_fixed (now morning 1)
      ∧ status2 = stamped status_fixed (now evening 1)
      ∧ (heartbeat1 = heartbeat2 ↔ now morning 0 = now evening 0)
      ∧ (status1 = status2 ↔ now morning 1 = now evening 1).
Proof.
  split; [exact morning_steady|]. split; [exact evening_steady|].
  exact (payloads_fixed_up_to_timestamp morning evening
           morning_steady evening_steady).
Defined.

(** Two runs of the client at different times of the day: the connection
    comes up and holds in both, and both publish the two messages, but
    neither the heartbeat payloads nor the status payloads agree. *)
Lemma payloads_differ_across_runs :
  publications morning
  = [(TOPIC_HEARTBEAT, stamped heartbeat_fixed "2025-01-01T08:00:00.000001");
     (TOPIC_STATUS, stamped status_fixed "2025-01-01T08:00:01.002003")]
  ∧ publications evening
    = [(TOPIC_HEARTBEAT, stamped heartbeat_fixed "2025-01-01T20:00:00.000001");
       (TOPIC_STATUS, stamped status_fixed "2025-01-01T20:00:01.002003")]
  ∧ stamped heartbeat_fixed "2025-01-01T08:00:00.000001"
    ≠ stamped heartbeat_fixed "2025-01-01T20:00:00.000001"
  ∧ stamped status_fixed "2025-01-01T08:00:01.002003"
    ≠ stamped status_fixed "2025-01-01T20:00:01.002003".
Proof.
  split; [vm_compute; reflexivity|]. split; [vm_compute; reflexivity|].
  split; vm_compute; discriminate.
Qed.

End SmokeFacts.

(** ** The acceptance test runner: whole runs and edge cases *)

Module RunnerRuns.
Import PyStr PyNum Json Web Eff Runner PyStrFacts RunnerFacts.

Lemma published_commands_app (a b : list event) :
  published (a ++ b) = (published a ++ published b)%list.
Proof.
  induction a as [|e a IH]; [done|]. destruct e; simpl; by rewrite IH.
Qed.

Lemma calm_refl (s : state) : calm s s.
Proof. done. Qed.

Lemma calm_trans (s1 s2 s3 : state) : calm s1 s2 → calm s2 s3 → calm s1 s3.
Proof. intros (?&?&?&?&?) (?&?&?&?&?). repeat split; congruence. Qed.

Lemma calm_print (s : state) (l : line) :
  calm s (with_out (fun o => (o ++ [Printed l])%list) s).
Proof. split; [|done]. simpl. rewrite published_commands_app. simpl. apply app_nil_r. Qed.

Lemma received_calm (msg : payload) (s : state) :
  published (out (received msg s)) = published (out s)
  ∧ passed_count (received msg s) = passed_count s
  ∧ failed_count (received msg s) = failed_count s
  ∧ test_results (received msg s) = test_results s
  ∧ n_mqtt (received msg s) = n_mqtt s.
Proof.
  destruct msg; simpl; rewrite published_commands_app; simpl; by rewrite app_nil_r.
Qed.

Lemma deliver_calm (msgs : list payload) (s : state) :
  ∃ s', for_each msgs on_message s = (Ok tt, s') ∧ calm s s'.
Proof.
  revert s. induction msgs as [|m msgs IH]; intros s.
  - by exists s.
  - simpl. unfold bind at 1. rewrite on_message_eq.
    destruct (IH (received m s)) as (s' & -> & Hc). exists s'. split; [done|].
    eapply calm_trans; [|exact Hc]. apply received_calm.
Qed.

Lemma send_command_trace (E : env) (command : string) (s : state) :
  ∃ response s',
    send_command E command s = (Ok response, s')
    ∧ published (out s') = (published (out s) ++ [(command_topic E, command)])%list
    ∧ passed_count s' = passed_count s ∧ failed_count s' = failed_count s
    ∧ test_results s' = test_results s.
Proof.
  unfold send_command. run_step.
  match goal with |- context [for_each ?l ?f ?s0] =>
    destruct (deliver_calm l s0) as (s' & -> & Hp & Hpc & Hfc & Htr & _) end.
  simpl in *. eexists _, _. split; [reflexivity|]. simpl.
  rewrite published_commands_app, Hp, !published_commands_app. simpl. rewrite !app_nil_r.
  done.
Qed.

Lemma check_response_calm (info : test_info) (test_passed : bool) (response : string)
    (s : state) :
  ∃ b s', check_response info test_passed response s = (Ok b, s')
          ∧ published (out s') = published (out s)
          ∧ passed_count s' = passed_count s ∧ failed_count s' = failed_count s
          ∧ test_results s' = test_results s.
Proof.
  unfold check_response.
  destruct (PyStr.truthy response); [destruct (_ && _)|]; run_step.
  all: eexists _, _; split; [reflexivity|]; simpl;
       rewrite ?published_commands_app; simpl; rewrite ?app_nil_r; done.
Qed.

Lemma run_commands_trace (E : env) (info : test_info) (cmds : list string)
    (test_passed : bool) (results : list (string * string)) (s : state) :
  ∃ r s',
    run_commands E info cmds test_passed results s = (Ok r, s')
    ∧ published (out s')
      = (published (out s) ++ map (fun command => (command_topic E, command)) cmds)%list
    ∧ passed_count s' = passed_count s ∧ failed_count s' = failed_count s
    ∧ test_results s' = test_results s.
Proof.
  revert test_passed results s.
  induction cmds as [|command rest IH]; intros test_passed results s; simpl.
  - eexists _, s. rewrite app_nil_r. done.
  - unfold bind at 1.
    destruct (send_command_trace E command s) as (resp & s1 & -> & Hp1 & Hpc1 & Hfc1 & Ht1).
    unfold bind at 1.
    destruct (check_response_calm info test_passed resp s1)
      as (b & s2 & -> & Hp2 & Hpc2 & Hfc2 & Ht2).
    destruct (IH b (results ++ [(command, resp)])%list s2)
      as (r & s3 & -> & Hp3 & Hpc3 & Hfc3 & Ht3).
    eexists _, _. split; [reflexivity|].
    rewrite Hp3, Hp2, Hp1, <- List.app_assoc. split; [done|].
    repeat split; congruence.
Qed.

Lemma run_test_case_trace (E : env) (test_id : string) (info : test_info) (s : state) :
  ∃ r s',
    run_test_case E test_id info s = (Ok (passed r), s')
    ∧ test_results s' = <[test_id := r]> (test_results s)
    ∧ published (out s') = (published (out s) ++ case_commands E (test_id, info))%list
    ∧ passed_count s' = passed_count s ∧ failed_count s' = failed_count s.
Proof.
  unfold run_test_case. unfold bind at 1, time_time at 1. unfold bind at 1.
  match goal with |- context [run_commands _ _ _ _ _ ?s0] =>
    destruct (run_commands_trace E info (commands info) true [] s0)
      as ([v results'] & s1 & -> & Hp & Hpc & Hfc & Ht) end.
  run_step. unfold time_time.
  exists {| passed := v;
            elapsed_minutes := ((clock E (n_clock s1) - clock E (n_clock s)) / 60)%Q;
            estimated_minutes := time_minutes info;
            results := results' |}.
  eexists. split; [reflexivity|]. simpl in *.
  rewrite !published_commands_app, Hp. simpl. rewrite !app_nil_r.
  by rewrite Ht.
Qed.

Lemma update_jira_task_calm (E : env) (test_id : string) (passed : bool)
    (time_minutes : Q) (s : state) :
  ∃ s', update_jira_task E test_id passed time_minutes s = (Ok tt, s')
        ∧ published (out s') = published (out s)
        ∧ passed_count s' = passed_count s ∧ failed_count s' = failed_count s
        ∧ test_results s' = test_results s.
Proof.
  jira_unfold. jira_split.
  all: eexists; split; [reflexivity|]; simpl.
  all: rewrite ?published_commands_app; simpl; rewrite ?app_nil_r; done.
Qed.

Lemma stored_passed_insert (results : gmap string test_result) (test_id : string)
    (r : test_result) :
  stored_passed (<[test_id := r]> results) test_id = passed r.
Proof. unfold stored_passed. by rewrite lookup_insert_eq. Qed.

Lemma run_cases_trace (E : env) (cases : list (string * test_info)) (s : state) :
  NoDup (map fst cases) →
  ∃ s', run_cases E cases s = (Ok tt, s')
        ∧ published (out s') = (published (out s) ++ flat_map (case_commands E) cases)%list
        ∧ passed_count s'
          = passed_count s
            + length (List.filter (fun c => stored_passed (test_results s') (fst c)) cases)
        ∧ passed_count s' + failed_count s'
          = passed_count s + failed_count s + length cases
        ∧ (∀ test_id, ¬ In test_id (map fst cases) →
                      test_results s' !! test_id = test_results s !! test_id)
        ∧ (∀ test_id, In test_id (map fst cases) → is_Some (test_results s' !! test_id)).
Proof.
  revert s. induction cases as [|[test_id info] rest IH]; intros s Hnd.
  - exists s. simpl. rewrite app_nil_r. repeat split; try done; try lia.
  - simpl in Hnd. apply NoDup_cons in Hnd as [Hfresh Hnd].
    rewrite list_elem_of_In in Hfresh.
    simpl run_cases. unfold bind at 1, try_except. unfold bind at 1.
    destruct (run_test_case_trace E test_id info s)
      as (r & s1 & -> & Ht1 & Hp1 & Hpc1 & Hfc1).
    unfold bind at 1.
    set (s1' := snd ((if passed r then modify (with_passed_count S)
                      else modify (with_failed_count S)) s1)).
    assert (Hs1' : (if passed r then modify (with_passed_count S)
                    else modify (with_failed_count S)) s1 = (Ok tt, s1')).
    { subst s1'. by destruct (passed r). }
    rewrite Hs1'.
    assert (Ht1' : test_results s1' = test_results s1) by (subst s1'; by destruct (passed r)).
    assert (Ho1' : out s1' = out s1) by (subst s1'; by destruct (passed r)).
    assert (Hpc1' : passed_count s1' = passed_count s1 + if passed r then 1 else 0)
      by (subst s1'; destruct (passed r); simpl; lia).
    assert (Hfc1' : failed_count s1' = failed_count s1 + if passed r then 0 else 1)
      by (subst s1'; destruct (passed r); simpl; lia).
    clearbody s1'. clear Hs1'.
    unfold bind at 1, get. unfold bind at 1.
    rewrite Ht1', Ht1, lookup_insert_eq. simpl lift. unfold ret at 1.
    unfold bind at 1.
    destruct (update_jira_task_calm E test_id (passed r) (py_max (elapsed_minutes r) 1) s1')
      as (s2 & -> & Hp2 & Hpc2 & Hfc2 & Ht2).
    run_step.
    match goal with |- context [run_cases E rest ?s0] =>
      destruct (IH s0 Hnd) as (s3 & -> & Hp3 & Hpc3 & Hsum3 & Hkeep & Hall) end.
    exists s3. split; [done|]. simpl in *.
    rewrite !published_commands_app in Hp3. simpl in Hp3. rewrite app_nil_r in Hp3.
    assert (Hmine : test_results s3 !! test_id = Some r).
    { rewrite Hkeep by done. rewrite Ht2, Ht1', Ht1. apply lookup_insert_eq. }
    split; [|split; [|split; [|split]]].
    + rewrite Hp3, Hp2, Ho1', Hp1, <- List.app_assoc. reflexivity.
    + unfold stored_passed at 1. rewrite Hmine.
      destruct (passed r); simpl; lia.
    + destruct (passed r); lia.
    + intros id Hid. rewrite Hkeep by tauto. rewrite Ht2, Ht1', Ht1.
      apply lookup_insert_ne. tauto.
    + intros id [<- | Hin]; [by rewrite Hmine | by apply Hall].
Qed.

(** the run of all tests once the connection is up *)
Lemma run_all_tests_trace (E : env) :
  connect_ok E = true →
  ∃ s1,
    run_all_tests E initial
    = (Ok tt,
       with_out (fun o =>
         (o ++ [Printed (Summary (length TEST_CASES) (passed_count s1) (failed_count s1)
                           (total_time s1));
                Saved "acceptance-test-results.json" (length TEST_CASES)
                  (passed_count s1) (failed_count s1) (total_time s1) (test_results s1);
                Disconnected])%list) s1)
    ∧ published (out s1) = flat_map (case_commands E) TEST_CASES
    ∧ passed_count s1
      = length (List.filter (fun c => stored_passed (test_results s1) (fst c)) TEST_CASES)
    ∧ passed_count s1 + failed_count s1 = length TEST_CASES
    ∧ (∀ test_id, is_Some (test_results s1 !! test_id) ↔ In test_id (map fst TEST_CASES)).
Proof.
  intros Hc. unfold run_all_tests, setup_mqtt. rewrite Hc.
  pose proof TEST_CASES_keys as Hnd.
  remember TEST_CASES as cases eqn:Hcases. clear Hcases.
  unfold bind, print, emit, modify, ret, get. cbv beta iota.
  change (negb true) with false. cbv beta iota.
  match goal with |- context [run_cases E cases ?s0] =>
    destruct (run_cases_trace E cases s0 Hnd)
      as (s1 & -> & Hp & Hpc & Hsum & Hkeep & Hall) end.
  cbn [out passed_count failed_count test_results with_out with_passed_count
       with_failed_count with_total_time initial published app] in *.
  exists s1. split.
  - unfold with_out. cbn. rewrite <- !List.app_assoc. reflexivity.
  - split; [exact Hp|]. split; [exact Hpc|]. split; [lia|].
    intros test_id. split; [|apply Hall].
    intros Hsome. destruct (in_dec string_dec test_id (map fst cases)) as [|Hno]; [done|].
    rewrite (Hkeep _ Hno) in Hsome. by destruct Hsome.
Qed.

(** X1: the summary of a run adds up. Once the connection is up the run
    ends normally; every test case of the table, and nothing else, has a
    stored result; the passed count is the number of stored results
    that say passed; passed and failed together are the seventeen test
    cases; and the run ends by printing these counts, saving them with
    the results and disconnecting. *)
Theorem summary_adds_up (E : env) :
  connect_ok E = true →
  let run := run_all_tests E initial in
  let s := snd run in
  fst run = Ok tt
  ∧ passed_count s + failed_count s = 17
  ∧ passed_count s
    = length (List.filter (fun c => stored_passed (test_results s) (fst c)) TEST_CASES)
  ∧ (∀ test_id, is_Some (test_results s !! test_id) ↔ In test_id (map fst TEST_CASES))
  ∧ ∃ before,
      out s
      = (before
         ++ [Printed (Summary 17 (passed_count s) (failed_count s) (total_time s));
             Saved "acceptance-test-results.json" 17 (passed_count s) (failed_count s)
               (total_time s) (test_results s);
             Disconnected])%list.
Proof.
  intros Hc. cbv zeta.
  destruct (run_all_tests_trace E Hc) as (s1 & -> & _ & Hpc & Hsum & Hdom).
  cbn [fst snd]. change (length TEST_CASES) with 17 in *.
  split; [done|]. split; [exact Hsum|]. split; [exact Hpc|]. split; [exact Hdom|].
  by exists (out s1).
Qed.

(** X2: the commands the device is sent. A run publishes the commands of
    the test cases, each once and in the order of the table, to the
    command topic of the device, and nothing else; a run whose
    connection call raised publishes nothing. *)
Theorem commands_published_in_order (E : env) :
  published (out (snd (run_all_tests E initial)))
  = if connect_ok E then flat_map (case_commands E) TEST_CASES else [].
Proof.
  destruct (connect_ok E) eqn:Hc.
  - destruct (run_all_tests_trace E Hc) as (s1 & -> & Hp & _).
    cbn [snd with_out out]. rewrite published_commands_app, Hp. cbn [published].
    apply app_nil_r.
  - unfold run_all_tests, setup_mqtt. rewrite Hc. reflexivity.
Qed.

(** X3: the results file is written exactly when the connection call
    returned; when it raised, the run ends after two lines, with no
    command sent and no request made. *)
Theorem results_saved_iff_connected (E : env) :
  ((∃ total passed failed minutes results,
      In (Saved "acceptance-test-results.json" total passed failed minutes results)
         (out (snd (run_all_tests E initial))))
   ↔ connect_ok E = true)
  ∧ (connect_ok E = false →
     run_all_tests E initial
     = (Ok tt, with_out (fun _ => [Printed ConnectFailed; Printed SetupFailed]) initial)).
Proof.
  assert (Hoff : connect_ok E = false →
                 run_all_tests E initial
                 = (Ok tt, with_out (fun _ => [Printed ConnectFailed; Printed SetupFailed])
                             initial)).
  { intros Hc. unfold run_all_tests, setup_mqtt. rewrite Hc. reflexivity. }
  split; [|exact Hoff]. split.
  - intros (t & p & f & m & r & Hin). destruct (connect_ok E); [done|].
    rewrite (Hoff eq_refl) in Hin. simpl in Hin. by destruct Hin as [H | [H | []]].
  - intros Hc. destruct (run_all_tests_trace E Hc) as (s1 & -> & _).
    eexists _, _, _, _, _. cbn [snd with_out out]. rewrite in_app_iff. right.
    right. by left.
Qed.

(** X4: an answer to the transitions query that cannot be used. When the
    query is answered with status 200 but the content is no JSON, has
    no "transitions", lists something that has no "name", or names a
    "done" transition without an "id", the exception is printed as an
    error of the update; when no listed transition is named "done", or
    the one that is has an empty id, the update says that the transition
    was not found. In both cases no transition request is sent and the
    update returns. *)
Theorem unusable_transitions_answer (E : env) (test_id : string) (time_minutes : Q)
    (s : state) (status_code : Z) (content0 content : option json) :
  let worklog := worklog_request E test_id true time_minutes (stamp E (n_clock s)) in
  let update := update_jira_task E test_id true time_minutes in
  http E (n_http s) worklog = Reply status_code content0 →
  http E (S (n_http s)) (transitions_query E test_id) = Reply 200 content →
  fst (update s) = Ok tt
  ∧ (∀ e, done_transition_of content = inl e →
          ∃ l, events_of update s
               = [Requested worklog; Printed l; Requested (transitions_query E test_id);
                  Printed (JiraError e)])
  ∧ (∀ d, done_transition_of content = inr d → Json.truthy d = false →
          ∃ l, events_of update s
               = [Requested worklog; Printed l; Requested (transitions_query E test_id);
                  Printed DoneNotFound]).
Proof.
  unfold worklog_request, transitions_query, done_transition_of.
  cbv zeta. unfold events_of. jira_unfold. unfold worklog_data. jira_split.
  all: intros Hw Hq; simplify_eq.
  all: split; [reflexivity|].
  all: rewrite <- ?List.app_assoc; rewrite ?drop_app_length; simpl.
  all: split; [intros e' He' | intros d' Hd' Ht'].
  all: repeat (simplify_eq;
               match goal with
               | H1 : ?x = _, H2 : ?x = _ |- _ => rewrite H1 in H2
               end).
  all: simplify_eq; try congruence; eexists; reflexivity.
Qed.

(** X5: the search for the "done" transition stops at the first one. When
    the transitions before it have names other than "done", whatever the
    case, the search gives the "id" of the first transition named
    "done" (or the KeyError of its missing "id") and never looks at the
    ones after it; when no transition is named "done" it gives [None]. *)
Theorem find_done_first (before : list json) :
  Forall (fun t => ∃ n, getitem t "name" = inr (JStr n) ∧ lower n ≠ "done") before →
  find_done before = inr JNull
  ∧ ∀ t n after,
      getitem t "name" = inr (JStr n) → lower n = "done" →
      find_done (before ++ t :: after) = getitem t "id".
Proof.
  induction 1 as [|t0 before (n0 & Hn0 & Hne) _ [IHnone IHfirst]].
  - split; [done|]. intros t n after Hn Hl. simpl. rewrite Hn. simpl.
    by rewrite Hl.
  - simpl. rewrite Hn0. simpl.
    destruct (String.eqb_spec (lower n0) "done") as [|_]; [done|].
    split; [exact IHnone | exact IHfirst].
Qed.

(** X6: the verdict of any test case, not only of those of the table. It
    is passed exactly when every command gets a response that is not
    empty and, unless the test case expects nothing, holds one of the
    expected tokens, whatever the case. So a test case without expected
    tokens passes on any responses that are not empty, and a test case
    without commands passes. *)
Theorem verdict_of_any_case (E : env) (s : state) (test_id : string)
    (info : test_info) :
  ∃ verdict s',
    run_test_case E test_id info s = (Ok verdict, s')
    ∧ passed <$> test_results s' !! test_id = Some verdict
    ∧ (verdict = true ↔
       ∀ i, i < length (commands info) →
            response_text E (n_mqtt s + i) ≠ ""
            ∧ (expected info = []
               ∨ ∃ tok, In tok (expected info)
                        ∧ ci_occurs tok (response_text E (n_mqtt s + i)))).
Proof.
  destruct (run_test_case_ok E test_id info s) as (s' & r & Hrun & Hp & _ & Ht & _ & _).
  exists (passed r), s'. split; [done|].
  split; [by rewrite Ht, lookup_insert_eq|].
  rewrite Hp, windows_ok_spec.
  split; intros H i Hi; apply response_ok_spec, H, Hi.
Qed.

Lemma summary_adds_up_witness :
  passed_count (snd (run_all_tests lab initial))
  + failed_count (snd (run_all_tests lab initial)) = 17.
Proof. exact (proj1 (proj2 (summary_adds_up lab eq_refl))). Defined.

Lemma unusable_transitions_answer_witness :
  ∃ l, events_of (update_jira_task untidy "RDP-187" true 1) initial
       = [Requested (worklog_request untidy "RDP-187" true 1 (stamp untidy 0));
          Printed l; Requested (transitions_query untidy "RDP-187");
          Printed (JiraError (KeyError "transitions"))].
Proof.
  exact (proj1 (proj2 (unusable_transitions_answer untidy "RDP-187" 1 initial 201 None
                         (Some (JDict [])) eq_refl eq_refl))
           (KeyError "transitions") eq_refl).
Defined.

Lemma find_done_first_witness : find_done sample_transitions = inr (JStr "31").
Proof.
  refine (proj2 (find_done_first [JDict [("id", JStr "11"); ("name", JStr "In Progress")]] _)
            (JDict [("id", JStr "31"); ("name", JStr "DONE")]) "DONE"
            [JDict [("id", JStr "41"); ("name", JStr "Done")]] eq_refl eq_refl).
  constructor; [|constructor]. exists "In Progress". split; [reflexivity|].
  vm_compute. discriminate.
Defined.

Lemma requested_events_app (a b : list event) :
  requested (a ++ b) = (requested a ++ requested b)%list.
Proof.
  induction a as [|e a IH]; [done|]. destruct e; simpl; by rewrite IH.
Qed.

Lemma received_requested (msg : payload) (s : state) :
  requested (out (received msg s)) = requested (out s).
Proof. destruct msg; simpl; rewrite requested_events_app; simpl; by rewrite app_nil_r. Qed.

Lemma deliver_requested (msgs : list payload) (s : state) :
  requested (out (snd (for_each msgs on_message s))) = requested (out s).
Proof.
  revert s. induction msgs as [|m msgs IH]; intros s; [done|].
  simpl. unfold bind at 1. rewrite on_message_eq, IH. apply received_requested.
Qed.

Lemma send_command_requested (E : env) (command : string) (s : state) :
  requested (out (snd (send_command E command s))) = requested (out s).
Proof.
  unfold send_command. run_step.
  match goal with |- context [for_each ?l ?f ?s0] =>
    pose proof (deliver_requested l s0) as Hd;
    destruct (deliver_ok l s0) as (s' & Hrun & _) end.
  rewrite Hrun in *. simpl in *.
  rewrite requested_events_app, Hd, !requested_events_app. simpl.
  by rewrite !app_nil_r.
Qed.

Lemma check_response_requested (info : test_info) (test_passed : bool)
    (response : string) (s : state) :
  requested (out (snd (check_response info test_passed response s)))
  = requested (out s).
Proof.
  unfold check_response.
  destruct (PyStr.truthy response); [destruct (_ && _)|]; run_step.
  all: rewrite ?requested_events_app; simpl; rewrite ?app_nil_r; done.
Qed.

Lemma run_commands_requested (E : env) (info : test_info) (cmds : list string)
    (test_passed : bool) (results : list (string * string)) (s : state) :
  requested (out (snd (run_commands E info cmds test_passed results s)))
  = requested (out s).
Proof.
  revert test_passed results s.
  induction cmds as [|command rest IH]; intros test_passed results s; simpl; [done|].
  unfold bind at 1.
  pose proof (send_command_requested E command s) as H1.
  destruct (send_command_ok E command s) as (s1 & Hrun1 & _). rewrite Hrun1 in *.
  unfold bind at 1.
  pose proof (check_response_requested info test_passed
                (response_text E (n_mqtt s)) s1) as H2.
  destruct (check_response_ok info test_passed (response_text E (n_mqtt s)) s1)
    as (s2 & Hrun2 & _). rewrite Hrun2 in *.
  rewrite IH. simpl in *. congruence.
Qed.

Lemma run_test_case_requested (E : env) (test_id : string) (info : test_info)
    (s : state) :
  requested (out (snd (run_test_case E test_id info s))) = requested (out s).
Proof.
  unfold run_test_case. unfold bind at 1, time_time at 1. unfold bind at 1.
  match goal with |- context [run_commands _ _ _ _ _ ?s0] =>
    pose proof (run_commands_requested E info (commands info) true [] s0) as Hc;
    destruct (run_commands_ok E info (commands info) true [] s0)
      as (s1 & results' & Hrun & _) end.
  rewrite Hrun in *. run_step. unfold time_time. simpl in *.
  rewrite !requested_events_app. simpl. by rewrite !app_nil_r.
Qed.

(** the requests of one update: the worklog, then for a passed test the
    query, then the transition by a truthy id *)
Lemma update_jira_task_requests (E : env) (test_id : string) (passed : bool)
    (time_minutes : Q) (s : state) :
  ∃ rs,
    requested (out (snd (update_jira_task E test_id passed time_minutes s)))
    = (requested (out s) ++ rs)%list
    ∧ Forall (tracker_call E passed test_id) rs.
Proof.
  unfold tracker_call, worklog_request, transitions_query, transition_request.
  jira_unfold. jira_split.
  all: match goal with |- ∃ rs, ?lhs = _ ∧ _ => remember lhs as sent eqn:Hsent end.
  all: rewrite ?requested_events_app in Hsent; simpl in Hsent;
       rewrite ?app_nil_r, <- ?List.app_assoc in Hsent; simpl in Hsent; subst sent.
  all: eexists; (split; [reflexivity|]).
  all: repeat match goal with
              | |- Forall _ (_ :: _) => apply List.Forall_cons
              | |- Forall _ [] => apply List.Forall_nil
              end.
  all: first [ left; eexists _, _; reflexivity
             | right; split; [reflexivity|]; left; reflexivity
             | right; split; [reflexivity|]; right; eexists; split; [eassumption|];
               reflexivity ].
Qed.

Lemma run_cases_requests (E : env) (cases : list (string * test_info)) (s : state) :
  NoDup (map fst cases) →
  ∃ s' rs,
    run_cases E cases s = (Ok tt, s')
    ∧ requested (out s') = (requested (out s) ++ rs)%list
    ∧ (∀ test_id, ¬ In test_id (map fst cases) →
                  test_results s' !! test_id = test_results s !! test_id)
    ∧ Forall (fun r => ∃ test_id,
                In test_id (map fst cases)
                ∧ tracker_call E (stored_passed (test_results s') test_id) test_id r) rs.
Proof.
  revert s. induction cases as [|[test_id info] rest IH]; intros s Hnd.
  - exists s, []. simpl. rewrite app_nil_r. done.
  - simpl in Hnd. apply NoDup_cons in Hnd as [Hfresh Hnd].
    rewrite list_elem_of_In in Hfresh.
    simpl run_cases. unfold bind at 1, try_except. unfold bind at 1.
    pose proof (run_test_case_requested E test_id info s) as Hq1.
    destruct (run_test_case_trace E test_id info s) as (r & s1 & Hrun1 & Ht1 & _).
    rewrite Hrun1 in *. cbn [snd] in Hq1.
    unfold bind at 1.
    set (s1' := snd ((if passed r then modify (with_passed_count S)
                      else modify (with_failed_count S)) s1)).
    assert (Hs1' : (if passed r then modify (with_passed_count S)
                    else modify (with_failed_count S)) s1 = (Ok tt, s1')).
    { subst s1'. by destruct (passed r). }
    rewrite Hs1'.
    assert (Ht1' : test_results s1' = test_results s1) by (subst s1'; by destruct (passed r)).
    assert (Ho1' : out s1' = out s1) by (subst s1'; by destruct (passed r)).
    clearbody s1'. clear Hs1'.
    unfold bind at 1, get. unfold bind at 1.
    rewrite Ht1', Ht1, lookup_insert_eq. simpl lift. unfold ret at 1.
    unfold bind at 1.
    destruct (update_jira_task_requests E test_id (passed r)
                (py_max (elapsed_minutes r) 1) s1') as (rs2 & Hq2 & Hall2).
    destruct (update_jira_task_calm E test_id (passed r) (py_max (elapsed_minutes r) 1) s1')
      as (s2 & Hrun2 & _ & _ & _ & Ht2).
    rewrite Hrun2 in *. cbn [snd] in Hq2.
    run_step.
    match goal with |- context [run_cases E rest ?s0] =>
      destruct (IH s0 Hnd) as (s3 & rs3 & -> & Hq3 & Hkeep & Hall3) end.
    simpl in Hq3, Hkeep. rewrite requested_events_app in Hq3. simpl in Hq3.
    rewrite app_nil_r in Hq3.
    assert (Hmine : test_results s3 !! test_id = Some r).
    { rewrite Hkeep by done. rewrite Ht2, Ht1', Ht1. apply lookup_insert_eq. }
    exists s3, (rs2 ++ rs3)%list. split; [done|]. split; [|split].
    + rewrite Hq3, Hq2, Ho1', Hq1, <- List.app_assoc. reflexivity.
    + intros id Hid. simpl in Hid. rewrite Hkeep by tauto. rewrite Ht2, Ht1', Ht1.
      apply lookup_insert_ne. tauto.
    + apply Forall_app. split.
      * eapply List.Forall_impl; [|exact Hall2]. intros q Hq. exists test_id.
        split; [by left|]. unfold stored_passed. by rewrite Hmine.
      * eapply List.Forall_impl; [|exact Hall3]. intros q (id & Hin & Hq).
        exists id. split; [by right | done].
Qed.

(** X22: the requests of a run stay with the table. Every HTTP request
    of a run is the worklog of a test case of the table, or, for a test
    case of the table whose stored result says passed, the transitions
    query of its issue or the transition of its issue by a truthy id.
    So no issue outside the table is touched, and the issue of a failed
    test is never asked for its transitions nor moved. *)
Theorem requests_stay_on_table (E : env) :
  let s := snd (run_all_tests E initial) in
  Forall (fun r => ∃ test_id,
            In test_id (map fst TEST_CASES)
            ∧ tracker_call E (stored_passed (test_results s) test_id) test_id r)
    (requested (out s)).
Proof.
  cbv zeta. unfold run_all_tests, setup_mqtt.
  destruct (connect_ok E); [|by constructor].
  pose proof TEST_CASES_keys as Hnd.
  remember TEST_CASES as cases eqn:Hcases. clear Hcases.
  unfold bind, print, emit, modify, ret, get. cbv beta iota.
  change (negb true) with false. cbv beta iota.
  match goal with |- context [run_cases E cases ?s0] =>
    destruct (run_cases_requests E cases s0 Hnd) as (s1 & rs & -> & Hq & _ & Hall) end.
  cbn [snd out test_results with_out]. simpl in Hq.
  rewrite !requested_events_app, Hq. simpl. by rewrite !app_nil_r.
Qed.

(** X23: the response of a command. [send_command] returns the texts of
    the messages that arrive in the window of the command, in the order
    of arrival and joined by newlines; a message that is no UTF-8 is
    left out (its error is printed), and what earlier commands had
    collected is dropped. The command itself is published once, to the
    command topic. *)
Theorem response_of_a_window (E : env) (command : string) (s : state) :
  ∃ s',
    send_command E command s
    = (Ok (join newline (decoded (arrivals E (n_mqtt s)))), s')
    ∧ responses s' = decoded (arrivals E (n_mqtt s))
    ∧ published (out s') = (published (out s) ++ [(command_topic E, command)])%list
    ∧ n_mqtt s' = S (n_mqtt s).
Proof.
  unfold send_command. run_step.
  match goal with |- context [for_each ?l ?f ?s0] =>
    destruct (deliver_ok l s0) as (s' & Hrun & Hr & Hk & _);
    destruct (deliver_calm l s0) as (s'' & Hrun' & Hp & _) end.
  rewrite Hrun in Hrun'. injection Hrun' as <-. rewrite Hrun.
  simpl in *. rewrite Hr. eexists. split; [reflexivity|]. simpl.
  split; [exact Hr|]. split; [|by rewrite Hk].
  rewrite published_commands_app, Hp, !published_commands_app. simpl.
  by rewrite !app_nil_r.
Qed.

End RunnerRuns.

(** ** The time estimate updater: the calls of a run *)

Module EstimatorRuns.
Import PyStr PyNum Json Web Eff Estimator PyStrFacts EstimatorFacts.

Lemma requested_app (a b : list event) :
  requested (a ++ b) = (requested a ++ requested b)%list.
Proof.
  induction a as [|e a IH]; [done|]. destruct e; simpl; by rewrite IH.
Qed.

Lemma put_all_cons (E : env) (estimate_of : issue → string) (task : issue)
    (rest : list issue) (count : nat) (s : state) :
  let r := update_request E (key task) (estimate_of task) in
  put_all E estimate_of (task :: rest) count s
  = match http E (n_http s) r with
    | NoAnswer e =>
        (Raised e, {| out := out s ++ [Requested r]; n_http := S (n_http s) |})
    | Answer status_code _ =>
        if (status_code =? 204)%Z then
          put_all E estimate_of rest (S count)
            {| out := (out s ++ [Requested r])
                      ++ [Printed (UpdateDone (key task) (estimate_of task))];
               n_http := S (n_http s) |}
        else
          put_all E estimate_of rest count
            {| out := (out s ++ [Requested r])
                      ++ [Printed (UpdateFailed (key task) status_code)];
               n_http := S (n_http s) |}
    end.
Proof.
  cbv zeta. simpl. unfold bind at 1, requests.
  destruct (http E (n_http s) _) as [e|st iss]; [done|].
  cbn [fst]. by destruct (st =? 204)%Z.
Qed.

(** both loops: every task gets one call, in order, until a call raises *)
Lemma put_all_trace (E : env) (estimate_of : issue → string) (tasks : list issue)
    (count : nat) (s : state) :
  let rs := map (fun task => update_request E (key task) (estimate_of task)) tasks in
  (∃ s',
     put_all E estimate_of tasks count s = (Ok (count + accepted E (n_http s) rs)%nat, s')
     ∧ requested (out s') = (requested (out s) ++ rs)%list
     ∧ n_http s' = (n_http s + length tasks)%nat
     ∧ grows s s'
     ∧ ∀ j r, nth_error rs j = Some r →
              ∃ status_code issues, http E (n_http s + j) r = Answer status_code issues)
  ∨ (∃ s' e i r,
       put_all E estimate_of tasks count s = (Raised e, s')
       ∧ nth_error rs i = Some r
       ∧ http E (n_http s + i) r = NoAnswer e
       ∧ (∀ j r', j < i → nth_error rs j = Some r' →
                  ∃ status_code issues, http E (n_http s + j) r' = Answer status_code issues)
       ∧ requested (out s') = (requested (out s) ++ firstn (S i) rs)%list).
Proof.
  cbv zeta. revert count s. induction tasks as [|task rest IH]; intros count s.
  - left. exists s. simpl. rewrite Nat.add_0_r, app_nil_r.
    repeat split; try done; [apply log_grows_refl|]. intros [|j] r Hr; discriminate Hr.
  - rewrite put_all_cons. cbn [map accepted].
    destruct (http E (n_http s) (update_request E (key task) (estimate_of task)))
      as [e|st iss] eqn:Hrep.
    + right. eexists _, e, 0, _. split; [reflexivity|]. split; [reflexivity|].
      rewrite Nat.add_0_r. split; [exact Hrep|]. split; [intros j r' Hj; lia|].
      simpl. by rewrite requested_app.
    + destruct (st =? 204)%Z.
      all: match goal with |- context [put_all _ _ _ ?c ?s0] =>
             destruct (IH c s0) as [(s' & Hrun & Hreq & Hn & Hg & Hall)
                                   | (s' & e & i & r & Hrun & Hnth & Hno & Hbefore & Hreq)] end.
      all: cbn [out n_http] in *; rewrite !requested_app in Hreq; cbn [requested] in Hreq;
           rewrite app_nil_r, <- List.app_assoc in Hreq.
      all: try (left; exists s'; rewrite Hrun; split; [f_equal; f_equal; lia|];
                split; [exact Hreq|]; split; [cbn [length]; lia|];
                split; [eapply log_grows_trans; [|exact Hg]; eexists; cbn [out];
                        rewrite <- List.app_assoc; reflexivity|];
                intros [|j] r Hr; cbn [nth_error] in Hr;
                [injection Hr as <-; rewrite Nat.add_0_r; eauto|];
                replace (n_http s + S j)%nat with (S (n_http s) + j)%nat by lia;
                by apply Hall).
      all: right; exists s', e, (S i), r; split; [exact Hrun|]; split; [exact Hnth|];
           split; [by replace (n_http s + S i)%nat with (S (n_http s) + i)%nat by lia|];
           split; [|exact Hreq].
      all: intros [|j] r' Hj Hr'; cbn [nth_error] in Hr';
           [injection Hr' as <-; rewrite Nat.add_0_r; eauto|].
      all: replace (n_http s + S j)%nat with (S (n_http s) + j)%nat by lia;
           apply Hbefore; [lia | done].
Qed.

(** X9: when the tracker answers every call and both searches succeed, the
    requests of the run are the first search, one update per To Do task
    in the order of the answer, the second search and one update per test
    task in the order of the answer, and nothing else; the two counts
    printed are the numbers of updates answered with 204.  This holds
    for any arithmetic: the texts of the estimates are those the script
    computes, whatever they are. *)
Theorem update_calls_in_order (A : arithmetic) (E : env)
    (todo_tasks test_tasks : list issue) :
  answers E →
  http E 0 (first_search E) = Answer 200 (Some todo_tasks) →
  http E (S (length todo_tasks)) (second_search E) = Answer 200 (Some test_tasks) →
  let run := main_on A E initial in
  let task_updates := map (task_update A E todo_tasks) todo_tasks in
  let test_updates := map (test_update A E test_tasks) test_tasks in
  fst run = Ok tt
  ∧ requested (out (snd run))
    = (first_search E :: task_updates ++ second_search E :: test_updates)%list
  ∧ In (Printed (Updated (accepted E 1 task_updates) (length todo_tasks)))
       (out (snd run))
  ∧ In (Printed (UpdatedTests (accepted E (S (S (length todo_tasks))) test_updates)
                   (length test_tasks)))
       (out (snd run)).
Proof.
  intros Hans Hfirst Hsecond. cbv zeta.
  assert (Hrun : ∃ s4,
    main_on A E initial = (Ok tt, s4)
    ∧ requested (out s4)
      = (first_search E :: map (task_update A E todo_tasks) todo_tasks
         ++ second_search E :: map (test_update A E test_tasks) test_tasks)%list
    ∧ In (Printed (Updated (accepted E 1 (map (task_update A E todo_tasks) todo_tasks))
                     (length todo_tasks))) (out s4)
    ∧ In (Printed (UpdatedTests
                     (accepted E (S (S (length todo_tasks)))
                        (map (test_update A E test_tasks) test_tasks))
                     (length test_tasks))) (out s4));
    [|destruct Hrun as (s4 & -> & H); exact (conj eq_refl H)].
  destruct (main_after_search A E todo_tasks Hfirst) as (s0 & -> & Hn0 & Hr0).
  unfold tail_on. unfold bind at 1.
  destruct (put_all_trace E (estimate_on A todo_tasks) todo_tasks 0 s0)
    as [(s1 & -> & Hr1 & Hn1 & Hg1 & _) | (s1 & e & i & r & _ & _ & Hno & _)];
    [|destruct (Hans (n_http s0 + i) r) as (st & iss & Hrep); congruence].
  cbv zeta in Hr1. rewrite Hr0, Hn0 in *. clear Hr0 Hn0.
  unfold bind at 1, print at 1, modify at 1. cbv beta iota.
  unfold bind at 1, requests at 1. cbn [n_http out]. rewrite Hn1.
  unfold second_search in Hsecond. cbn [Nat.add]. rewrite Hsecond.
  cbv beta iota. cbn [fst]. change (200 =? 200)%Z with true. cbv iota.
  unfold bind at 1. unfold bind at 1. unfold lift, issues_of, ret at 1. cbn [snd].
  do 2 (unfold bind at 1; unfold print at 1, modify at 1; cbv beta iota).
  unfold bind at 1.
  match goal with |- context [put_all E ?f test_tasks 0 ?s2] =>
    destruct (put_all_trace E f test_tasks 0 s2)
      as [(s3 & -> & Hr3 & Hn3 & Hg3 & _) | (s3 & e & i & r & _ & _ & Hno & _)];
      [|destruct (Hans (n_http s2 + i) r) as (st & iss & Hrep); congruence]
  end.
  cbv zeta in Hr3. cbn [out n_http] in Hr3, Hg3.
  rewrite !requested_app, Hr1 in Hr3. cbn [requested] in Hr3.
  rewrite !app_nil_r in Hr3.
  unfold bind, print, modify. eexists. split; [reflexivity|]. cbn [out].
  split; [|split].
  - rewrite !requested_app, Hr3. cbn [requested]. rewrite !app_nil_r.
    cbn [app]. f_equal. rewrite <- List.app_assoc. reflexivity.
  - rewrite !in_app_iff. left. left. eapply log_grows_In; [exact Hg3|].
    cbn [out]. rewrite !in_app_iff. left. left. left. right. by left.
  - rewrite !in_app_iff. left. right. by left.
Qed.

(** X10: an update call that raises ends the script on that exception: the
    tasks before it have had their call, the tasks after it get none,
    and the second search is never sent.  This holds for any arithmetic. *)
Theorem raising_update_ends_run (A : arithmetic) (E : env) (todo_tasks : list issue)
    (i : nat) (task : issue) (e : exn) :
  http E 0 (first_search E) = Answer 200 (Some todo_tasks) →
  nth_error todo_tasks i = Some task →
  (∀ j task', j < i → nth_error todo_tasks j = Some task' →
     ∃ status_code issues,
       http E (S j) (task_update A E todo_tasks task') = Answer status_code issues) →
  http E (S i) (task_update A E todo_tasks task) = NoAnswer e →
  fst (main_on A E initial) = Raised e
  ∧ requested (out (snd (main_on A E initial)))
    = first_search E :: map (task_update A E todo_tasks) (firstn (S i) todo_tasks).
Proof.
  intros Hfirst Hnth Hbefore Hraise.
  assert (Hrun : ∃ s1, main_on A E initial = (Raised e, s1)
                       ∧ requested (out s1)
                         = first_search E
                           :: map (task_update A E todo_tasks) (firstn (S i) todo_tasks));
    [|destruct Hrun as (s1 & -> & H); exact (conj eq_refl H)].
  destruct (main_after_search A E todo_tasks Hfirst) as (s0 & -> & Hn0 & Hr0).
  unfold tail_on. unfold bind at 1.
  destruct (put_all_trace E (estimate_on A todo_tasks) todo_tasks 0 s0)
    as [(s1 & _ & _ & _ & _ & Hall) | (s1 & e' & i' & r & -> & Hnth' & Hno & Hbefore' & Hr1)];
    cbv zeta in *; rewrite Hn0 in *.
  - destruct (Hall i (task_update A E todo_tasks task)) as (st & iss & Hrep).
    + unfold task_update. by rewrite nth_error_map, Hnth.
    + cbn [Nat.add] in Hrep. congruence.
  - cbn [Nat.add] in *. rewrite nth_error_map in Hnth'.
    destruct (nth_error todo_tasks i') as [task'|] eqn:Hi'; [|discriminate Hnth'].
    injection Hnth' as <-.
    destruct (lt_eq_lt_dec i i') as [[Hlt | ->] | Hgt].
    + destruct (Hbefore' i (task_update A E todo_tasks task) Hlt) as (st & iss & Hrep);
        [unfold task_update; by rewrite nth_error_map, Hnth | congruence].
    + assert (task' = task) as -> by congruence.
      fold (task_update A E todo_tasks task) in Hno.
      assert (e' = e) as -> by congruence.
      eexists. split; [reflexivity|]. rewrite Hr1, Hr0. cbn [app]. f_equal.
      by rewrite <- firstn_map.
    + destruct (Hbefore i' task' Hgt Hi') as (st & iss & Hrep).
      unfold task_update in Hrep. congruence.
Qed.

(** X11: unless the first search is answered with status 200 and a list of
    issues, the run ends at once and abnormally; the search is the only
    request of the run, no issue is updated. *)
Theorem no_update_without_search (E : env) :
  (∀ todo_tasks, http E 0 (first_search E) ≠ Answer 200 (Some todo_tasks)) →
  let run := main E initial in
  requested (out (snd run)) = [first_search E]
  ∧ (∀ e, http E 0 (first_search E) = NoAnswer e → fst run = Raised e)
  ∧ (∀ status_code issues,
       http E 0 (first_search E) = Answer status_code issues →
       if (status_code =? 200)%Z then ∃ e, fst run = Raised e
       else fst run = Exited 1).
Proof.
  intros Hno. cbv zeta. unfold main, bind, requests, first_search in *. cbn [n_http initial].
  destruct (http E 0 (search E jql_todo "key,summary,parent")) as [e|st iss] eqn:Hrep.
  - split; [done|]. split; [by intros e' [= ->]|]. intros st iss [=].
  - cbn [fst]. destruct (st =? 200)%Z eqn:Hst; cbn [negb].
    + apply Z.eqb_eq in Hst. subst st. destruct iss as [todo|]; [by destruct (Hno todo)|].
      split; [done|]. split; [intros e [=]|]. intros st iss [= <- <-]. simpl. eauto.
    + split; [done|]. split; [intros e [=]|]. intros st' iss' [= <- <-].
      rewrite Hst. done.
Qed.

Lemma obliging_answers : answers obliging.
Proof. intros [|[|[|[|k]]]] r; simpl; eauto. Defined.

Lemma update_calls_in_order_witness :
  requested (out (snd (main_on exact obliging initial)))
  = [first_search obliging;
     task_update exact obliging sample_todo
       {| key := "RDP-7"; summary := "Add TLS handshake" |};
     task_update exact obliging sample_todo
       {| key := "RDP-8"; summary := "Status LED flag" |};
     second_search obliging;
     test_update exact obliging sample_tests
       {| key := "RDP-9"; summary := "Acceptance test of the LED" |}].
Proof.
  exact (proj1 (proj2 (update_calls_in_order exact obliging sample_todo sample_tests
                         obliging_answers eq_refl eq_refl))).
Defined.

Lemma raising_update_ends_run_witness :
  fst (main_on exact dropping initial) = Raised ConnectionError
  ∧ requested (out (snd (main_on exact dropping initial)))
    = first_search dropping
      :: map (task_update exact dropping sample_todo) (firstn 2 sample_todo).
Proof.
  apply (raising_update_ends_run exact dropping sample_todo 1
           {| key := "RDP-8"; summary := "Status LED flag" |} ConnectionError).
  - reflexivity.
  - reflexivity.
  - intros [|j] task' Hj Hnth; [|lia]. simpl. eauto.
  - reflexivity.
Defined.

Lemma no_update_without_search_witness :
  requested (out (snd (main down initial))) = [first_search down].
Proof.
  refine (proj1 (no_update_without_search down _)).
  intros todo_tasks. vm_compute. discriminate.
Defined.

End EstimatorRuns.

(** ** The firmware update packager: what it writes, and the text of VERSION *)

Module PackagerRuns.
Import PyStr Eff Packager PyStrFacts PackagerFacts.

Lemma copy2_frame (src dst : path) (s : state) (p : path) :
  in_output dst → ¬ in_output p →
  files (snd (copy2 src dst s)) !! p = files s !! p.
Proof.
  unfold in_output. intros Hdst Hp. unfold copy2.
  destruct (files s !! src) as [[content|]|]; try done.
  destruct (files s !! dst) as [[c|]|]; cbn [snd files].
  2: destruct (files s !! (dst ++ [basename src])%list) as [[c|]|]; cbn [snd files].
  all: try done.
  all: apply lookup_insert_ne; intros <-; apply Hp; try done.
  all: by destruct dst.
Qed.

Lemma copy2_no_exit (src dst : path) (s : state) (code : Z) :
  fst (copy2 src dst s) ≠ Exited code.
Proof.
  unfold copy2.
  destruct (files s !! src) as [[content|]|]; try done.
  destruct (files s !! dst) as [[c|]|]; try done.
  by destruct (files s !! (dst ++ [basename src])%list) as [[c|]|].
Qed.

Lemma copy_boards_frame (version : string) (boards : list path) (prepared : list path)
    (s : state) (p : path) :
  ¬ in_output p →
  ∃ o s', copy_boards version boards prepared s = (o, s')
          ∧ files s' !! p = files s !! p
          ∧ ∀ code, o ≠ Exited code.
Proof.
  intros Hp. revert prepared s. induction boards as [|b rest IH]; intros prepared s.
  - by eexists _, _.
  - simpl copy_boards. unfold bind at 1, get. cbv beta iota.
    destruct (exists_ (files s) (rapid_fw_zephyr b));
      [|destruct (exists_ (files s) (zephyr_bin b))].
    + unfold bind.
      match goal with |- context [copy2 ?a ?d ?s0] =>
        pose proof (copy2_frame a d s0 p eq_refl Hp) as Hc;
        pose proof (copy2_no_exit a d s0) as Hx;
        destruct (copy2 a d s0) as [[[]|e|c] s1]; cbn [fst snd files] in * end.
      * match goal with |- context [copy_boards _ _ ?q s1] =>
          destruct (IH q s1) as (o & s' & -> & Hf & Hn) end.
        eexists _, _. split; [reflexivity|]. split; [congruence | done].
      * by eexists _, _.
      * by destruct (Hx c).
    + unfold bind at 1, print, modify. cbv beta iota. unfold bind.
      match goal with |- context [copy2 ?a ?d ?s0] =>
        pose proof (copy2_frame a d s0 p eq_refl Hp) as Hc;
        pose proof (copy2_no_exit a d s0) as Hx;
        destruct (copy2 a d s0) as [[[]|e|c] s1]; cbn [fst snd files] in * end.
      * match goal with |- context [copy_boards _ _ ?q s1] =>
          destruct (IH q s1) as (o & s' & -> & Hf & Hn) end.
        eexists _, _. split; [reflexivity|]. split; [congruence | done].
      * by eexists _, _.
      * by destruct (Hx c).
    + unfold bind at 1, print, modify. cbv beta iota.
      match goal with |- context [copy_boards _ _ ?q ?s1] =>
        destruct (IH q s1) as (o & s' & -> & Hf & Hn) end.
      by eexists _, _.
Qed.

(** X13: the script ends with [exit] only with status 1 and only before it
    has written anything: when [build] is missing, when no listed name
    is a directory, or when VERSION is missing; the one line it prints
    says which. *)
Theorem exits_before_writing (listing : list string) (s : state) (code : Z) :
  fst (main listing s) = Exited code →
  code = 1%Z
  ∧ files (snd (main listing s)) = files s
  ∧ ∃ l, out (snd (main listing s)) = (out s ++ [l])%list
         ∧ ((l = NoBuildDir ∧ files s !! build_dir = None)
            ∨ (l = NoBoards ∧ files s !! build_dir = Some Dir
               ∧ boards_of (files s) listing = [])
            ∨ (l = NoVersionFile ∧ files s !! build_dir = Some Dir
               ∧ boards_of (files s) listing ≠ []
               ∧ files s !! version_file = None)).
Proof.
  assert (Hrun : ∃ o s', main listing s = (o, s') ∧
    (o = Exited code →
     code = 1%Z ∧ files s' = files s
     ∧ ∃ l, out s' = (out s ++ [l])%list
            ∧ ((l = NoBuildDir ∧ files s !! build_dir = None)
               ∨ (l = NoBoards ∧ files s !! build_dir = Some Dir
                  ∧ boards_of (files s) listing = [])
               ∨ (l = NoVersionFile ∧ files s !! build_dir = Some Dir
                  ∧ boards_of (files s) listing ≠ []
                  ∧ files s !! version_file = None))));
    [|destruct Hrun as (o & s' & -> & H); exact H].
  unfold main, boards_of. unfold bind at 1, get. cbv beta iota.
  unfold exists_ at 1, is_dir at 1.
  destruct (files s !! build_dir) as [[c|]|] eqn:Hb; cbn [negb].
  - unfold bind, raise. by eexists _, _.
  - unfold bind at 1, ret at 1. cbv beta iota.
    destruct (List.filter _ _) as [|b0 boards0] eqn:Hboards.
    + unfold bind, print, modify, exit. eexists _, _. split; [reflexivity|].
      intros [= <-]. cbn [files out].
      split; [done|]. split; [done|]. exists NoBoards. split; [done|]. right. left. done.
    + unfold exists_ at 1.
      destruct (files s !! version_file) as [v|] eqn:Hv; cbn [negb].
      * unfold bind at 1, read_text. rewrite Hv.
        destruct v as [text|]; [|by eexists _, _].
        unfold bind at 1, lift. destruct (parse_version text) as [e|version];
          [by eexists _, _|].
        unfold ret at 1. unfold bind at 1, mkdir_exist_ok.
        destruct (files s !! output_dir) as [[c|]|]; try (by eexists _, _).
        all: unfold bind at 1.
        all: match goal with |- context [copy_boards ?v ?bs [] ?s0] =>
               destruct (copy_boards_frame v bs [] s0 [] ltac:(done))
                 as ([prepared|e|c] & s1 & -> & _ & Hn) end.
        all: try (by eexists _, _).
        all: try (destruct prepared; by eexists _, _).
        all: eexists _, _; (split; [reflexivity|]); intros [= ->]; by destruct (Hn code).
      * unfold bind, print, modify, exit. eexists _, _. split; [reflexivity|].
        intros [= <-]. cbn [files out].
        split; [done|]. split; [done|]. exists NoVersionFile. split; [done|].
        right. right. done.
  - unfold bind, print, modify, exit. eexists _, _. split; [reflexivity|].
    intros [= <-]. cbn [files out].
    split; [done|]. split; [done|]. exists NoBuildDir. split; [done|]. by left.
Qed.

(** X14: a VERSION file that cannot be read as a version (a line with two
    "=", or one of the three keys missing) ends the script on the
    exception of the parse before anything is written: not even
    [firmware_updates] is made. *)
Theorem unparsable_version_writes_nothing (listing : list string) (s : state)
    (text : string) (e : exn) :
  files s !! build_dir = Some Dir →
  boards_of (files s) listing ≠ [] →
  files s !! version_file = Some (File text) →
  parse_version text = inl e →
  main listing s = (Raised e, s).
Proof.
  unfold boards_of. intros Hb Hboards Hv Hparse.
  unfold main. unfold bind at 1, get. unfold exists_ at 1, is_dir at 1. rewrite Hb.
  cbn [negb]. unfold bind at 1, ret at 1. cbv beta iota.
  destruct (List.filter _ _) as [|b0 boards0]; [done|].
  unfold exists_ at 1. rewrite Hv. cbn [negb].
  unfold bind at 1, read_text. rewrite Hv.
  unfold bind at 1, lift. by rewrite Hparse.
Qed.

Lemma count_char_sapp (c : ascii) (a b : string) :
  count_char c (a +:+ b) = count_char c a + count_char c b.
Proof.
  induction a as [|x a IH]; [done|]. rewrite sapp_cons. simpl. rewrite IH. lia.
Qed.

Lemma lstrip_idem (s : string) : lstrip (lstrip s) = lstrip s.
Proof.
  induction s as [|c s IH]; [done|]. simpl.
  destruct (is_space c) eqn:Hc; [done|]. simpl. by rewrite Hc.
Qed.

Lemma rstrip_idem (s : string) : rstrip (rstrip s) = rstrip s.
Proof.
  induction s as [|c s IH]; [done|]. simpl.
  destruct (rstrip s) as [|r0 r] eqn:Hr.
  - destruct (is_space c) eqn:Hc; [done|]. simpl. by rewrite Hc.
  - change (rstrip (String c (String r0 r)))
      with (match rstrip (String r0 r) with
            | EmptyString => if is_space c then EmptyString else String c EmptyString
            | r' => String c r'
            end).
    by rewrite IH.
Qed.

Lemma lstrip_rstrip (s : string) : lstrip (rstrip s) = rstrip (lstrip s).
Proof.
  induction s as [|c s IH]; [done|]. simpl.
  destruct (is_space c) eqn:Hc.
  - rewrite <- IH. destruct (rstrip s) as [|r0 r]; [done|]. simpl. by rewrite Hc.
  - simpl. destruct (rstrip s) as [|r0 r]; simpl; by rewrite Hc.
Qed.

Lemma lstrip_at_equals (a b : string) :
  lstrip (a +:+ String "=" b) = lstrip a +:+ String "=" b.
Proof.
  induction a as [|c a IH]; [done|]. rewrite sapp_cons. simpl.
  destruct (is_space c); [exact IH | by rewrite sapp_cons].
Qed.

Lemma rstrip_at_equals (a b : string) :
  rstrip (a +:+ String "=" b) = a +:+ String "=" (rstrip b).
Proof.
  induction a as [|c a IH].
  - rewrite !sapp_nil. simpl. by destruct (rstrip b).
  - rewrite !sapp_cons. simpl. rewrite IH.
    destruct a; [by rewrite sapp_nil | by rewrite sapp_cons].
Qed.

Lemma split_on_none (sep : ascii) (s : string) :
  count_char sep s = 0 → split_on sep s = [s].
Proof.
  induction s as [|c s IH]; [done|]. simpl.
  destruct (Ascii.eqb c sep); [done|]. simpl. intros H. by rewrite IH.
Qed.

Lemma split_on_at (sep : ascii) (a b : string) :
  count_char sep a = 0 →
  split_on sep (a +:+ String sep b) = a :: split_on sep b.
Proof.
  induction a as [|c a IH].
  - intros _. rewrite sapp_nil. simpl. by rewrite Ascii.eqb_refl.
  - rewrite sapp_cons. simpl. destruct (Ascii.eqb c sep); [done|]. simpl.
    intros H. by rewrite IH.
Qed.

Lemma rstrip_space (s : string) : rstrip (s +:+ " ") = rstrip s.
Proof.
  induction s as [|c s IH]; [done|]. rewrite sapp_cons. simpl. by rewrite IH.
Qed.

Lemma strip_space_r (s : string) : strip (s +:+ " ") = strip s.
Proof. unfold strip. by rewrite <- !lstrip_rstrip, rstrip_space. Qed.

Lemma contains_at (needle a b : string) : contains needle (a +:+ needle +:+ b) = true.
Proof. apply contains_spec. by exists a, b. Qed.

(** what the loop makes of one line [name = value] *)
Lemma read_version_line (kv : string * string) (rest : list string)
    (vars : gmap string string) :
  field_text (fst kv) → field_text (snd kv) →
  read_version_vars (version_line kv :: rest) vars
  = read_version_vars rest (<[strip (fst kv) := strip (snd kv)]> vars).
Proof.
  destruct kv as [k v]. intros (Hk & _) (Hv & _). cbn [fst snd] in *.
  unfold version_line. cbn [fst snd].
  assert (Hline : k +:+ " = " +:+ v = (k +:+ " ") +:+ String "=" (" " +:+ v)).
  { rewrite !sapp_assoc. reflexivity. }
  simpl read_version_vars.
  assert (Hc : contains "=" (k +:+ " = " +:+ v) = true).
  { rewrite Hline. apply (contains_at "=" (k +:+ " ") (" " +:+ v)). }
  rewrite Hc, Hline. unfold strip at 1.
  rewrite lstrip_at_equals, rstrip_at_equals, split_on_at, split_on_none.
  - change (strip (lstrip (k +:+ " "))) with (rstrip (lstrip (lstrip (k +:+ " ")))).
    rewrite lstrip_idem. fold (strip (k +:+ " ")). rewrite strip_space_r.
    unfold strip at 2. rewrite <- lstrip_rstrip, rstrip_idem, lstrip_rstrip.
    reflexivity.
  - rewrite count_char_rstrip by done. simpl. exact Hv.
  - rewrite count_char_lstrip by done. rewrite count_char_sapp, Hk. reflexivity.
Qed.

Lemma file_lines_from_line (current line rest : string) :
  count_char "010" line = 0 → count_char "013" line = 0 →
  file_lines_from current (line +:+ String "010" rest)
  = (current +:+ line) :: file_lines_from EmptyString rest.
Proof.
  revert current. induction line as [|c line IH]; intros current Hn Hr.
  - rewrite sapp_nil, sapp_empty_r. reflexivity.
  - rewrite sapp_cons. simpl in Hn, Hr. simpl file_lines_from.
    destruct (Ascii.eqb c "010"); [discriminate Hn|].
    destruct (Ascii.eqb c "013"); [discriminate Hr|].
    rewrite IH by done. by rewrite sapp_assoc.
Qed.

Lemma version_line_single (kv : string * string) :
  field_text (fst kv) → field_text (snd kv) →
  count_char "010" (version_line kv) = 0 ∧ count_char "013" (version_line kv) = 0.
Proof.
  intros (_ & Hkn & Hkr) (_ & Hvn & Hvr). unfold version_line.
  rewrite !count_char_sapp, Hkn, Hkr, Hvn, Hvr. done.
Qed.

Lemma file_lines_version_text (kvs : list (string * string)) :
  Forall (fun kv => field_text (fst kv) ∧ field_text (snd kv)) kvs →
  file_lines (version_text kvs) = map version_line kvs.
Proof.
  unfold file_lines. induction 1 as [|kv rest [Hk Hv] _ IH]; [done|].
  simpl version_text. destruct (version_line_single kv Hk Hv) as [Hn Hr].
  by rewrite file_lines_from_line, IH.
Qed.

Lemma read_version_lines (kvs : list (string * string)) (vars : gmap string string) :
  Forall (fun kv => field_text (fst kv) ∧ field_text (snd kv)) kvs →
  read_version_vars (map version_line kvs) vars = inr (entries kvs vars).
Proof.
  intros H. revert vars. induction H as [|kv rest [Hk Hv] _ IH]; intros vars; [done|].
  cbn [map]. rewrite read_version_line by done. apply IH.
Qed.

(** X15: reading a VERSION file back. For lines [name = value], each ended
    by a newline, whose names and values hold no "=" and no line end,
    the parse finds the stripped names with the stripped values, a later
    line overriding an earlier one, and the version is formatted from
    them. *)
Theorem version_round_trip (kvs : list (string * string)) :
  Forall (fun kv => field_text (fst kv) ∧ field_text (snd kv)) kvs →
  read_version_vars (file_lines (version_text kvs)) ∅ = inr (entries kvs ∅)
  ∧ parse_version (version_text kvs) = format_version (entries kvs ∅)
  ∧ ∀ major minor patch,
      entries kvs ∅ !! "VERSION_MAJOR" = Some major →
      entries kvs ∅ !! "VERSION_MINOR" = Some minor →
      entries kvs ∅ !! "PATCHLEVEL" = Some patch →
      parse_version (version_text kvs)
      = inr ("V" +:+ major +:+ "." +:+ minor +:+ "." +:+ patch).
Proof.
  intros H.
  assert (Hread : read_version_vars (file_lines (version_text kvs)) ∅
                  = inr (entries kvs ∅))
    by (rewrite file_lines_version_text by done; by apply read_version_lines).
  split; [exact Hread|].
  assert (Hparse : parse_version (version_text kvs) = format_version (entries kvs ∅))
    by (unfold parse_version; by rewrite Hread).
  split; [exact Hparse|].
  intros major minor patch Hmajor Hminor Hpatch.
  rewrite Hparse. unfold format_version, field. by rewrite Hmajor, Hminor, Hpatch.
Qed.

(** the loop over the lines goes through whenever every line that holds
    a "=" holds exactly one *)
Lemma read_version_vars_total (lines : list string) (vars : gmap string string) :
  (∀ line, In line lines → contains "=" line = true → count_char "=" line = 1) →
  ∃ vars', read_version_vars lines vars = inr vars'.
Proof.
  revert vars. induction lines as [|line rest IH]; intros vars H; [by eexists|].
  simpl. destruct (contains "=" line) eqn:Hc.
  - pose proof (split_on_length "=" (strip line)) as Hlen.
    rewrite count_char_strip, (H line (or_introl eq_refl) Hc) in Hlen by done.
    destruct (split_on "=" (strip line)) as [|k [|v [|x parts]]]; try discriminate Hlen.
    apply IH. intros l Hl. apply H. by right.
  - apply IH. intros l Hl. apply H. by right.
Qed.

Lemma format_version_cases (vars : gmap string string) :
  (∃ version, format_version vars = inr version)
  ∨ (∃ k, In k version_keys ∧ format_version vars = inl (KeyError k)).
Proof.
  unfold format_version, field, version_keys.
  destruct (vars !! "VERSION_MAJOR"); [|right; eexists; split; [|reflexivity]; simpl; auto].
  destruct (vars !! "VERSION_MINOR"); [|right; eexists; split; [|reflexivity]; simpl; auto].
  destruct (vars !! "PATCHLEVEL"); [|right; eexists; split; [|reflexivity]; simpl; auto].
  left. by eexists.
Qed.

(** X16: when every line of VERSION that holds a "=" holds exactly one,
    the parse can only fail for a missing key: it gives a version, or
    the KeyError of one of VERSION_MAJOR, VERSION_MINOR and PATCHLEVEL. *)
Theorem single_equals_parse (text : string) :
  (∀ line, In line (file_lines text) → contains "=" line = true →
           count_char "=" line = 1) →
  (∃ version, parse_version text = inr version)
  ∨ (∃ k, In k version_keys ∧ parse_version text = inl (KeyError k)).
Proof.
  intros H. unfold parse_version.
  destruct (read_version_vars_total (file_lines text) ∅ H) as [vars ->].
  apply format_version_cases.
Qed.


Lemma boards_of_spec (fs : filesystem) (listing : list string) (b : path) :
  In b (boards_of fs listing)
  ↔ ∃ n, In n listing ∧ b = (build_dir ++ [n])%list ∧ fs !! b = Some Dir.
Proof.
  unfold boards_of. rewrite filter_In, in_map_iff. unfold is_dir. split.
  - intros [(n & <- & Hn) Hd]. exists n. split; [done|]. split; [done|].
    by destruct (fs !! (build_dir ++ [n])%list) as [[]|].
  - intros (n & Hn & -> & Hd). split; [by exists n | by rewrite Hd].
Qed.


Lemma basename_board_target (version : string) (b : path) :
  basename (board_target version b) = target_filename (basename b) version.
Proof. reflexivity. Qed.


Lemma target_filename_component (board_name version : string) :
  component board_name → component version →
  component (target_filename board_name version).
Proof.
  unfold component, target_filename. intros Hb Hv.
  rewrite !count_char_sapp, Hb, Hv. reflexivity.
Qed.

Lemma prepared_names_components (fs : filesystem) (listing : list string)
    (version : string) :
  Forall component listing → component version →
  Forall component (prepared_names fs version (boards_of fs listing)).
Proof.
  intros Hl Hv. unfold prepared_names. apply List.Forall_forall. intros name Hin.
  apply in_map_iff in Hin as (b & <- & Hb). apply filter_In in Hb as [Hb _].
  apply boards_of_spec in Hb as (n & Hn & -> & _).
  apply target_filename_component; [|done].
  rewrite List.Forall_forall in Hl.
  unfold basename, build_dir. simpl. by apply Hl.
Qed.

(** X12: the script writes in [firmware_updates] only.  The model keeps a
    target as one component below [firmware_updates]; pathlib cuts the
    text of a target at every "/", so the model is the script where the
    names in [build] and the version read from VERSION hold no "/" (and
    where the files are plain files and directories, the only nodes of
    the model).  For such a project, whatever else the file system holds
    and however the run ends, every name the script prepares is one
    component, and everything outside [firmware_updates] is left as it
    was: the build outputs and VERSION are only read. *)
Theorem writes_only_to_output (listing : list string) (s : state) :
  Forall component listing →
  (∀ text version,
     files s !! version_file = Some (File text) →
     parse_version text = inr version → component version) →
  (∀ text version,
     files s !! version_file = Some (File text) →
     parse_version text = inr version →
     Forall component (prepared_names (files s) version (boards_of (files s) listing)))
  ∧ (∀ p, ¬ in_output p → files (snd (main listing s)) !! p = files s !! p).
Proof.
  intros Hl Hv. split.
  { intros text version Ht Hp. apply prepared_names_components; [done|].
    by apply (Hv text version). }
  intros p Hp. unfold main. unfold bind at 1, get.
  destruct (exists_ (files s) build_dir); cbn [negb]; [|done].
  unfold bind at 1. destruct (is_dir (files s) build_dir); [|done].
  unfold ret at 1.
  destruct (List.filter _ _) as [|b0 boards0]; [done|].
  destruct (exists_ (files s) version_file); cbn [negb]; [|done].
  unfold bind at 1, read_text.
  destruct (files s !! version_file) as [[text|]|]; try done.
  unfold bind at 1, lift. destruct (parse_version text) as [e|version]; [done|].
  unfold ret at 1. unfold bind at 1, mkdir_exist_ok.
  destruct (files s !! output_dir) as [[c|]|] eqn:Ho; try done.
  - unfold bind.
    destruct (copy_boards_frame version (b0 :: boards0) [] s p Hp)
      as ([prepared|e|c] & s1 & -> & Hf & _); try done.
    by destruct prepared.
  - unfold bind.
    match goal with |- context [copy_boards _ _ [] ?s0] =>
      destruct (copy_boards_frame version (b0 :: boards0) [] s0 p Hp)
        as ([prepared|e|c] & s1 & -> & Hf & _) end.
    all: cbn [files] in Hf;
         rewrite lookup_insert_ne in Hf by (intros <-; by apply Hp); try done.
    by destruct prepared.
Qed.











Lemma writes_only_to_output_witness :
  files (snd (main sample_listing {| files := sample_project; out := [] |}))
    !! ["VERSION"] = sample_project !! ["VERSION"].
Proof.
  refine (proj2 (writes_only_to_output sample_listing
                   {| files := sample_project; out := [] |} _ _) ["VERSION"] _).
  - repeat constructor.
  - intros text version Htext Hversion. vm_compute in Htext.
    injection Htext as <-. vm_compute in Hversion. injection Hversion as <-.
    reflexivity.
  - intros H. discriminate H.
Defined.

Lemma exits_before_writing_witness :
  files (snd (main sample_listing {| files := ∅; out := [] |})) = ∅.
Proof.
  refine (proj1 (proj2 (exits_before_writing sample_listing {| files := ∅; out := [] |}
                          1 _))).
  vm_compute. reflexivity.
Defined.

Lemma unparsable_version_writes_nothing_witness :
  main sample_listing {| files := unversioned_project; out := [] |}
  = (Raised (KeyError "PATCHLEVEL"), {| files := unversioned_project; out := [] |}).
Proof.
  apply (unparsable_version_writes_nothing sample_listing
           {| files := unversioned_project; out := [] |} short_version_text
           (KeyError "PATCHLEVEL")).
  - vm_compute. reflexivity.
  - vm_compute. discriminate.
  - vm_compute. reflexivity.
  - vm_compute. reflexivity.
Defined.

Lemma sample_entries_fields :
  Forall (fun kv => field_text (fst kv) ∧ field_text (snd kv)) sample_entries.
Proof. repeat constructor. Defined.

Lemma version_round_trip_witness :
  parse_version (version_text sample_entries) = inr "V1.2.3".
Proof.
  refine (proj2 (proj2 (version_round_trip sample_entries sample_entries_fields))
            "1" "2" "3" _ _ _); vm_compute; reflexivity.
Defined.

Lemma single_equals_parse_witness :
  (∃ version, parse_version sample_version_text = inr version)
  ∨ (∃ k, In k version_keys ∧ parse_version sample_version_text = inl (KeyError k)).
Proof.
  apply (single_equals_parse sample_version_text).
  intros line Hin _. vm_compute in Hin.
  destruct Hin as [<- | [<- | [<- | []]]]; reflexivity.
Defined.




End PackagerRuns.

(** ** The MQTT smoke test: any run *)

Module SmokeRuns.
Import PyStr PyNum Json Eff Smoke PyStrFacts SmokeFacts.

(** one call of [publish_test_message], whatever the broker does *)
Lemma publish_step (E : env) (topic : string) (message : message) (s : state) :
  ∃ b s',
    publish_test_message E topic message s = (Ok b, s')
    ∧ n_calls s' = S (n_calls s)
    ∧ if still_connected E (n_calls s) then
        published (out s')
        = (published (out s) ++ [(topic, payload_of message (now E (n_now s)))])%list
        ∧ n_now s' = S (n_now s)
        ∧ n_publish s' = S (n_publish s)
        ∧ b = match publish_rc E (n_publish s) with
              | Some rc => (rc =? 0)%Z
              | None => false
              end
      else
        published (out s') = published (out s) ∧ n_now s' = n_now s
        ∧ n_publish s' = n_publish s
        ∧ b = false
        ∧ out s' = (out s ++ [Printed NotConnected])%list.
Proof.
  unfold publish_test_message, try_except, isoformat_now, client_publish, payload_of.
  smoke_step. destruct (still_connected E (n_calls s)); simpl.
  - destruct (publish_rc E (n_publish s)) as [rc|]; simpl.
    + destruct (rc =? 0)%Z; simpl; eexists _, _; (split; [reflexivity|]); simpl;
        rewrite !published_app; simpl; rewrite ?app_nil_r; done.
    + eexists _, _. split; [reflexivity|]. simpl.
      rewrite !published_app. simpl. rewrite ?app_nil_r. done.
  - eexists _, _. split; [reflexivity|]. simpl.
    rewrite published_app. simpl. by rewrite app_nil_r.
Qed.

(** X19: [publish_test_message] never raises. It publishes, and reads the
    clock, exactly when the client is connected as the call starts; the
    payload is the message with the reading of the clock as its
    timestamp, or the text of a message that is no [dict]; and it
    returns [True] exactly when it has published and the broker call
    returned the code 0. *)
Theorem publish_outcome (E : env) (topic : string) (message : message) (s : state) :
  ∃ b s',
    publish_test_message E topic message s = (Ok b, s')
    ∧ published (out s')
      = (published (out s)
         ++ if still_connected E (n_calls s)
            then [(topic, payload_of message (now E (n_now s)))] else [])%list
    ∧ n_now s' = (n_now s + if still_connected E (n_calls s) then 1 else 0)
    ∧ (b = true ↔ still_connected E (n_calls s) = true
                  ∧ publish_rc E (n_publish s) = Some 0%Z).
Proof.
  destruct (publish_step E topic message s) as (b & s' & Hrun & _ & H).
  exists b, s'. split; [exact Hrun|].
  destruct (still_connected E (n_calls s)).
  - destruct H as (Hp & Hn & _ & ->). split; [exact Hp|]. split; [lia|].
    destruct (publish_rc E (n_publish s)) as [rc|].
    + split.
      * intros Hrc. apply Z.eqb_eq in Hrc. by subst.
      * intros [_ [= ->]]. done.
    + split; [done | by intros [_ ?]].
  - destruct H as (Hp & Hn & _ & -> & _). rewrite app_nil_r. split; [exact Hp|].
    split; [lia|]. split; [done | by intros [? _]].
Qed.

(** the waiting loop when CONNACK does not arrive in time: all the waits
    are slept through *)
Lemma wait_connected_timeout (E : env) (left waited : nat) (s : state) :
  (∀ k, connack_after E = Some k → waited + left < k) →
  ∃ s', wait_connected E waited left s = (Ok tt, s')
        ∧ out s' = (out s ++ repeat (Slept 1) left)%list
        ∧ connected s' = connected s
        ∧ n_now s' = n_now s ∧ n_publish s' = n_publish s ∧ n_calls s' = n_calls s.
Proof.
  revert waited s. induction left as [|left IH]; intros waited s Hlate.
  - exists s. simpl. rewrite app_nil_r.
    destruct (connack_after E) as [k|] eqn:Hk; [|done].
    specialize (Hlate k eq_refl). destruct (Nat.leb_spec k waited); [lia | done].
  - assert (Hloop : ∃ s', (emit (Slept 1) ;;; wait_connected E (S waited) left)%eff s
                          = (Ok tt, s')
                          ∧ out s' = (out s ++ repeat (Slept 1) (S left))%list
                          ∧ connected s' = connected s
                          ∧ n_now s' = n_now s ∧ n_publish s' = n_publish s
                          ∧ n_calls s' = n_calls s).
    { unfold bind at 1, emit, modify. cbv beta iota.
      match goal with |- context [wait_connected E (S waited) left ?s0] =>
        destruct (IH (S waited) s0) as (s' & -> & Ho & Hrest);
        [intros k Hk; specialize (Hlate k Hk); lia|] end.
      exists s'. split; [done|]. cbn [out connected n_now n_publish n_calls] in *.
      rewrite Ho, <- List.app_assoc. done. }
    simpl wait_connected. destruct (connack_after E) as [k|] eqn:Hk; [|exact Hloop].
    specialize (Hlate k eq_refl). destruct (Nat.leb_spec k waited); [lia | exact Hloop].
Qed.

Lemma comes_up_spec (E : env) :
  comes_up E = true ↔ connect_returns E = true ∧ ∃ k, connack_after E = Some k ∧ k <= 20.
Proof.
  unfold comes_up. rewrite andb_true_iff. split.
  - intros [Hr Hk]. split; [done|]. destruct (connack_after E) as [k|]; [|done].
    exists k. split; [done|]. by apply Nat.leb_le.
  - intros [Hr (k & -> & Hk)]. split; [done|]. by apply Nat.leb_le.
Qed.

(** [connect] on a client that is not yet connected *)
Lemma connect_outcome (E : env) (s : state) :
  connected s = false →
  ∃ s', connect E s = (Ok (comes_up E), s') ∧ silent s s'
        ∧ (comes_up E = false →
           out s'
           = (out s ++ Printed Connecting
              :: if connect_returns E
                 then repeat (Slept 1) 20 ++ [Printed ConnectionTimeout]
                 else [Printed (ConnectionError_ OSError)])%list).
Proof.
  intros Hoff. unfold connect, try_except.
  unfold bind at 1, print, emit, modify. cbv beta iota.
  destruct (comes_up E) eqn:Hup.
  - apply comes_up_spec in Hup as (Hret & k & Hk & Hle). rewrite Hret.
    unfold bind at 1, ret at 1. cbv beta iota. unfold bind at 1.
    match goal with |- context [wait_connected E 0 20 ?s0] =>
      destruct (wait_connected_run E k 0 20 s0 Hk) as (s' & -> & Hc & Hs); [lia|] end.
    unfold bind, get. rewrite Hc. simpl. exists s'. split; [done|].
    split; [|done]. eapply silent_trans; [|exact Hs]. silent_done.
  - destruct (connect_returns E) eqn:Hret.
    + unfold bind at 1, ret at 1. cbv beta iota. unfold bind at 1.
      match goal with |- context [wait_connected E 0 20 ?s0] =>
        destruct (wait_connected_timeout E 20 0 s0)
          as (s' & -> & Ho & Hc & Hn & Hp & Hk) end.
      { intros k Hk. unfold comes_up in Hup. rewrite Hret, Hk in Hup. simpl in Hup.
        apply Nat.leb_gt in Hup. lia. }
      cbn [out connected n_now n_publish n_calls] in *.
      unfold bind, get. rewrite Hc, Hoff. simpl. eexists. split; [reflexivity|].
      split.
      * split; [|done]. simpl. rewrite published_app, Ho, !published_app. simpl.
        assert (Hrep : ∀ n, published (repeat (Slept 1) n) = [])
          by (induction n; [done | simpl; done]).
        rewrite ?(Hrep 20), ?app_nil_r. done.
      * intros _. simpl. rewrite Ho, <- !List.app_assoc. reflexivity.
    + unfold bind, raise, ret. cbv beta iota. eexists.
      split; [reflexivity|]. split; [silent_done|]. intros _. simpl.
      by rewrite <- List.app_assoc.
Qed.


(** X21: what a run publishes, whatever the broker and the clock do.
    Nothing when the connection does not come up; else the heartbeat
    message when the client is connected at the first call, and the
    status message when it is connected at the second, each with the
    reading of the clock taken at its call as its timestamp. *)
Theorem publications_of_any_run (E : env) :
  publications E
  = if comes_up E then
      ((if still_connected E 0
        then [(TOPIC_HEARTBEAT, stamped heartbeat_fixed (now E 0))] else [])
       ++ (if still_connected E 1
           then [(TOPIC_STATUS,
                  stamped status_fixed (now E (if still_connected E 0 then 1 else 0)))]
           else []))%list
    else [].
Proof.
  unfold publications, main. unfold bind at 1.
  destruct (connect_outcome E initial eq_refl) as (s1 & -> & (Hp1 & Hn1 & _ & Hk1) & Ho).
  cbn [initial out published n_now n_calls] in Hp1, Hn1, Hk1.
  destruct (comes_up E); cbn [negb].
  - unfold bind at 1.
    destruct (publish_step E TOPIC_HEARTBEAT (DictMessage heartbeat_msg) s1)
      as (b2 & s2 & -> & Hk2 & H2).
    rewrite Hk1, Hp1, Hn1 in *. unfold bind at 1, emit at 1, modify at 1. cbv beta iota.
    unfold bind at 1.
    match goal with |- context [publish_test_message E TOPIC_STATUS _ ?s0] =>
      destruct (publish_step E TOPIC_STATUS (DictMessage status_msg) s0)
        as (b3 & s3 & -> & _ & H3) end.
    cbn [out n_now n_calls n_publish] in H3. rewrite Hk2, published_app in H3.
    cbn [published] in H3. rewrite app_nil_r in H3.
    destruct (listening_silent E s3) as (s5 & -> & Hp5). cbn [snd]. rewrite Hp5.
    unfold payload_of in *.
    destruct (still_connected E 0), (still_connected E 1).
    all: destruct H2 as (Hp2 & Hn2 & _); destruct H3 as (Hp3 & _).
    all: rewrite Hp3, Hp2, ?Hn2, ?heartbeat_payload, ?status_payload; reflexivity.
  - unfold print, emit, modify. cbn [snd out]. rewrite published_app, Hp1. reflexivity.
Qed.


End SmokeRuns.
